(** * Moduly-cli: architecture and risk analysis engine

    A shallow embedding of the analysis core of Moduly-cli
    ([src/analyzer/project.ts], [src/analyzer/dependencies.ts],
    [src/analyzer/security.ts], [src/types.ts]) together with the properties
    of its health scorer, path resolver, dependency graph builder, package
    usage classifier and security pattern engine.

    Conventions of the embedding:
    - a JavaScript string is a [string] of 8-bit code units;
    - a JavaScript [number] that holds a count is a [Z]; an array length is
      [Z.of_nat (length l)]; the two quotients the scorer compares against a
      constant are exact rationals ([Q]);
    - an array is a [list]; [push] appends at the end;
    - a JSON object whose key order is observable is an association list;
    - the file system, the Babel parser and the audit process are inputs of
      the functions that use them. *)

From Stdlib Require Import ZArith QArith List String Ascii Bool Lia.
From Stdlib Require Import DecimalString.
Import ListNotations.

Close Scope Q_scope.
Open Scope nat_scope.
Open Scope string_scope.

(* ================================================================== *)
(** * Data model ([src/types.ts]) *)
(* ================================================================== *)

Module Types.

Record ProjectStats := {
  totalFiles : Z;
  totalLOC : Z;
  totalCodeLines : Z;
  totalCommentLines : Z;
  totalBlankLines : Z
}.

Record Hotspot := {
  file : string;
  commits : Z
}.

Record Link := {
  source : string;
  target : string
}.

(** [nodes] holds the [id] of each [{ id }] object. *)
Record DependencyGraph := {
  nodes : list string;
  links : list Link
}.

Inductive VulnSource := NpmAudit | CodeScan.

(** [severity] is declared as the union ['low' | 'medium' | 'high' |
    'critical'], but the declaration is erased at run time and one
    producer copies the field from parsed JSON with a cast only, so the
    field is kept as the string it is. *)
Record SecurityVulnerability := {
  name : string;
  severity : string;
  description : string;
  vsource : VulnSource;
  vfile : option string;
  line : option nat;
  category : option string
}.

Record Outdated := {
  oname : string;
  current : string;
  latest : string
}.

Record PackageDependencies := {
  dependencies : list (string * string);
  devDependencies : list (string * string);
  used : list string;
  unused : list string;
  outdated : list Outdated;
  suggestions : list string
}.

End Types.
Import Types.

(* ================================================================== *)
(** * Health scorer ([src/analyzer/project.ts]) *)
(* ================================================================== *)

Module Project.

(** [n || 1] on an array length. *)
Definition orOne (n : nat) : nat :=
  match n with O => 1 | _ => n end.

(** Strict comparison of rationals as a boolean. *)
Definition Qltb (x y : Q) : bool := negb (Qle_bool y x).

(** [hotspots.filter(h => h.commits > 10).length] *)
Definition activeHotspots (hotspots : list Hotspot) : Z :=
  Z.of_nat (List.length (filter (fun h => 10 <? commits h)%Z hotspots)).

(** [dependencies.links.length / (dependencies.nodes.length || 1)] *)
Definition couplingRatio (g : DependencyGraph) : Q :=
  (Z.of_nat (List.length (links g)) # Pos.of_nat (orOne (List.length (nodes g))))%Q.

(** [security.filter(v => v.severity === sev).length] *)
Definition severityCount (sev : string) (security : list SecurityVulnerability) : Z :=
  Z.of_nat (List.length (filter (fun v => String.eqb (severity v) sev) security)).

(** [Math.min(criticalCount * 10 + highCount * 5 + mediumCount * 2, 30)] *)
Definition securityPenalty (security : list SecurityVulnerability) : Z :=
  let criticalCount := severityCount "critical" security in
  let highCount := severityCount "high" security in
  let mediumCount := severityCount "medium" security in
  Z.min (criticalCount * 10 + highCount * 5 + mediumCount * 2) 30.

(** [stats.totalCommentLines / stats.totalCodeLines], evaluated only under
    the guard [stats.totalCodeLines > 0]. *)
Definition commentRatio (stats : ProjectStats) : Q :=
  (totalCommentLines stats # Z.to_pos (totalCodeLines stats))%Q.

(** The score before the final clamp: the value of the local variable
    [score] when [calculateHealthScore] reaches its [return]. *)
Definition rawScore (stats : ProjectStats) (hotspots : list Hotspot)
    (deps : DependencyGraph) (unusedDepsCount : Z)
    (security : list SecurityVulnerability) : Z :=
  let score := 100%Z in
  let score := if (200 <? totalFiles stats)%Z then (score - 10)%Z else score in
  let score := if (10000 <? totalLOC stats)%Z then (score - 10)%Z else score in
  let score := (score - Z.min (activeHotspots hotspots * 3) 15)%Z in
  let score := if Qltb 3%Q (couplingRatio deps) then (score - 15)%Z else score in
  let score := (score - Z.min (unusedDepsCount * 2) 15)%Z in
  let score := (score - securityPenalty security)%Z in
  let score :=
    if (0 <? totalCodeLines stats)%Z
    then if Qltb (commentRatio stats) (5 # 100)%Q then (score - 5)%Z else score
    else score in
  score.

(** [Math.floor(Math.max(0, Math.min(100, score)))]: every deduction is an
    integer, so [Math.floor] acts on an integer and returns it. *)
Definition calculateHealthScore (stats : ProjectStats) (hotspots : list Hotspot)
    (deps : DependencyGraph) (unusedDepsCount : Z)
    (security : list SecurityVulnerability) : Z :=
  Z.max 0 (Z.min 100 (rawScore stats hotspots deps unusedDepsCount security)).

End Project.

(* ================================================================== *)
(** * JavaScript string primitives used by the analysers *)
(* ================================================================== *)

Module JsString.

Definition slash : ascii := "/"%char.
Definition backslash : ascii := "\"%char.
Definition dot : ascii := "."%char.
Definition newline : ascii := "010"%char.

(** [s.startsWith(p)] *)
Definition startsWith (s p : string) : bool := String.prefix p s.

(** [s.slice(i, j)] for [0 <= i <= j]. *)
Definition slice (i j : nat) (s : string) : string := String.substring i (j - i) s.

(** [s.endsWith(p)] *)
Definition endsWith (s p : string) : bool :=
  let n := String.length s in
  let m := String.length p in
  (m <=? n)%nat && String.eqb (slice (n - m) n s) p.

(** [s.replace(/\\/g, '/')] *)
Fixpoint replaceBackslashes (s : string) : string :=
  match s with
  | EmptyString => EmptyString
  | String c s' =>
      String (if Ascii.eqb c backslash then slash else c) (replaceBackslashes s')
  end.

(** [s.replace(/\.js$/, '.ts')] *)
Definition replaceJsSuffix (s : string) : string :=
  if endsWith s ".js"
  then slice 0 (String.length s - 3) s ++ ".ts"
  else s.

(** [s.split(sep)] for a one-character separator: the pieces between the
    occurrences of [sep]; always at least one piece. *)
Fixpoint split (sep : ascii) (s : string) : list string :=
  match s with
  | EmptyString => [EmptyString]
  | String c s' =>
      if Ascii.eqb c sep then EmptyString :: split sep s'
      else match split sep s' with
           | [] => [String c EmptyString]
           | p :: ps => String c p :: ps
           end
  end.

(** [l.join(sep)] *)
Definition join (sep : string) (l : list string) : string := String.concat sep l.

(** [l.includes(x)] on an array of strings. *)
Definition includes (l : list string) (x : string) : bool := existsb (String.eqb x) l.

(** White space and line terminators in the 8-bit range: TAB, LF, VT, FF,
    CR, SP and NBSP.  This is the set removed by [trim] and matched by the
    regular expression class [\s]. *)
Definition isWhiteSpace (c : ascii) : bool :=
  let n := nat_of_ascii c in
  ((9 <=? n) && (n <=? 13) || (n =? 32) || (n =? 160))%nat.

Fixpoint trimStart (s : string) : string :=
  match s with
  | EmptyString => EmptyString
  | String c s' => if isWhiteSpace c then trimStart s' else s
  end.

Fixpoint trimEnd (s : string) : string :=
  match s with
  | EmptyString => EmptyString
  | String c s' =>
      match trimEnd s' with
      | EmptyString => if isWhiteSpace c then EmptyString else String c EmptyString
      | t => String c t
      end
  end.

(** [s.trim()] *)
Definition trim (s : string) : string := trimEnd (trimStart s).

Definition lowerChar (c : ascii) : ascii :=
  let n := nat_of_ascii c in
  if ((65 <=? n) && (n <=? 90))%nat then ascii_of_nat (n + 32) else c.

Definition upperChar (c : ascii) : ascii :=
  let n := nat_of_ascii c in
  if ((97 <=? n) && (n <=? 122))%nat then ascii_of_nat (n - 32) else c.

(** [s.toLowerCase()] on the letters A-Z. *)
Fixpoint toLowerCase (s : string) : string :=
  match s with
  | EmptyString => EmptyString
  | String c s' => String (lowerChar c) (toLowerCase s')
  end.

(** Decimal rendering of a number inside a template literal. *)
Definition ofNat (n : nat) : string := NilEmpty.string_of_uint (Nat.to_uint n).

End JsString.

(* ================================================================== *)
(** * The POSIX flavour of Node's [path] module

    [path] belongs to the Node runtime, not to the repository; the three
    functions the analysers call are written here after the runtime's
    [path.posix] implementation. *)
(* ================================================================== *)

Module Path.
Import JsString.

Definition isSlashAt (path : string) (i : nat) : bool :=
  match String.get i path with
  | Some c => Ascii.eqb c slash
  | None => false
  end.

(** The scan of [dirname]: [for (i = path.length - 1; i >= 1; --i)],
    entered at index [i]; the result is [end], [None] standing for [-1]. *)
Fixpoint dirnameScan (path : string) (i : nat) (matchedSlash : bool) : option nat :=
  match i with
  | O => None
  | S j =>
      if isSlashAt path i
      then if negb matchedSlash then Some i else dirnameScan path j matchedSlash
      else dirnameScan path j false
  end.

(** [path.dirname(p)] *)
Definition dirname (path : string) : string :=
  if (String.length path =? 0)%nat then "."
  else
    let hasRoot := isSlashAt path 0 in
    match dirnameScan path (String.length path - 1) true with
    | None => if hasRoot then "/" else "."
    | Some e => if hasRoot && (e =? 1)%nat then "//" else slice 0 e path
    end.

Record ExtState := {
  startDot : option nat;
  startPart : nat;
  endIdx : option nat;
  matchedSlash : bool;
  preDotState : Z
}.

(** The scan of [extname]: [for (i = path.length - 1; i >= 0; --i)];
    the first argument counts the indices still to visit. *)
Fixpoint extnameScan (path : string) (n : nat) (st : ExtState) : ExtState :=
  match n with
  | O => st
  | S i =>
      if isSlashAt path i
      then
        if negb (matchedSlash st)
        then {| startDot := startDot st; startPart := i + 1; endIdx := endIdx st;
                matchedSlash := matchedSlash st; preDotState := preDotState st |}
        else extnameScan path i st
      else
        let st1 :=
          match endIdx st with
          | None => {| startDot := startDot st; startPart := startPart st;
                       endIdx := Some (i + 1); matchedSlash := false;
                       preDotState := preDotState st |}
          | Some _ => st
          end in
        let st2 :=
          match String.get i path with
          | Some c =>
              if Ascii.eqb c dot
              then match startDot st1 with
                   | None => {| startDot := Some i; startPart := startPart st1;
                                endIdx := endIdx st1; matchedSlash := matchedSlash st1;
                                preDotState := preDotState st1 |}
                   | Some _ =>
                       {| startDot := startDot st1; startPart := startPart st1;
                          endIdx := endIdx st1; matchedSlash := matchedSlash st1;
                          preDotState := 1 |}
                   end
              else match startDot st1 with
                   | Some _ =>
                       {| startDot := startDot st1; startPart := startPart st1;
                          endIdx := endIdx st1; matchedSlash := matchedSlash st1;
                          preDotState := (-1) |}
                   | None => st1
                   end
          | None => st1
          end in
        extnameScan path i st2
  end.

(** [path.extname(p)] *)
Definition extname (path : string) : string :=
  let st := extnameScan path (String.length path)
              {| startDot := None; startPart := 0; endIdx := None;
                 matchedSlash := true; preDotState := 0 |} in
  match startDot st, endIdx st with
  | Some sd, Some e =>
      if (preDotState st =? 0)%Z
         || ((preDotState st =? 1)%Z && (sd =? e - 1)%nat && (sd =? startPart st + 1)%nat)
      then ""
      else slice sd e path
  | _, _ => ""
  end.

(** [normalizeString]: the segments between separators are visited left to
    right; empty segments and [.] are dropped, [..] removes the last kept
    segment unless there is none or it is itself [..], in which case [..]
    is kept when [allowAboveRoot] holds.  [res] is the kept segments, last
    one first. *)
Fixpoint normalizeSegments (allowAboveRoot : bool) (segs res : list string) : list string :=
  match segs with
  | [] => rev res
  | s :: rest =>
      if String.eqb s "" || String.eqb s "." then normalizeSegments allowAboveRoot rest res
      else if String.eqb s ".." then
        match res with
        | top :: res' =>
            if String.eqb top ".."
            then normalizeSegments allowAboveRoot rest
                   (if allowAboveRoot then ".." :: res else res)
            else normalizeSegments allowAboveRoot rest res'
        | [] => normalizeSegments allowAboveRoot rest
                  (if allowAboveRoot then [".."] else [])
        end
      else normalizeSegments allowAboveRoot rest (s :: res)
  end.

Definition normalizeString (path : string) (allowAboveRoot : bool) : string :=
  join "/" (normalizeSegments allowAboveRoot (split slash path) []).

(** [path.normalize(p)] *)
Definition normalize (path : string) : string :=
  if (String.length path =? 0)%nat then "."
  else
    let isAbsolute := isSlashAt path 0 in
    let trailingSeparator := isSlashAt path (String.length path - 1) in
    let p := normalizeString path (negb isAbsolute) in
    if (String.length p =? 0)%nat
    then if isAbsolute then "/" else if trailingSeparator then "./" else "."
    else
      let p := if trailingSeparator then p ++ "/" else p in
      if isAbsolute then "/" ++ p else p.

(** [path.join(a, b)] *)
Definition join2 (a b : string) : string :=
  let joined :=
    if (String.length a =? 0)%nat then b
    else if (String.length b =? 0)%nat then a
    else a ++ "/" ++ b in
  if (String.length joined =? 0)%nat then "." else normalize joined.

End Path.


(* ================================================================== *)
(** * Syntax trees and the analysed project

    The Babel parser and traverser are external.  A syntax tree is kept to
    the node kinds the visitors of the analysers look at; every other kind
    is [OtherNode] with its children.  [traverse] calls the visitor of a
    node before it descends into the children, in field order. *)
(* ================================================================== *)

Module Ast.

Inductive JSXName :=
| JSXIdentifier (name : string)
| JSXNamespacedName (namespace name : string).

#[warnings="-register-all"]
Inductive Node :=
| Identifier (name : string)
| StringLiteral (value : string)
| Import
| MemberExpression (object property : Node)
| CallExpression (loc : option nat) (callee : Node) (arguments : list Node)
| NewExpression (loc : option nat) (callee : Node) (arguments : list Node)
| AssignmentExpression (loc : option nat) (left right : Node)
| JSXAttribute (loc : option nat) (name : JSXName) (value : list Node)
| ImportDeclaration (source : string)
| ExportNamedDeclaration (declaration : list Node) (source : option string)
| ExportAllDeclaration (source : string)
| OtherNode (children : list Node).

(** The nodes of a tree in the order [traverse] enters them. *)
Fixpoint preorder (n : Node) : list Node :=
  n ::
  match n with
  | Identifier _ | StringLiteral _ | Import => []
  | MemberExpression o p => preorder o ++ preorder p
  | CallExpression _ c args => preorder c ++ flat_map preorder args
  | NewExpression _ c args => preorder c ++ flat_map preorder args
  | AssignmentExpression _ l r => preorder l ++ preorder r
  | JSXAttribute _ _ v => flat_map preorder v
  | ImportDeclaration _ | ExportAllDeclaration _ => []
  | ExportNamedDeclaration d _ => flat_map preorder d
  | OtherNode cs => flat_map preorder cs
  end.

(** [traverse(ast, visitor)] for a visitor that pushes onto one array. *)
Definition traverse {A : Type} (ast : Node) (visitor : Node -> list A) : list A :=
  flat_map visitor (preorder ast).

(** [node.callee], present on call and [new] expressions only. *)
Definition callee (n : Node) : option Node :=
  match n with
  | CallExpression _ c _ | NewExpression _ c _ => Some c
  | _ => None
  end.

(** [node.loc?.start.line] *)
Definition startLine (n : Node) : option nat :=
  match n with
  | CallExpression l _ _ | NewExpression l _ _
  | AssignmentExpression l _ _ | JSXAttribute l _ _ => l
  | _ => None
  end.

(** [n?.type === 'Identifier' && n.name === s] *)
Definition isIdentifierNamed (n : option Node) (s : string) : bool :=
  match n with
  | Some (Identifier x) => String.eqb x s
  | _ => false
  end.

End Ast.

(** Exceptions: [Throw] stands for any thrown value, [tryCatch] for a
    [try] block whose handler ignores it. *)
Inductive Exc (A : Type) : Type :=
| Ok (a : A)
| Throw.
Arguments Ok {A} a.
Arguments Throw {A}.

Definition tryCatch {A : Type} (body : Exc A) (handler : A) : A :=
  match body with
  | Ok a => a
  | Throw => handler
  end.

Definition bindExc {A B : Type} (m : Exc A) (k : A -> Exc B) : Exc B :=
  match m with
  | Ok a => k a
  | Throw => Throw
  end.

Module World.

(** A parsed [package.json]: [dependencies] and [devDependencies] are
    absent or objects from names to version ranges, in key order. *)
Record Pkg := {
  pkgDependencies : option (list (string * string));
  pkgDevDependencies : option (list (string * string))
}.

(** An item of the [via] array of an audit entry. *)
Inductive ViaItem :=
| ViaName (s : string)
| ViaObject (title name : option string).

Inductive Via :=
| ViaArray (items : list ViaItem)
| ViaOther (rendered : string).

(** An entry of [vulnerabilities] (npm 7 and later); [vseverity] is [None]
    when the field is absent or not a string. *)
Record AuditVuln := {
  vseverity : option string;
  range : option string;
  via : Via
}.

(** An entry of [advisories] (npm 6). *)
Record Advisory := {
  module_name : string;
  title : string;
  aseverity : string;
  overview : option string
}.

Record AuditResult := {
  vulnerabilities : option (list (string * AuditVuln));
  advisories : option (list Advisory)
}.

(** How [execAsync('npm audit --json 2>&1')] ends: it resolves with the
    output, or rejects (non-zero exit status, missing tool, timeout) with
    an error that may carry the output. *)
Inductive ExecOutcome :=
| Resolved (stdout : string)
| Rejected (stdout : option string).

(** Everything the analysers read from outside. *)
Record Env := {
  (** [fs.readFile(path.join(projectPath, file), 'utf-8')] *)
  readFile : string -> Exc string;
  (** [parse(content, { plugins, errorRecovery: true })] *)
  parse : list string -> string -> Exc Ast.Node;
  (** [fs.pathExists] of [package.json] and of [package-lock.json] *)
  pkgJsonExists : bool;
  lockExists : bool;
  (** [fs.readJson] of [package.json] *)
  readJson : Exc Pkg;
  execAudit : ExecOutcome;
  (** [JSON.parse] on the audit output *)
  jsonParse : string -> Exc AuditResult
}.

End World.

(* ================================================================== *)
(** * File and package dependencies ([src/analyzer/dependencies.ts]) *)
(* ================================================================== *)

Module Dependencies.
Import JsString Ast World.

Definition importPlugins : list string :=
  ["typescript"; "jsx"; "decorators-legacy"; "classProperties"; "dynamicImport";
   "optionalChaining"; "nullishCoalescingOperator"; "exportDefaultFrom";
   "exportNamespaceFrom"].

(** [args[0]] when it is a string literal. *)
Definition firstStringArg (args : list Node) : list string :=
  match args with
  | StringLiteral v :: _ => [v]
  | _ => []
  end.

(** The four visitors of [extractImports]. *)
Definition importVisitor (n : Node) : list string :=
  match n with
  | ImportDeclaration s => [s]
  | ExportNamedDeclaration _ (Some s) => [s]
  | ExportAllDeclaration s => [s]
  | CallExpression _ c args =>
      (if isIdentifierNamed (Some c) "require" then firstStringArg args else [])
      ++ (match c with Import => firstStringArg args | _ => [] end)
  | _ => []
  end.

(** [extractImports(content, filePath)]: a parse failure leaves the list
    empty. *)
Definition extractImports (E : Env) (content filePath : string) : list string :=
  tryCatch
    (bindExc (parse E importPlugins content) (fun ast => Ok (traverse ast importVisitor)))
    [].

(** [isRelativeImport(source)] *)
Definition isRelativeImport (source : string) : bool :=
  startsWith source "." || startsWith source "/".

(** [getPackageName(source)] *)
Definition getPackageName (source : string) : string :=
  if startsWith source "@"
  then join "/" (firstn 2 (split slash source))
  else hd "" (split slash source).

Definition extensions : list string :=
  [""; ".ts"; ".tsx"; ".js"; ".jsx"; "/index.ts"; "/index.tsx"; "/index.js"; "/index.jsx"].

(** [(resolved + ext).replace(/\\/g, '/')] *)
Definition candidate (resolved ext : string) : string :=
  replaceBackslashes (resolved ++ ext).

(** [candidate.replace(/\.js$/, '.ts').replace(/\\/g, '/')] *)
Definition candidateAlt (resolved ext : string) : string :=
  replaceBackslashes (replaceJsSuffix (candidate resolved ext)).

(** The predicate handed to [normalizedFiles.find]. *)
Definition matches (resolved ext f : string) : bool :=
  String.eqb f (candidate resolved ext) || String.eqb f (candidateAlt resolved ext).

(** The loop [for (const ext of extensions)]: the first extension whose
    [find] gives a truthy (non-empty) string ends it. *)
Fixpoint probe (normalizedFiles : list string) (resolved : string) (exts : list string)
  : option string :=
  match exts with
  | [] => None
  | ext :: rest =>
      match find (matches resolved ext) normalizedFiles with
      | Some m =>
          if (String.length m =? 0)%nat then probe normalizedFiles resolved rest
          else Some m
      | None => probe normalizedFiles resolved rest
      end
  end.

(** [path.join(path.dirname(file), importSource).replace(/\\/g, '/')] *)
Definition resolvedPath (file importSource : string) : string :=
  replaceBackslashes (Path.join2 (Path.dirname file) importSource).

(** The body of [for (const importSource of imports)] past the
    relative-import guard: the target of the edge it pushes, if any. *)
Definition resolveImport (normalizedFiles : list string) (file importSource : string)
  : option string :=
  probe normalizedFiles (resolvedPath file importSource) extensions.

(** The edges pushed while one import of [file] is handled. *)
Definition linksOfImport (normalizedFiles : list string) (file importSource : string)
  : list Link :=
  if negb (isRelativeImport importSource) then []
  else match resolveImport normalizedFiles file importSource with
       | Some m => [ {| source := replaceBackslashes file; target := m |} ]
       | None => []
       end.

(** The edges pushed while [file] is handled; an unreadable file is
    skipped. *)
Definition linksOfFile (E : Env) (projectPath : string) (normalizedFiles : list string)
    (file : string) : list Link :=
  tryCatch
    (bindExc (readFile E (Path.join2 projectPath file)) (fun content =>
       Ok (flat_map (linksOfImport normalizedFiles file) (extractImports E content file))))
    [].

(** The array [links] when the loop over [files] has ended. *)
Definition discoveredLinks (E : Env) (projectPath : string) (files : list string)
  : list Link :=
  flat_map (linksOfFile E projectPath (map replaceBackslashes files)) files.

(** [analyzeFileDependencies(projectPath, files)] *)
Definition analyzeFileDependencies (E : Env) (projectPath : string) (files : list string)
  : DependencyGraph :=
  let nodes := map replaceBackslashes files in
  let links := discoveredLinks E projectPath files in
  {| nodes := firstn 1000 nodes; links := firstn 2000 links |}.

(** ** Package usage *)

Definition defaultResult : PackageDependencies :=
  {| dependencies := []; devDependencies := []; used := []; unused := [];
     outdated := []; suggestions := [] |}.

(** Writing key [k] of an object: an existing key keeps its place. *)
Fixpoint objSet (k v : string) (o : list (string * string)) : list (string * string) :=
  match o with
  | [] => [(k, v)]
  | (k', v') :: o' =>
      if String.eqb k k' then (k', v) :: o' else (k', v') :: objSet k v o'
  end.

(** [{ ...a, ...b }] *)
Definition objSpread (a b : list (string * string)) : list (string * string) :=
  fold_left (fun acc kv => objSet (fst kv) (snd kv) acc) (a ++ b) [].

(** [o[k]] *)
Fixpoint objGet (k : string) (o : list (string * string)) : option string :=
  match o with
  | [] => None
  | (k', v) :: o' => if String.eqb k k' then Some v else objGet k o'
  end.

(** [usedPackages.add(x)] on a [Set] kept in insertion order. *)
Definition setAdd (x : string) (s : list string) : list string :=
  if includes s x then s else s ++ [x].

(** The names added to [usedPackages] while one file is handled. *)
Definition usedInFile (E : Env) (projectPath : string) (allDepNames : list string)
    (file : string) : list string :=
  tryCatch
    (bindExc (readFile E (Path.join2 projectPath file)) (fun content =>
       Ok (filter (includes allDepNames)
             (map getPackageName
                (filter (fun source => negb (isRelativeImport source))
                        (extractImports E content file))))))
    [].

(** The set [usedPackages] when the loop over [files] has ended. *)
Definition usedPackages (E : Env) (projectPath : string) (allDepNames files : list string)
  : list string :=
  fold_left (fun s x => setAdd x s) (flat_map (usedInFile E projectPath allDepNames) files) [].

Definition BUILD_TIME_PACKAGES : list string :=
  ["typescript"; "@types/"; "eslint"; "prettier";
   "ts-node"; "tsx"; "jest"; "mocha"; "vitest";
   "webpack"; "vite"; "rollup"; "esbuild"; "turbo"].

Definition isBuildTimeDep (dep : string) : bool :=
  includes BUILD_TIME_PACKAGES dep || startsWith dep "@types/".

(** The filter of [outdated]: a non-empty version with none of the
    prefixes [^], [~], [*]. *)
Definition looksPinned (version : option string) : bool :=
  match version with
  | Some v =>
      negb (String.length v =? 0)%nat && negb (startsWith v "^")
      && negb (startsWith v "~") && negb (startsWith v "*")
  | None => false
  end.

Definition outdatedOf (allDeps : list (string * string)) (dep : string) : Outdated :=
  {| oname := dep;
     current := match objGet dep allDeps with Some v => v | None => "" end;
     latest := "check npm registry" |}.

(** The body of the [try] block of [analyzePackageDeps]. *)
Definition analyzePackageDepsBody (E : Env) (projectPath : string) (files : list string)
  : Exc PackageDependencies :=
  if negb (pkgJsonExists E) then Ok defaultResult
  else
    bindExc (readJson E) (fun pkg =>
      let dependencies := match pkgDependencies pkg with Some d => d | None => [] end in
      let devDependencies := match pkgDevDependencies pkg with Some d => d | None => [] end in
      let allDeps := objSpread dependencies devDependencies in
      let allDepNames := map fst allDeps in
      let usedPackages := usedPackages E projectPath allDepNames files in
      let used := filter (includes usedPackages) allDepNames in
      let unused :=
        filter (fun dep => negb (includes usedPackages dep) && negb (isBuildTimeDep dep))
               allDepNames in
      let outdated :=
        map (outdatedOf allDeps)
            (filter (fun dep => looksPinned (objGet dep allDeps)) allDepNames) in
      let hasTypeScript := includes allDepNames "typescript" in
      let hasEslint := includes allDepNames "eslint" in
      let hasPrettier := includes allDepNames "prettier" in
      let suggestions :=
        ((if hasTypeScript then [] else ["typescript - Add type safety to your project"])
         ++ (if hasEslint then [] else ["eslint - Add code quality linting"])
         ++ (if hasPrettier then [] else ["prettier - Add consistent code formatting"]))%list in
      Ok {| dependencies := dependencies; devDependencies := devDependencies;
            used := used; unused := unused; outdated := outdated;
            suggestions := suggestions |}).

(** [analyzePackageDeps(projectPath, files)] *)
Definition analyzePackageDeps (E : Env) (projectPath : string) (files : list string)
  : PackageDependencies :=
  tryCatch (analyzePackageDepsBody E projectPath files) defaultResult.

End Dependencies.


(* ================================================================== *)
(** * Regular expressions

    [RegExp.prototype.test] for the constructs the secret patterns use
    (literals, classes, groups, alternation, [?], [*], [{n,}]), by
    derivatives.  None of the patterns has the [g] or [y] flag, so [test]
    keeps no state between calls. *)
(* ================================================================== *)

Module Regex.
Import JsString.

Inductive Regex :=
| Never
| Empty
| Class (p : ascii -> bool)
| Seq (r s : Regex)
| Or (r s : Regex)
| Star (r : Regex).

Fixpoint nullable (r : Regex) : bool :=
  match r with
  | Never => false
  | Empty => true
  | Class _ => false
  | Seq r s => nullable r && nullable s
  | Or r s => nullable r || nullable s
  | Star _ => true
  end.

Definition mkSeq (r s : Regex) : Regex :=
  match r, s with
  | Never, _ => Never
  | _, Never => Never
  | Empty, _ => s
  | _, _ => Seq r s
  end.

Definition mkOr (r s : Regex) : Regex :=
  match r, s with
  | Never, _ => s
  | _, Never => r
  | _, _ => Or r s
  end.

(** What is left of [r] once [c] has been read. *)
Fixpoint deriv (c : ascii) (r : Regex) : Regex :=
  match r with
  | Never => Never
  | Empty => Never
  | Class p => if p c then Empty else Never
  | Seq r s =>
      if nullable r then mkOr (mkSeq (deriv c r) s) (deriv c s)
      else mkSeq (deriv c r) s
  | Or r s => mkOr (deriv c r) (deriv c s)
  | Star r => mkSeq (deriv c r) (Star r)
  end.

(** [r] matches some prefix of [s]. *)
Fixpoint matchesPrefix (r : Regex) (s : string) : bool :=
  nullable r ||
  match s with
  | EmptyString => false
  | String c s' => matchesPrefix (deriv c r) s'
  end.

Definition anyChar : Regex := Class (fun _ => true).

(** [r.test(s)]: [r] matches somewhere in [s]. *)
Definition test (r : Regex) (s : string) : bool :=
  matchesPrefix (Seq (Star anyChar) r) s.

(** A literal character under the [i] flag. *)
Definition ci (c : ascii) : Regex :=
  Class (fun x => Ascii.eqb (upperChar x) (upperChar c)).

(** A literal word under the [i] flag. *)
Fixpoint lit (s : string) : Regex :=
  match s with
  | EmptyString => Empty
  | String c s' => Seq (ci c) (lit s')
  end.

(** [r?] *)
Definition opt (r : Regex) : Regex := Or r Empty.

(** [r{n,}] *)
Fixpoint atLeast (n : nat) (r : Regex) : Regex :=
  match n with
  | O => Star r
  | S n' => Seq r (atLeast n' r)
  end.

Fixpoint seqs (rs : list Regex) : Regex :=
  match rs with
  | [] => Empty
  | r :: rs' => Seq r (seqs rs')
  end.

Definition oneOf (cs : string) : Regex :=
  Class (fun x => existsb (Ascii.eqb x) (list_ascii_of_string cs)).

Definition noneOf (cs : string) : Regex :=
  Class (fun x => negb (existsb (Ascii.eqb x) (list_ascii_of_string cs))).

Definition isAlnum (x : ascii) : bool :=
  let n := nat_of_ascii x in
  ((65 <=? n) && (n <=? 90) || (97 <=? n) && (n <=? 122) || (48 <=? n) && (n <=? 57))%nat.

(** [[A-Za-z0-9...]] with the extra characters [cs]. *)
Definition alnumOr (cs : string) : Regex :=
  Class (fun x => isAlnum x || existsb (Ascii.eqb x) (list_ascii_of_string cs)).

(** [\s] *)
Definition space : Regex := Class isWhiteSpace.

(** The two quote characters, single and double. *)
Definition quotes : string := String "'"%char (String "034"%char EmptyString).

(** The part every secret pattern shares: a colon or equals sign between
    optional white space, then a quoted [body]. *)
Definition assigned (body : Regex) : Regex :=
  seqs [Star space; oneOf ":="; Star space; oneOf quotes; body; oneOf quotes].

End Regex.

(* ================================================================== *)
(** * Security pattern engine ([src/analyzer/security.ts]) *)
(* ================================================================== *)

Module Security.
Import JsString Ast World Regex.

Record CodePattern := {
  pat_name : string;
  pat_category : string;
  pat_severity : string;
  pat_description : string;
  check : Node -> bool
}.

(** [callee?.type === 'MemberExpression' && callee.property?.type ===
    'Identifier' && callee.property.name] is one of [names] *)
Definition isMemberNamed (n : option Node) (names : list string) : bool :=
  match n with
  | Some (MemberExpression _ (Identifier p)) => includes names p
  | _ => false
  end.

Definition DANGEROUS_PATTERNS : list CodePattern :=
  [ {| pat_name := "eval() Usage";
       pat_category := "Code Injection";
       pat_severity := "critical";
       pat_description := "eval() executes arbitrary code and is a major injection risk. Use safer alternatives like JSON.parse() or Function constructors.";
       check := fun n => isIdentifierNamed (callee n) "eval" |};
    {| pat_name := "Function() Constructor";
       pat_category := "Code Injection";
       pat_severity := "high";
       pat_description := "new Function() dynamically creates functions from strings, similar to eval(). Avoid using user input.";
       check := fun n => isIdentifierNamed (callee n) "Function" |};
    {| pat_name := "child_process exec()";
       pat_category := "Command Injection";
       pat_severity := "high";
       pat_description := "exec() runs shell commands and is vulnerable to command injection. Prefer execFile() with explicit arguments.";
       check := fun n =>
         if isIdentifierNamed (callee n) "exec" || isIdentifierNamed (callee n) "execSync"
         then true
         else if isMemberNamed (callee n) ["exec"; "execSync"] then true
         else false |};
    {| pat_name := "innerHTML Assignment";
       pat_category := "Cross-Site Scripting (XSS)";
       pat_severity := "medium";
       pat_description := "innerHTML injects raw HTML and can lead to XSS. Use textContent or a sanitization library instead.";
       check := fun n =>
         match n with
         | AssignmentExpression _ l _ => isMemberNamed (Some l) ["innerHTML"]
         | _ => false
         end |};
    {| pat_name := "dangerouslySetInnerHTML";
       pat_category := "Cross-Site Scripting (XSS)";
       pat_severity := "medium";
       pat_description := "dangerouslySetInnerHTML renders raw HTML in React components. Ensure content is properly sanitized.";
       check := fun n =>
         match n with
         | JSXAttribute _ (JSXIdentifier x) _ => String.eqb x "dangerouslySetInnerHTML"
         | _ => false
         end |};
    {| pat_name := "document.write()";
       pat_category := "Cross-Site Scripting (XSS)";
       pat_severity := "medium";
       pat_description := "document.write() is a legacy DOM method that can overwrite the entire page and is XSS-prone.";
       check := fun n =>
         match callee n with
         | Some (MemberExpression (Identifier o) (Identifier p)) =>
             String.eqb o "document" && String.eqb p "write"
         | _ => false
         end |} ].

Record SecretPattern := {
  pattern : Regex;
  sec_name : string;
  sec_severity : string
}.

(** The five patterns, all with the [i] flag; [q] stands for the class of
    the two quote characters:
    - [(?:api[_-]?key|apikey)\s*[:=]\s*q[A-Za-z0-9_\-]{16,}q]
    - [(?:secret|password|passwd|pwd)\s*[:=]\s*q[^q]{8,}q]
    - [(?:aws_access_key_id|aws_secret_access_key)\s*[:=]\s*q[A-Za-z0-9/+=]{16,}q]
    - [(?:private[_-]?key)\s*[:=]\s*q[^q]{20,}q]
    - [(?:token)\s*[:=]\s*q[A-Za-z0-9_\-.]{20,}q] *)
Definition SECRET_PATTERNS : list SecretPattern :=
  [ {| pattern :=
         Seq (Or (seqs [lit "api"; opt (oneOf "_-"); lit "key"]) (lit "apikey"))
             (assigned (atLeast 16 (alnumOr "_-")));
       sec_name := "Hardcoded API Key"; sec_severity := "high" |};
    {| pattern :=
         Seq (Or (lit "secret") (Or (lit "password") (Or (lit "passwd") (lit "pwd"))))
             (assigned (atLeast 8 (noneOf quotes)));
       sec_name := "Hardcoded Secret/Password"; sec_severity := "critical" |};
    {| pattern :=
         Seq (Or (lit "aws_access_key_id") (lit "aws_secret_access_key"))
             (assigned (atLeast 16 (alnumOr "/+=")));
       sec_name := "AWS Credentials"; sec_severity := "critical" |};
    {| pattern :=
         Seq (seqs [lit "private"; opt (oneOf "_-"); lit "key"])
             (assigned (atLeast 20 (noneOf quotes)));
       sec_name := "Private Key Exposure"; sec_severity := "critical" |};
    {| pattern :=
         Seq (lit "token") (assigned (atLeast 20 (alnumOr "_-.")));
       sec_name := "Hardcoded Token"; sec_severity := "high" |} ].

(** ** npm audit *)

(** [v.title || v.name], rendered by [join]: [undefined] gives the empty
    string. *)
Definition viaLabel (v : ViaItem) : list string :=
  match v with
  | ViaName _ => []
  | ViaObject t n =>
      [ match t with
        | Some s => if (String.length s =? 0)%nat
                    then match n with Some x => x | None => "" end
                    else s
        | None => match n with Some x => x | None => "" end
        end ]
  end.

(** The local [via] of the loop over [vulnerabilities]. *)
Definition viaText (v : Via) : string :=
  match v with
  | ViaArray items => join ", " (flat_map viaLabel items)
  | ViaOther rendered => rendered
  end.

Definition validSeverities : list string := ["low"; "medium"; "high"; "critical"].

(** One [vulns.push] of the npm 7 format. *)
Definition auditFinding (entry : string * AuditVuln) : SecurityVulnerability :=
  let (name, vuln) := entry in
  let via := viaText (via vuln) in
  {| Types.name := name ++ " (" ++ match range vuln with Some r => r | None => "" end ++ ")";
     severity :=
       match vseverity vuln with
       | Some s => if includes validSeverities s then s else "low"
       | None => "low"
       end;
     description :=
       if (String.length via =? 0)%nat
       then "Vulnerable version: "
            ++ match range vuln with Some r => r | None => "undefined" end
       else via;
     vsource := NpmAudit;
     vfile := None;
     line := None;
     category := Some "Dependency Vulnerability" |}.

(** One [vulns.push] of the npm 6 format. *)
Definition advisoryFinding (advisory : Advisory) : SecurityVulnerability :=
  {| Types.name := module_name advisory ++ " – " ++ title advisory;
     severity := aseverity advisory;
     description :=
       match overview advisory with
       | Some o => if (String.length o =? 0)%nat then title advisory else o
       | None => title advisory
       end;
     vsource := NpmAudit;
     vfile := None;
     line := None;
     category := Some "Dependency Vulnerability" |}.

(** The handler of the outer [try] of [runNpmAudit], entered with the
    output carried by the error. *)
Definition auditFromError (E : Env) (errStdout : option string) : list SecurityVulnerability :=
  let stdout := match errStdout with Some s => s | None => "" end in
  if (String.length stdout =? 0)%nat then []
  else
    tryCatch
      (bindExc (jsonParse E stdout) (fun auditResult =>
         Ok match vulnerabilities auditResult with
            | Some vs => map auditFinding vs
            | None => []
            end))
      [].

(** [runNpmAudit(projectPath)] *)
Definition runNpmAudit (E : Env) (projectPath : string) : list SecurityVulnerability :=
  if negb (pkgJsonExists E) || negb (lockExists E) then []
  else
    match execAudit E with
    | Resolved stdout =>
        match jsonParse E stdout with
        | Ok auditResult =>
            match vulnerabilities auditResult with
            | Some vs => map auditFinding vs
            | None =>
                match advisories auditResult with
                | Some ads => map advisoryFinding ads
                | None => []
                end
            end
        | Throw => auditFromError E None
        end
    | Rejected errStdout => auditFromError E errStdout
    end.

(** ** Code scan *)

Definition securityPlugins : list string :=
  ["typescript"; "jsx"; "decorators-legacy"; "classProperties"; "dynamicImport";
   "optionalChaining"; "nullishCoalescingOperator"].

Definition jsExtensions : list string := [".js"; ".jsx"; ".ts"; ".tsx"].

(** The object pushed when a structural pattern matches node [n]. *)
Definition codeFinding (p : CodePattern) (relativePath : string) (n : Node)
  : SecurityVulnerability :=
  {| Types.name := pat_name p;
     severity := pat_severity p;
     description := pat_description p;
     vsource := CodeScan;
     vfile := Some relativePath;
     line := startLine n;
     category := Some (pat_category p) |}.

(** The visitor of one named pattern, found with [DANGEROUS_PATTERNS.find]. *)
Definition namedPatternVisitor (patternName relativePath : string) (n : Node)
  : list SecurityVulnerability :=
  match find (fun p => String.eqb (pat_name p) patternName) DANGEROUS_PATTERNS with
  | Some p => if check p n then [codeFinding p relativePath n] else []
  | None => []
  end.

(** The three visitors handed to [traverse]: [CallExpression],
    [AssignmentExpression] and [JSXAttribute]. *)
Definition securityVisitor (relativePath : string) (n : Node) : list SecurityVulnerability :=
  match n with
  | CallExpression _ _ _ =>
      flat_map (fun p => if check p n then [codeFinding p relativePath n] else [])
        (filter (fun p => negb (String.eqb (pat_name p) "innerHTML Assignment")
                          && negb (String.eqb (pat_name p) "dangerouslySetInnerHTML"))
                DANGEROUS_PATTERNS)
  | AssignmentExpression _ _ _ => namedPatternVisitor "innerHTML Assignment" relativePath n
  | JSXAttribute _ _ _ => namedPatternVisitor "dangerouslySetInnerHTML" relativePath n
  | _ => []
  end.

(** Step 1 of [scanFileForVulnerabilities]: a file that does not parse
    gives no structural finding. *)
Definition structuralScan (E : Env) (content relativePath : string)
  : list SecurityVulnerability :=
  tryCatch
    (bindExc (parse E securityPlugins content) (fun ast =>
       Ok (traverse ast (securityVisitor relativePath))))
    [].

(** The object pushed when a secret pattern matches line [i] (0-based). *)
Definition secretFinding (s : SecretPattern) (relativePath : string) (i : nat)
  : SecurityVulnerability :=
  {| Types.name := sec_name s;
     severity := sec_severity s;
     description := "Potential " ++ toLowerCase (sec_name s)
       ++ " detected. Never commit secrets to source code. Use environment variables instead.";
     vsource := CodeScan;
     vfile := Some relativePath;
     line := Some (i + 1);
     category := Some "Sensitive Data Exposure" |}.

(** The test that makes the line loop [continue]. *)
Definition isCommentLine (line : string) : bool :=
  let trimmed := trim line in
  startsWith trimmed "//" || startsWith trimmed "*" || startsWith trimmed "/*".

(** The loop [for (const secret of SECRET_PATTERNS)] with its [break]. *)
Fixpoint scanSecrets (patterns : list SecretPattern) (relativePath : string) (i : nat)
    (line : string) : list SecurityVulnerability :=
  match patterns with
  | [] => []
  | secret :: rest =>
      if test (pattern secret) line then [secretFinding secret relativePath i]
      else scanSecrets rest relativePath i line
  end.

(** One turn of the line loop. *)
Definition scanLine (relativePath : string) (i : nat) (line : string)
  : list SecurityVulnerability :=
  if isCommentLine line then []
  else scanSecrets SECRET_PATTERNS relativePath i line.

(** The loop [for (let i = 0; i < lines.length; i++)], from index [i]. *)
Fixpoint scanLines (relativePath : string) (i : nat) (lines : list string)
  : list SecurityVulnerability :=
  match lines with
  | [] => []
  | l :: rest => (scanLine relativePath i l ++ scanLines relativePath (S i) rest)%list
  end.

(** Step 2 of [scanFileForVulnerabilities]. *)
Definition secretScan (content relativePath : string) : list SecurityVulnerability :=
  scanLines relativePath 0 (split newline content).

(** [scanFileForVulnerabilities(filePath, content, relativePath)] *)
Definition scanFileForVulnerabilities (E : Env) (filePath content relativePath : string)
  : list SecurityVulnerability :=
  let ext := Path.extname filePath in
  if negb (includes jsExtensions ext) then []
  else (structuralScan E content relativePath ++ secretScan content relativePath)%list.

(** The findings pushed while [file] is handled by [analyzeSecurity]. *)
Definition vulnsOfFile (E : Env) (projectPath file : string) : list SecurityVulnerability :=
  let ext := Path.extname file in
  if negb (includes jsExtensions ext) then []
  else
    tryCatch
      (let fullPath := Path.join2 projectPath file in
       bindExc (readFile E fullPath) (fun content =>
         let relativePath := replaceBackslashes file in
         Ok (scanFileForVulnerabilities E fullPath content relativePath)))
      [].

(** [allVulns] before the final sort. *)
Definition collectedVulns (E : Env) (projectPath : string) (files : list string)
  : list SecurityVulnerability :=
  (runNpmAudit E projectPath ++ flat_map (vulnsOfFile E projectPath) files)%list.

(** [severityOrder[s]]; [None] is [undefined]. *)
Definition severityOrder (s : string) : option Z :=
  if String.eqb s "critical" then Some 0%Z
  else if String.eqb s "high" then Some 1%Z
  else if String.eqb s "medium" then Some 2%Z
  else if String.eqb s "low" then Some 3%Z
  else None.

(** The comparator of the sort; a difference with [undefined] is [NaN],
    which [sort] takes as [0]. *)
Definition compareSeverity (a b : SecurityVulnerability) : Z :=
  match severityOrder (severity a), severityOrder (severity b) with
  | Some x, Some y => (x - y)%Z
  | _, _ => 0%Z
  end.

(** [Array.prototype.sort] is stable; it is written here as an insertion
    sort. *)
Fixpoint insertSorted (x : SecurityVulnerability) (l : list SecurityVulnerability)
  : list SecurityVulnerability :=
  match l with
  | [] => [x]
  | y :: l' =>
      if (0 <? compareSeverity x y)%Z then y :: insertSorted x l' else x :: l
  end.

Definition sortBySeverity (l : list SecurityVulnerability) : list SecurityVulnerability :=
  fold_right insertSorted [] l.

(** [analyzeSecurity(projectPath, files)] *)
Definition analyzeSecurity (E : Env) (projectPath : string) (files : list string)
  : list SecurityVulnerability :=
  sortBySeverity (collectedVulns E projectPath files).

End Security.

(* ================================================================== *)
(** * Vocabulary of the properties and sample projects *)
(* ================================================================== *)

Module ProjectSpec.
Import Project.

(** The five arguments of [calculateHealthScore]. *)
Record Inputs := {
  i_stats : ProjectStats;
  i_hotspots : list Hotspot;
  i_deps : DependencyGraph;
  i_unused : Z;
  i_security : list SecurityVulnerability
}.

Definition score (i : Inputs) : Z :=
  calculateHealthScore (i_stats i) (i_hotspots i) (i_deps i) (i_unused i) (i_security i).

(** [b] is at least as bad as [a] on every penalty input: no fewer files,
    lines, active hotspots, edges, unused dependencies and findings of each
    penalised severity, no more graph nodes, and no fewer code lines with no
    more comment lines. *)
Definition worsens (a b : Inputs) : Prop :=
  (totalFiles (i_stats a) <= totalFiles (i_stats b))%Z /\
  (totalLOC (i_stats a) <= totalLOC (i_stats b))%Z /\
  (activeHotspots (i_hotspots a) <= activeHotspots (i_hotspots b))%Z /\
  (List.length (links (i_deps a)) <= List.length (links (i_deps b)))%nat /\
  (List.length (nodes (i_deps b)) <= List.length (nodes (i_deps a)))%nat /\
  (i_unused a <= i_unused b)%Z /\
  (severityCount "critical" (i_security a) <= severityCount "critical" (i_security b))%Z /\
  (severityCount "high" (i_security a) <= severityCount "high" (i_security b))%Z /\
  (severityCount "medium" (i_security a) <= severityCount "medium" (i_security b))%Z /\
  (totalCodeLines (i_stats a) <= totalCodeLines (i_stats b))%Z /\
  (totalCommentLines (i_stats b) <= totalCommentLines (i_stats a))%Z.

(** Edges divided by [max(nodes, 1)], as a quotient of rationals. *)
Definition edgesPerNode (g : DependencyGraph) : Q :=
  (inject_Z (Z.of_nat (List.length (links g)))
   / inject_Z (Z.of_nat (Nat.max (List.length (nodes g)) 1)))%Q.

Definition emptyGraph : DependencyGraph := {| nodes := []; links := [] |}.

(** What the coupling test takes off the score: the score with the graph
    left out minus the score with it. *)
Definition couplingDeduction (stats : ProjectStats) (hotspots : list Hotspot)
    (deps : DependencyGraph) (unusedDepsCount : Z)
    (security : list SecurityVulnerability) : Z :=
  (rawScore stats hotspots emptyGraph unusedDepsCount security
   - rawScore stats hotspots deps unusedDepsCount security)%Z.

(** What the findings take off the score: the score of the same inputs
    without findings minus the score with them. *)
Definition securityDeduction (stats : ProjectStats) (hotspots : list Hotspot)
    (deps : DependencyGraph) (unusedDepsCount : Z)
    (security : list SecurityVulnerability) : Z :=
  (calculateHealthScore stats hotspots deps unusedDepsCount []
   - calculateHealthScore stats hotspots deps unusedDepsCount security)%Z.

Definition finding (sev : string) : SecurityVulnerability :=
  {| name := "finding"; severity := sev; description := ""; vsource := CodeScan;
     vfile := None; line := None; category := None |}.

Definition cleanStats : ProjectStats :=
  {| totalFiles := 12; totalLOC := 900; totalCodeLines := 600;
     totalCommentLines := 100; totalBlankLines := 200 |}.

Definition sampleGraph (n e : nat) : DependencyGraph :=
  {| nodes := repeat "f.ts" n;
     links := repeat {| source := "f.ts"; target := "f.ts" |} e |}.

Definition sampleInputs (security : list SecurityVulnerability) : Inputs :=
  {| i_stats := cleanStats; i_hotspots := []; i_deps := sampleGraph 10 30;
     i_unused := 0; i_security := security |}.

End ProjectSpec.

Module DependenciesSpec.
Import JsString Ast World Dependencies.

(** The build-time exemption set as the specification lists it. *)
Definition exemptionSet : list string :=
  ["typescript"; "eslint"; "prettier"; "ts-node"; "tsx"; "jest"; "mocha"; "vitest";
   "webpack"; "vite"; "rollup"; "esbuild"; "turbo"].

(** [dep] is declared by the manifest. *)
Definition declared (pkg : Pkg) (dep : string) : Prop :=
  In dep (map fst (match pkgDependencies pkg with Some d => d | None => [] end)) \/
  In dep (map fst (match pkgDevDependencies pkg with Some d => d | None => [] end)).

(** No readable file of the project imports package [dep]. *)
Definition importedNowhere (E : Env) (projectPath : string) (files : list string)
    (dep : string) : Prop :=
  forall file content source,
    In file files ->
    readFile E (Path.join2 projectPath file) = Ok content ->
    In source (extractImports E content file) ->
    isRelativeImport source = false ->
    getPackageName source <> dep.

(** A file of a sample project: its path, its text, and the tree the
    parser gives for the text ([None] when the parser throws). *)
Record SourceFile := {
  sf_path : string;
  sf_content : string;
  sf_tree : option Node
}.

(** The state of [package.json]: absent, present but not readable as
    JSON, or parsed. *)
Inductive ManifestState :=
| NoManifest
| BrokenManifest
| Manifest (pkg : Pkg).

(** A project kept in memory. *)
Record Project := {
  sources : list SourceFile;
  manifestOf : ManifestState;
  lockfile : bool;
  auditRun : ExecOutcome;
  auditReports : list (string * AuditResult)
}.

(** The environment of a sample project stored under [root]. *)
Definition envOf (root : string) (p : Project) : Env :=
  {| readFile := fun fullPath =>
       match find (fun f => String.eqb (root ++ "/" ++ sf_path f) fullPath) (sources p) with
       | Some f => Ok (sf_content f)
       | None => Throw
       end;
     parse := fun _ content =>
       match find (fun f => String.eqb (sf_content f) content) (sources p) with
       | Some f => match sf_tree f with Some t => Ok t | None => Throw end
       | None => Throw
       end;
     pkgJsonExists := match manifestOf p with NoManifest => false | _ => true end;
     lockExists := lockfile p;
     readJson := match manifestOf p with Manifest pkg => Ok pkg | _ => Throw end;
     execAudit := auditRun p;
     jsonParse := fun stdout =>
       match find (fun r => String.eqb (fst r) stdout) (auditReports p) with
       | Some r => Ok (snd r)
       | None => Throw
       end |}.

Definition program (body : list Node) : Node := OtherNode [OtherNode body].

(** A project with sources only: no manifest, no lock file, no audit. *)
Definition sourcesOnly (fs : list SourceFile) : Project :=
  {| sources := fs; manifestOf := NoManifest; lockfile := false;
     auditRun := Rejected None; auditReports := [] |}.

(** Two files, [src/a.ts] importing [./b]. *)
Definition smallProject : Project :=
  sourcesOnly
    [ {| sf_path := "src/a.ts"; sf_content := "import { b } from './b';";
         sf_tree := Some (program [ImportDeclaration "./b"]) |};
      {| sf_path := "src/b.ts"; sf_content := "export const b = 1;";
         sf_tree := Some (program []) |} ].

(** 1001 files [f0.ts] ... [f1000.ts]; only the last one has an import,
    of [./f0]. *)
Definition manyFiles : list string :=
  map (fun i => "f" ++ ofNat i ++ ".ts") (seq 0 1001).

Definition largeProject : Project :=
  sourcesOnly
    (map (fun f =>
            if String.eqb f "f1000.ts"
            then {| sf_path := f; sf_content := "import './f0';";
                    sf_tree := Some (program [ImportDeclaration "./f0"]) |}
            else {| sf_path := f; sf_content := ""; sf_tree := Some (program []) |})
         manyFiles).

(** A manifest that declares [left-pad] and [eslint] twice over, and a
    source file that imports neither. *)
Definition lintedProject : Project :=
  {| sources :=
       [ {| sf_path := "index.ts";
            sf_content := "import merge from 'lodash/merge'; import './util';";
            sf_tree := Some (program [ImportDeclaration "lodash/merge";
                                      ImportDeclaration "./util"]) |} ];
     manifestOf :=
       Manifest {| pkgDependencies := Some [("left-pad", "1.3.0"); ("eslint", "^8.0.0");
                                        ("lodash", "^4.17.21")];
               pkgDevDependencies := Some [("eslint", "^8.0.0"); ("left-pad", "1.3.0");
                                           ("@types/node", "^20.0.0")] |};
     lockfile := false;
     auditRun := Rejected None;
     auditReports := [] |}.

End DependenciesSpec.

Module SecuritySpec.
Import JsString Ast World Security DependenciesSpec.

(** The severities a finding may carry. *)
Definition severities : list string := ["low"; "medium"; "high"; "critical"].



(** The pattern of [DANGEROUS_PATTERNS] named [Function() Constructor]. *)
Definition functionPattern : CodePattern :=
  nth 1 DANGEROUS_PATTERNS
      {| pat_name := ""; pat_category := ""; pat_severity := ""; pat_description := "";
         check := fun _ => false |}.

Definition secretLine : string := "const password = 'hunter2hunter2';".

Definition twoLines : string :=
  "  // password = 'hunter2hunter2'" ++ String newline "password = 'hunter2hunter2'".

Definition threeLines : string := twoLines ++ String newline "const n = 1;".

(** A JSON file with a secret-like line. *)
Definition jsonProject : Project :=
  sourcesOnly [ {| sf_path := "config.json"; sf_content := secretLine; sf_tree := None |} ].

(** A TypeScript file with the same line, on which the parser throws. *)
Definition brokenTsProject : Project :=
  sourcesOnly [ {| sf_path := "src/keys.ts"; sf_content := secretLine; sf_tree := None |} ].

(** [new Function('return 1')]: an expression statement holding a [new]
    expression. *)
Definition newFunctionProject : Project :=
  sourcesOnly
    [ {| sf_path := "a.js"; sf_content := "new Function('return 1')";
         sf_tree := Some (program [OtherNode
                      [NewExpression (Some 1) (Identifier "Function")
                                     [StringLiteral "return 1"]]]) |} ].

(** [Function('return 1')]: the same callee in a plain call. *)
Definition callFunctionProject : Project :=
  sourcesOnly
    [ {| sf_path := "a.js"; sf_content := "Function('return 1')";
         sf_tree := Some (program [OtherNode
                      [CallExpression (Some 1) (Identifier "Function")
                                      [StringLiteral "return 1"]]]) |} ].

Definition moderateAdvisory : Advisory :=
  {| module_name := "lodash"; title := "Prototype Pollution";
     aseverity := "moderate"; overview := Some "Versions before 4.17.12 are vulnerable." |}.

Definition moderateVuln : AuditVuln :=
  {| vseverity := Some "moderate"; range := Some "<4.17.12"; via := ViaArray [] |}.

(** A project whose audit answers in the npm 6 format with one advisory of
    severity [moderate]. *)
Definition legacyAuditProject : Project :=
  {| sources := [];
     manifestOf := Manifest {| pkgDependencies := Some [("lodash", "4.17.11")];
                               pkgDevDependencies := None |};
     lockfile := true;
     auditRun := Resolved "npm 6 audit report";
     auditReports :=
       [("npm 6 audit report",
         {| vulnerabilities := None; advisories := Some [moderateAdvisory] |})] |}.

(** The same finding reported in the npm 7 format. *)
Definition modernAuditProject : Project :=
  {| sources := [];
     manifestOf := Manifest {| pkgDependencies := Some [("lodash", "4.17.11")];
                               pkgDevDependencies := None |};
     lockfile := true;
     auditRun := Rejected (Some "npm 7 audit report");
     auditReports :=
       [("npm 7 audit report",
         {| vulnerabilities := Some [("lodash", moderateVuln)]; advisories := None |})] |}.

(** A project with a manifest and a lock file on a machine without npm:
    the shell's complaint is the only output. *)
Definition noNpmProject : Project :=
  {| sources := [];
     manifestOf := Manifest {| pkgDependencies := None; pkgDevDependencies := None |};
     lockfile := true;
     auditRun := Rejected (Some "/bin/sh: 1: npm: not found");
     auditReports := [] |}.

(** A project whose [package.json] is not valid JSON. *)
Definition brokenManifestProject : Project :=
  {| sources := []; manifestOf := BrokenManifest; lockfile := false;
     auditRun := Rejected None; auditReports := [] |}.

(** A project with manifest and lock file whose audit ends as [run], the
    output [out], when there is one, being read as [report]. *)
Definition auditedProject (run : ExecOutcome) (reports : list (string * AuditResult))
  : Project :=
  {| sources := [];
     manifestOf := Manifest {| pkgDependencies := None; pkgDevDependencies := None |};
     lockfile := true;
     auditRun := run;
     auditReports := reports |}.

(** What npm prints when the registry cannot be reached: an object with
    an [error] member and neither [vulnerabilities] nor [advisories]. *)
Definition errorReport : AuditResult :=
  {| vulnerabilities := None; advisories := None |}.

End SecuritySpec.

From Stdlib Require Import Permutation Sorted.

(* ================================================================== *)
(** * Array sorting

    [Array.prototype.sort] is stable.  For a comparator that orders the
    elements consistently the sorted array is determined by that alone; it
    is written here as an insertion sort. *)
(* ================================================================== *)

Module JsArray.

Section Sort.
Context {A : Type} (compareFn : A -> A -> Z).

(** [x] goes after every leading element it is strictly greater than. *)
Fixpoint insert (x : A) (l : list A) : list A :=
  match l with
  | [] => [x]
  | y :: l' => if (0 <? compareFn x y)%Z then y :: insert x l' else x :: l
  end.

(** [l.sort(compareFn)] *)
Definition sort (l : list A) : list A := fold_right insert [] l.

End Sort.

(** The order a sort by [key] establishes. *)
Definition keyLe {A : Type} (key : A -> Z) (a b : A) : Prop := (key a <= key b)%Z.

End JsArray.

(* ================================================================== *)
(** * Lines of code ([src/analyzer/loc.ts]) *)
(* ================================================================== *)

Module Loc.
Import JsString.

Record LOCStats := {
  totalLines : Z;
  codeLines : Z;
  commentLines : Z;
  blankLines : Z
}.

Record CommentPattern := {
  single : string;
  blockStart : string;
  blockEnd : string
}.

(** Three double quotes, the block delimiter of Python. *)
Definition tripleQuote : string :=
  String "034"%char (String "034"%char (String "034"%char EmptyString)).

Definition cStyle : CommentPattern :=
  {| single := "//"; blockStart := "/*"; blockEnd := "*/" |}.

Definition COMMENT_PATTERNS : list (string * CommentPattern) :=
  [ (".js", cStyle);
    (".jsx", cStyle);
    (".ts", cStyle);
    (".tsx", cStyle);
    (".css", {| single := ""; blockStart := "/*"; blockEnd := "*/" |});
    (".scss", cStyle);
    (".html", {| single := ""; blockStart := "<!--"; blockEnd := "-->" |});
    (".json", {| single := ""; blockStart := ""; blockEnd := "" |});
    (".md", {| single := ""; blockStart := ""; blockEnd := "" |});
    (".py", {| single := "#"; blockStart := tripleQuote; blockEnd := tripleQuote |});
    (".yaml", {| single := "#"; blockStart := ""; blockEnd := "" |});
    (".yml", {| single := "#"; blockStart := ""; blockEnd := "" |}) ].

Definition CODE_EXTENSIONS : list string :=
  [".js"; ".jsx"; ".ts"; ".tsx"; ".css"; ".scss"; ".html"; ".json"; ".py";
   ".yaml"; ".yml"; ".md"].

(** The property names every plain object inherits from
    [Object.prototype]. *)
Definition objectPrototypeKeys : list string :=
  ["constructor"; "__defineGetter__"; "__defineSetter__"; "hasOwnProperty";
   "__lookupGetter__"; "__lookupSetter__"; "isPrototypeOf"; "propertyIsEnumerable";
   "toString"; "valueOf"; "__proto__"; "toLocaleString"].

Fixpoint lookupPattern (ext : string) (table : list (string * CommentPattern))
  : option CommentPattern :=
  match table with
  | [] => None
  | (k, p) :: rest => if String.eqb ext k then Some p else lookupPattern ext rest
  end.

(** [COMMENT_PATTERNS[extension] || { single: '//', blockStart: '/*',
    blockEnd: '*/' }].  For an inherited property name the lookup gives an
    object without the three fields, which the loop reads as [undefined]:
    each is used under a truthiness test only, as an empty string would
    be. *)
Definition patternFor (extension : string) : CommentPattern :=
  match lookupPattern extension COMMENT_PATTERNS with
  | Some p => p
  | None =>
      if includes objectPrototypeKeys extension
      then {| single := ""; blockStart := ""; blockEnd := "" |}
      else cStyle
  end.

(** [p] occurs in [s]. *)
Fixpoint isInfix (p s : string) : bool :=
  String.prefix p s ||
  match s with
  | EmptyString => false
  | String _ s' => isInfix p s'
  end.

Fixpoint dropChars (n : nat) (s : string) : string :=
  match n, s with
  | S n', String _ s' => dropChars n' s'
  | _, _ => s
  end.

(** [s.includes(p, position)] *)
Definition includesFrom (s p : string) (position : nat) : bool :=
  isInfix p (dropChars position s).

Definition nonEmpty (s : string) : bool := negb (String.length s =? 0)%nat.

(** The counters and the flag of the loop of [analyzeLOC]. *)
Record LocState := {
  st_blank : Z;
  st_comment : Z;
  st_code : Z;
  inBlockComment : bool
}.

(** One turn of [for (const rawLine of lines)]. *)
Definition locStep (pattern : CommentPattern) (st : LocState) (rawLine : string)
  : LocState :=
  let line := trim rawLine in
  if String.eqb line "" then
    {| st_blank := st_blank st + 1; st_comment := st_comment st;
       st_code := st_code st; inBlockComment := inBlockComment st |}
  else if inBlockComment st then
    {| st_blank := st_blank st; st_comment := st_comment st + 1;
       st_code := st_code st;
       inBlockComment :=
         if nonEmpty (blockEnd pattern) && includesFrom line (blockEnd pattern) 0
         then false else true |}
  else if nonEmpty (blockStart pattern) && startsWith line (blockStart pattern) then
    {| st_blank := st_blank st; st_comment := st_comment st + 1;
       st_code := st_code st;
       inBlockComment :=
         if negb (nonEmpty (blockEnd pattern))
            || negb (includesFrom line (blockEnd pattern)
                       (String.length (blockStart pattern)))
         then true else inBlockComment st |}
  else if nonEmpty (single pattern) && startsWith line (single pattern) then
    {| st_blank := st_blank st; st_comment := st_comment st + 1;
       st_code := st_code st; inBlockComment := inBlockComment st |}
  else
    {| st_blank := st_blank st; st_comment := st_comment st;
       st_code := st_code st + 1; inBlockComment := inBlockComment st |}.

Definition locStart : LocState :=
  {| st_blank := 0; st_comment := 0; st_code := 0; inBlockComment := false |}.

(** [analyzeLOC(content, extension)] *)
Definition analyzeLOC (content extension : string) : LOCStats :=
  let lines := split newline content in
  let st := fold_left (locStep (patternFor extension)) lines locStart in
  {| totalLines := Z.of_nat (List.length lines);
     codeLines := st_code st;
     commentLines := st_comment st;
     blankLines := st_blank st |}.

End Loc.

(* ================================================================== *)
(** * The scan of the project files ([scanProject] in
      [src/analyzer/project.ts]) *)
(* ================================================================== *)

Module Scan.
Import JsString World Loc.

Record FileInfo := {
  path : string;
  size : Z;
  extension : string;
  linesOfCode : Z;
  loc : LOCStats
}.

(** [stats] with the two fields the scorer does not read. *)
Record ScanStats := {
  counts : ProjectStats;
  languages : list (string * Z);
  fileList : list FileInfo
}.

(** [languages[ext] = (languages[ext] || 0) + 1].  The keys are results of
    [path.extname], empty or starting with a dot, so key order is insertion
    order and no key is inherited. *)
Fixpoint countExtension (ext : string) (languages : list (string * Z))
  : list (string * Z) :=
  match languages with
  | [] => [(ext, 1%Z)]
  | (k, n) :: rest =>
      if String.eqb ext k then (k, (n + 1)%Z) :: rest
      else (k, n) :: countExtension ext rest
  end.

(** The body of the [try] block for one file: its [FileInfo], or an
    exception when [fs.stat] or [fs.readFile] fails. *)
Definition fileInfoOf (E : Env) (statSize : string -> Exc Z) (projectPath file : string)
  : Exc FileInfo :=
  let ext := Path.extname file in
  let fullPath := Path.join2 projectPath file in
  bindExc (statSize fullPath) (fun sz =>
  bindExc (readFile E fullPath) (fun content =>
    let l := analyzeLOC content ext in
    Ok {| path := replaceBackslashes file;
          size := sz;
          extension := ext;
          linesOfCode := codeLines l;
          loc := l |})).

(** One turn of [for (const file of files)]. *)
Definition scanStep (E : Env) (statSize : string -> Exc Z) (projectPath : string)
    (st : ScanStats) (file : string) : ScanStats :=
  let languages := countExtension (Path.extname file) (languages st) in
  match fileInfoOf E statSize projectPath file with
  | Ok info =>
      {| counts :=
           {| totalFiles := totalFiles (counts st);
              totalLOC := totalLOC (counts st) + totalLines (loc info);
              totalCodeLines := totalCodeLines (counts st) + codeLines (loc info);
              totalCommentLines := totalCommentLines (counts st) + commentLines (loc info);
              totalBlankLines := totalBlankLines (counts st) + blankLines (loc info) |};
         languages := languages;
         fileList := fileList st ++ [info] |}
  | Throw =>
      {| counts := counts st; languages := languages; fileList := fileList st |}
  end.

(** The comparator [(a, b) => b.linesOfCode - a.linesOfCode]. *)
Definition byLinesDescending (a b : FileInfo) : Z := (linesOfCode b - linesOfCode a)%Z.

(** [stats] after the loop over [files] and the sort of [fileList]. *)
Definition scanStats (E : Env) (statSize : string -> Exc Z) (projectPath : string)
    (files : list string) : ScanStats :=
  let start :=
    {| counts := {| totalFiles := Z.of_nat (List.length files); totalLOC := 0;
                    totalCodeLines := 0; totalCommentLines := 0; totalBlankLines := 0 |};
       languages := [];
       fileList := [] |} in
  let st := fold_left (scanStep E statSize projectPath) files start in
  {| counts := counts st;
     languages := languages st;
     fileList := JsArray.sort byLinesDescending (fileList st) |}.

(** The [score] field of the report of [scanProject], for the hotspots
    that [getGitHotspots] returned. *)
Definition scanProjectScore (E : Env) (statSize : string -> Exc Z)
    (hotspots : list Hotspot) (projectPath : string) (files : list string) : Z :=
  Project.calculateHealthScore
    (counts (scanStats E statSize projectPath files))
    hotspots
    (Dependencies.analyzeFileDependencies E projectPath files)
    (Z.of_nat (List.length (unused (Dependencies.analyzePackageDeps E projectPath files))))
    (Security.analyzeSecurity E projectPath files).

End Scan.

(* ================================================================== *)
(** * Commit hotspots ([src/analyzer/git.ts]) *)
(* ================================================================== *)

Module Git.
Import JsString World.

(** What the three calls on the [simple-git] client give. *)
Record GitEnv := {
  checkIsRepo : Exc bool;
  logNameOnly : Exc unit;
  (** [git.raw(['log', '--pretty=format:', '--name-only'])] *)
  rawLog : Exc string
}.

Definition isDigit (c : ascii) : bool :=
  let n := nat_of_ascii c in ((48 <=? n) && (n <=? 57))%nat.

(** The number a string of digits denotes. *)
Fixpoint digitsValue (acc : N) (s : string) : N :=
  match s with
  | EmptyString => acc
  | String c s' => digitsValue (acc * 10 + N.of_nat (nat_of_ascii c - 48))%N s'
  end.

Fixpoint allDigits (s : string) : bool :=
  match s with
  | EmptyString => true
  | String c s' => isDigit c && allDigits s'
  end.

(** [s] is an array index: the canonical decimal form of an integer from 0
    to 2^32 - 2.  Such property keys are enumerated first, in numeric
    order. *)
Definition isArrayIndex (s : string) : bool :=
  match s with
  | EmptyString => false
  | String c s' =>
      allDigits s
      && (negb (Ascii.eqb c "0"%char) || (String.length s' =? 0)%nat)
      && (digitsValue 0 s <=? 4294967294)%N
  end.

(** [fileCounts[file] = (fileCounts[file] || 0) + 1] for a name that
    [Object.prototype] does not define: the update of [languages[ext]]. *)
Definition countFile (file : string) (fileCounts : list (string * Z)) : list (string * Z) :=
  Scan.countExtension file fileCounts.

Definition indexOrder (a b : string * Z) : Z :=
  (Z.of_N (digitsValue 0 (fst a)) - Z.of_N (digitsValue 0 (fst b)))%Z.

(** [Object.entries(fileCounts)]: array indices in ascending order, then
    the other names in the order of their first occurrence. *)
Definition entries (fileCounts : list (string * Z)) : list (string * Z) :=
  (JsArray.sort indexOrder (filter (fun e => isArrayIndex (fst e)) fileCounts)
   ++ filter (fun e => negb (isArrayIndex (fst e))) fileCounts)%list.

(** The comparator [(a, b) => b.commits - a.commits]. *)
Definition byCommitsDescending (a b : Hotspot) : Z := (commits b - commits a)%Z.

(** The lines of the log that are kept: [f.trim().length > 0]. *)
Definition changedFiles (raw : string) : list string :=
  filter (fun f => negb (String.length (trim f) =? 0)%nat) (split newline raw).

(** The value of the [try] block for the log text [raw]. *)
Definition hotspotsOfLog (raw : string) : list Hotspot :=
  let files := changedFiles raw in
  let fileCounts := fold_left (fun counts file => countFile file counts) files [] in
  firstn 10
    (JsArray.sort byCommitsDescending
       (map (fun e => {| file := fst e; commits := snd e |}) (entries fileCounts))).

(** The result of [getGitHotspots], or [NotModelled]. *)
Inductive HotspotResult :=
| Hotspots (l : list Hotspot)
| NotModelled.

(** [getGitHotspots(projectPath)], the client being created for a
    directory that exists.  When a line of the log is a property
    name that plain objects inherit ([constructor], [toString], ...), the
    counter of that line becomes a string and the comparator of the sort
    gives [NaN]: the order of the result is then left to the engine, and
    the embedding gives no answer. *)
Definition getGitHotspots (G : GitEnv) : HotspotResult :=
  match checkIsRepo G with
  | Throw => Hotspots []
  | Ok false => Hotspots []
  | Ok true =>
      match logNameOnly G with
      | Throw => Hotspots []
      | Ok _ =>
          match rawLog G with
          | Throw => Hotspots []
          | Ok raw =>
              if existsb (includes Loc.objectPrototypeKeys) (changedFiles raw)
              then NotModelled
              else Hotspots (hotspotsOfLog raw)
          end
      end
  end.

End Git.

(* ================================================================== *)
(** * Bundle size ([src/analyzer/performance.ts]) *)
(* ================================================================== *)

Module Performance.
Import JsString World.

(** A directory entry as [readdir] with [withFileTypes] shows it: a file
    with what [fs.stat] gives for its size, a directory with what [readdir]
    gives for it, or something else (a link, a socket). *)
#[warnings="-register-all"]
Inductive Entry :=
| FileEntry (name : string) (size : Exc Z)
| DirEntry (name : string) (listing : Exc (list Entry))
| OtherEntry (name : string).

Section Loop.
Context {A : Type} (sizeOf : A -> Exc Z).

(** The loop [for (const entry of entries)] of [getDirSize], entered with
    the size reached so far: an exception ends it with that size. *)
Fixpoint sumEntries (entries : list A) (size : Z) : Z :=
  match entries with
  | [] => size
  | entry :: rest =>
      match sizeOf entry with
      | Ok n => sumEntries rest (size + n)%Z
      | Throw => size
      end
  end.

End Loop.

(** What one turn of the loop adds for [entry]: the size [fs.stat] gives
    for a file (or its exception), the size of a directory not named
    [node_modules], and nothing otherwise.  The size of a directory is that
    of the listing [readdir] gives for it, and 0 when [readdir] throws: the
    [try] block of [getDirSize] holds the whole function body. *)
Fixpoint sizeOfEntry (entry : Entry) : Exc Z :=
  match entry with
  | FileEntry _ sz => sz
  | DirEntry name listing =>
      if negb (String.eqb name "node_modules")
      then Ok (match listing with
               | Ok entries => sumEntries sizeOfEntry entries 0%Z
               | Throw => 0%Z
               end)
      else Ok 0%Z
  | OtherEntry _ => Ok 0%Z
  end.

(** [getDirSize(dirPath)] for the directory whose listing is [listing]. *)
Definition getDirSize (listing : Exc (list Entry)) : Z :=
  match listing with
  | Ok entries => sumEntries sizeOfEntry entries 0%Z
  | Throw => 0%Z
  end.

(** [node_modules] as [estimateBundleSize] sees it: for a package name,
    [None] when [path.join(nodeModules, dep)] does not exist, else the
    listing of that path. *)
Definition NodeModules := string -> option (Exc (list Entry)).

(** The loop [for (const dep of deps)]. *)
Fixpoint sumDepSizes (nm : NodeModules) (deps : list string) (totalSize : Z) : Z :=
  match deps with
  | [] => totalSize
  | dep :: rest =>
      match nm dep with
      | Some listing => sumDepSizes nm rest (totalSize + getDirSize listing)%Z
      | None => sumDepSizes nm rest totalSize
      end
  end.

(** [estimateBundleSize(projectPath)]; [nodeModules] is [None] when the
    directory [node_modules] does not exist. *)
Definition estimateBundleSize (E : Env) (nodeModules : option NodeModules) : Z :=
  if negb (pkgJsonExists E) then 0%Z
  else
    match readJson E with
    | Throw => 0%Z
    | Ok pkg =>
        let deps := map fst (match pkgDependencies pkg with Some d => d | None => [] end) in
        match nodeModules with
        | None => 0%Z
        | Some nm => sumDepSizes nm deps 0%Z
        end
    end.

End Performance.

(* ================================================================== *)
(** * The [.gitignore] entry ([src/commands/analyze.ts]) *)
(* ================================================================== *)

Module Analyze.
Import JsString.

(** The content of [.gitignore] after [analyzeAction] has handled it, for
    a file that can be read and appended to; [None] is a missing file. *)
Definition gitignoreAfter (gitignore : option string) : option string :=
  match gitignore with
  | None => None
  | Some gitignoreContent =>
      if negb (Loc.includesFrom gitignoreContent ".moduly" 0)
      then Some (gitignoreContent
                 ++ String newline ("# Moduly" ++ String newline (".moduly" ++ String newline "")))
      else Some gitignoreContent
  end.

End Analyze.

(* ================================================================== *)
(** * Vocabulary of the further properties *)
(* ================================================================== *)

Module ScanSpec.
Import JsString World Loc Scan DependenciesSpec.

(** The number of occurrences of [c] in [s]. *)
Fixpoint countChar (c : ascii) (s : string) : nat :=
  match s with
  | EmptyString => 0
  | String d s' => (if Ascii.eqb d c then 1 else 0) + countChar c s'
  end.

(** A line that is empty once trimmed. *)
Definition isBlank (line : string) : bool := String.eqb (trim line) "".

Fixpoint sumZ (l : list Z) : Z :=
  match l with
  | [] => 0%Z
  | x :: l' => (x + sumZ l')%Z
  end.

(** The [FileInfo] objects of the files that can be read, in enumeration
    order. *)
Definition readableInfos (E : Env) (statSize : string -> Exc Z) (projectPath : string)
    (files : list string) : list FileInfo :=
  flat_map (fun file => match fileInfoOf E statSize projectPath file with
                        | Ok info => [info]
                        | Throw => []
                        end) files.

(** [a] may come before [b] in a list sorted by lines of code,
    descending. *)
Definition moreLines (a b : FileInfo) : Prop := (linesOfCode b <= linesOfCode a)%Z.

(** [languages[ext] || 0] *)
Fixpoint countOf (ext : string) (languages : list (string * Z)) : Z :=
  match languages with
  | [] => 0%Z
  | (k, n) :: rest => if String.eqb ext k then n else countOf ext rest
  end.

(** Three files of a project. *)
Definition threeFiles : list SourceFile :=
  [ {| sf_path := "src/a.ts"; sf_content := "// a" ++ String newline "let a = 1;";
       sf_tree := None |};
    {| sf_path := "src/c.ts";
       sf_content := "let c = 1;" ++ String newline "let d = 2;" ++ String newline "";
       sf_tree := None |};
    {| sf_path := "README.md"; sf_content := "# readme"; sf_tree := None |} ].

(** [fs.stat] on the sample file system: the size is the length of the
    content. *)
Definition statOf (root : string) (fs : list SourceFile) (fullPath : string) : Exc Z :=
  match find (fun f => String.eqb (root ++ "/" ++ sf_path f) fullPath) fs with
  | Some f => Ok (Z.of_nat (String.length (sf_content f)))
  | None => Throw
  end.

(** [s] has no backslash. *)
Definition noBackslash (s : string) : Prop :=
  ~ In backslash (list_ascii_of_string s).

End ScanSpec.

Module ScoreSpec.
Import Project.

(** The severities the scorer penalises. *)
Definition penalised (v : SecurityVulnerability) : bool :=
  String.eqb (severity v) "critical" || String.eqb (severity v) "high"
  || String.eqb (severity v) "medium".

End ScoreSpec.

Module ClassifierSpec.
Import JsString World Dependencies DependenciesSpec.

(** Some readable file of the project imports package [dep]. *)
Definition imported (E : Env) (projectPath : string) (files : list string)
    (dep : string) : Prop :=
  exists file content source,
    In file files /\
    readFile E (Path.join2 projectPath file) = Ok content /\
    In source (extractImports E content file) /\
    isRelativeImport source = false /\
    getPackageName source = dep.

(** The value of the last member named [k] in a list of members. *)
Fixpoint lastGet (k : string) (o : list (string * string)) : option string :=
  match o with
  | [] => None
  | (k', v) :: o' =>
      match lastGet k o' with
      | Some w => Some w
      | None => if String.eqb k k' then Some v else None
      end
  end.

(** The version range the classifier reads for [dep]: that of
    [devDependencies] when the package is declared there, else that of
    [dependencies]. *)
Definition effectiveVersion (pkg : Pkg) (dep : string) : option string :=
  match objGet dep (match pkgDevDependencies pkg with Some d => d | None => [] end) with
  | Some v => Some v
  | None => objGet dep (match pkgDependencies pkg with Some d => d | None => [] end)
  end.

(** The members of both sections of the manifest have distinct names. *)
Definition distinctKeys (pkg : Pkg) : Prop :=
  NoDup (map fst (match pkgDependencies pkg with Some d => d | None => [] end)) /\
  NoDup (map fst (match pkgDevDependencies pkg with Some d => d | None => [] end)).

End ClassifierSpec.

Module FindingSpec.
Import JsString World Security SecuritySpec.

(** The rank the sort gives to a finding; 0 when its severity has none. *)
Definition rank (v : SecurityVulnerability) : Z :=
  match severityOrder (severity v) with
  | Some r => r
  | None => 0%Z
  end.

(** The severity of [v] is one of the four. *)
Definition ranked (v : SecurityVulnerability) : Prop := In (severity v) severities.

(** The line a finding reports, 0 when it reports none. *)
Definition lineNo (v : SecurityVulnerability) : nat :=
  match line v with
  | Some n => n
  | None => 0
  end.

(** [a] is reported on an earlier line than [b]. *)
Definition earlier (a b : SecurityVulnerability) : Prop := lineNo a < lineNo b.

End FindingSpec.

Module HotspotSpec.
Import JsString Git.

(** How many of the kept log lines are [file]. *)
Definition occurrences (file : string) (files : list string) : Z :=
  Z.of_nat (count_occ string_dec files file).

(** [a] may come before [b] in a list sorted by commits, descending. *)
Definition moreCommits (a b : Hotspot) : Prop := (commits b <= commits a)%Z.

(** A log of three commits that touch [a.ts] three times, [b.ts] twice and
    [1] once. *)
Definition sampleLog : string :=
  String.concat (String newline "")
    [""; "a.ts"; "b.ts"; ""; "a.ts"; "1"; ""; "b.ts"; "a.ts"; ""].

Definition sampleGit : GitEnv :=
  {| checkIsRepo := Ok true; logNameOnly := Ok tt; rawLog := Ok sampleLog |}.

End HotspotSpec.

Module BundleSpec.
Import JsString World Performance.

(** The size of a tree when nothing fails: every file whose size is known,
    outside the directories named [node_modules]. *)
Fixpoint fullSize (entry : Entry) : Z :=
  match entry with
  | FileEntry _ (Ok sz) => sz
  | FileEntry _ Throw => 0%Z
  | DirEntry name listing =>
      if String.eqb name "node_modules" then 0%Z
      else match listing with
           | Ok entries => fold_right (fun e acc => (fullSize e + acc)%Z) 0%Z entries
           | Throw => 0%Z
           end
  | OtherEntry _ => 0%Z
  end.

Definition fullSizeOf (listing : Exc (list Entry)) : Z :=
  match listing with
  | Ok entries => fold_right (fun e acc => (fullSize e + acc)%Z) 0%Z entries
  | Throw => 0%Z
  end.

(** No file of the tree has a negative size. *)
Fixpoint nonNegative (entry : Entry) : bool :=
  match entry with
  | FileEntry _ (Ok sz) => (0 <=? sz)%Z
  | FileEntry _ Throw => true
  | DirEntry _ (Ok entries) => forallb nonNegative entries
  | DirEntry _ Throw => true
  | OtherEntry _ => true
  end.

(** [fs.stat] succeeds on every file of the tree outside the directories
    named [node_modules]. *)
Fixpoint statsSucceed (entry : Entry) : bool :=
  match entry with
  | FileEntry _ (Ok _) => true
  | FileEntry _ Throw => false
  | DirEntry name (Ok entries) =>
      String.eqb name "node_modules" || forallb statsSucceed entries
  | DirEntry _ Throw => true
  | OtherEntry _ => true
  end.

(** The sum, over the package names [deps], of the full size of the
    directory of each package that is installed. *)
Fixpoint installedSize (nm : NodeModules) (deps : list string) : Z :=
  match deps with
  | [] => 0%Z
  | dep :: rest =>
      (match nm dep with Some listing => fullSizeOf listing | None => 0 end
       + installedSize nm rest)%Z
  end.

(** No installed package has a file of negative size. *)
Definition sizesNonNegative (nm : NodeModules) : Prop :=
  forall dep entries, nm dep = Some (Ok entries) -> forallb nonNegative entries = true.

(** A package directory with a nested [node_modules], an unreadable file
    and a link. *)
Definition samplePackage : list Entry :=
  [ FileEntry "package.json" (Ok 300%Z);
    DirEntry "lib" (Ok [FileEntry "index.js" (Ok 1200%Z); OtherEntry "link"]);
    DirEntry "node_modules" (Ok [FileEntry "big.js" (Ok 99999%Z)]);
    FileEntry "locked" Throw;
    FileEntry "after.js" (Ok 50%Z) ].

(** [node_modules] with the sample package installed as [left-pad]. *)
Definition sampleModules : NodeModules :=
  fun dep => if String.eqb dep "left-pad" then Some (Ok samplePackage) else None.

End BundleSpec.

Module PathTests.
Import Path.
Example dirname1 : dirname "src/a/b.ts" = "src/a". Proof. reflexivity. Qed.
Example dirname2 : dirname "b.ts" = ".". Proof. reflexivity. Qed.
Example dirname3 : dirname "/b.ts" = "/". Proof. reflexivity. Qed.
Example dirname4 : dirname "a//b" = "a/". Proof. reflexivity. Qed.
Example extname1 : extname "src/a.b/c.test.tsx" = ".tsx". Proof. reflexivity. Qed.
Example extname2 : extname "src/.eslintrc" = "". Proof. reflexivity. Qed.
Example extname3 : extname "a.b/.." = "". Proof. reflexivity. Qed.
Example extname4 : extname "data.json" = ".json". Proof. reflexivity. Qed.
Example extname5 : extname "..ts" = ".ts". Proof. reflexivity. Qed.
Example extname6 : extname "a." = ".". Proof. reflexivity. Qed.
Example join1 : join2 "." "./a" = "a". Proof. reflexivity. Qed.
Example join2a : join2 "src/x" "../y/./z.js" = "src/y/z.js". Proof. reflexivity. Qed.
Example join3 : join2 "src" "/abs" = "src/abs". Proof. reflexivity. Qed.
Example join4 : join2 "." "../../up" = "../../up". Proof. reflexivity. Qed.
Example join5 : join2 "a" "./b/" = "a/b/". Proof. reflexivity. Qed.
Example join6 : join2 "a" ".." = ".". Proof. reflexivity. Qed.
Example trim1 : JsString.trim "   // x  " = "// x". Proof. reflexivity. Qed.
Example split1 : JsString.split JsString.newline "" = [""]. Proof. reflexivity. Qed.
Example repl1 : JsString.replaceJsSuffix "a/b.js" = "a/b.ts". Proof. reflexivity. Qed.
Example repl2 : JsString.replaceJsSuffix "a/b.jsx" = "a/b.jsx". Proof. reflexivity. Qed.
Example ofNat1 : JsString.ofNat 1000 = "1000". Proof. reflexivity. Qed.
End PathTests.

Module DependenciesTests.
Import Dependencies.
Example pkgName1 : getPackageName "@scope/pkg/sub" = "@scope/pkg". Proof. reflexivity. Qed.
Example pkgName2 : getPackageName "lodash/merge" = "lodash". Proof. reflexivity. Qed.
Example pkgName3 : getPackageName "left-pad" = "left-pad". Proof. reflexivity. Qed.
Example resolve1 :
  resolveImport ["a/index.ts"; "a.ts"; "b.ts"] "b.ts" "./a" = Some "a.ts".
Proof. reflexivity. Qed.
Example resolve2 :
  resolveImport ["a.ts"; "a.js"; "b.ts"] "b.ts" "./a.js" = Some "a.ts".
Proof. reflexivity. Qed.
Example resolve3 :
  resolveImport ["a.js"; "a.ts"; "b.ts"] "b.ts" "./a.js" = Some "a.js".
Proof. reflexivity. Qed.
Example resolve4 :
  resolveImport ["src/util/index.tsx"; "src/app/main.ts"] "src/app/main.ts" "../util"
  = Some "src/util/index.tsx".
Proof. reflexivity. Qed.
Example spread1 :
  objSpread [("a", "1"); ("b", "2")] [("c", "3"); ("a", "9")]
  = [("a", "9"); ("b", "2"); ("c", "3")].
Proof. reflexivity. Qed.
End DependenciesTests.

Module SecurityTests.
Import JsString Regex Security SecuritySpec.
Example comment1 : isCommentLine "   * token: 'abc'" = true. Proof. reflexivity. Qed.
Example comment2 : isCommentLine "x = 1; // note" = false. Proof. reflexivity. Qed.
Example secret1 :
  map Types.name (scanLine "f.ts" 0 "const API_KEY = 'abcdefghij0123456789';")
  = ["Hardcoded API Key"].
Proof. vm_compute. reflexivity. Qed.
Example secret2 : scanLine "f.ts" 0 "password = 'short'" = [].
Proof. vm_compute. reflexivity. Qed.
Example secret3 :
  map Types.name (scanLine "f.ts" 0 "apikey: 'abcdefghij0123456789', pwd: '12345678'")
  = ["Hardcoded API Key"].
Proof. vm_compute. reflexivity. Qed.
Example secret4 :
  map Types.name (scanLine "f.ts" 0 "aws_secret_access_key = 'AKIA/+=0123456789abc'")
  = ["AWS Credentials"].
Proof. vm_compute. reflexivity. Qed.
Example secret5 :
  map (fun v => (Types.name v, line v)) (secretScan twoLines "f.ts")
  = [("Hardcoded Secret/Password", Some 2)].
Proof. vm_compute. reflexivity. Qed.
Example sort1 :
  map severity (sortBySeverity
    (map ProjectSpec.finding ["low"; "high"; "critical"; "medium"; "high"]))
  = ["critical"; "high"; "high"; "medium"; "low"].
Proof. reflexivity. Qed.
End SecurityTests.

Module LocTests.
Import Types JsString Loc.
Example loc_ts :
  analyzeLOC (String.concat (String newline "")
                ["// a"; "let a = 1; /* x */"; ""; "/* b"; ""; " c */ let d;"; "let e;"])
             ".ts"
  = {| totalLines := 7; codeLines := 2; commentLines := 3; blankLines := 2 |}.
Proof. reflexivity. Qed.
Example loc_py :
  analyzeLOC (String.concat (String newline "") ["# a"; "x = 1"; "// y"]) ".py"
  = {| totalLines := 3; codeLines := 2; commentLines := 1; blankLines := 0 |}.
Proof. reflexivity. Qed.
Example loc_json :
  analyzeLOC (String.concat (String newline "") ["// a"; "x"]) ".json"
  = {| totalLines := 2; codeLines := 2; commentLines := 0; blankLines := 0 |}.
Proof. reflexivity. Qed.
Example loc_unknown_extension :
  analyzeLOC (String.concat (String newline "") ["// a"; "x"]) ".go"
  = {| totalLines := 2; codeLines := 1; commentLines := 1; blankLines := 0 |}.
Proof. reflexivity. Qed.
Example loc_inherited_key :
  analyzeLOC (String.concat (String newline "") ["// a"; "x"]) "constructor"
  = {| totalLines := 2; codeLines := 2; commentLines := 0; blankLines := 0 |}.
Proof. reflexivity. Qed.
Example loc_empty :
  analyzeLOC "" ".ts"
  = {| totalLines := 1; codeLines := 0; commentLines := 0; blankLines := 1 |}.
Proof. reflexivity. Qed.
End LocTests.

Module ScanTests.
Import Types JsString World Loc Scan DependenciesSpec ScanSpec.
Example scan_counts :
  counts (scanStats (envOf "proj" (sourcesOnly threeFiles)) (statOf "proj" threeFiles)
            "proj" ["src/a.ts"; "src/b.ts"; "src/c.ts"; "README.md"])
  = {| totalFiles := 4; totalLOC := 6; totalCodeLines := 4;
       totalCommentLines := 1; totalBlankLines := 1 |}.
Proof. reflexivity. Qed.
Example scan_languages :
  languages (scanStats (envOf "proj" (sourcesOnly threeFiles)) (statOf "proj" threeFiles)
               "proj" ["src/a.ts"; "src/b.ts"; "src/c.ts"; "README.md"])
  = [(".ts", 3%Z); (".md", 1%Z)].
Proof. reflexivity. Qed.
Example scan_fileList :
  map path (fileList (scanStats (envOf "proj" (sourcesOnly threeFiles))
                        (statOf "proj" threeFiles)
                        "proj" ["src/a.ts"; "src/b.ts"; "src/c.ts"; "README.md"]))
  = ["src/c.ts"; "src/a.ts"; "README.md"].
Proof. reflexivity. Qed.
End ScanTests.

Module GitTests.
Import Types Git HotspotSpec.
Example hotspots_sample :
  getGitHotspots sampleGit
  = Hotspots [ {| file := "a.ts"; commits := 3 |}; {| file := "b.ts"; commits := 2 |};
               {| file := "1"; commits := 1 |} ].
Proof. reflexivity. Qed.
Example hotspots_no_repo :
  getGitHotspots {| checkIsRepo := Ok false; logNameOnly := Ok tt; rawLog := Ok "a.ts" |}
  = Hotspots [].
Proof. reflexivity. Qed.
End GitTests.

Module PerformanceTests.
Import World Performance BundleSpec DependenciesSpec.
Example dirSize_sample : getDirSize (Ok samplePackage) = 1500%Z.
Proof. reflexivity. Qed.
Example dirSize_unlistable : getDirSize Throw = 0%Z.
Proof. reflexivity. Qed.
Example bundle_sample :
  estimateBundleSize (envOf "proj" lintedProject) (Some sampleModules) = 1500%Z.
Proof. reflexivity. Qed.
End PerformanceTests.

Module AnalyzeTests.
Import JsString Analyze.
Example gitignore_appended :
  gitignoreAfter (Some "node_modules")
  = Some (String.concat (String newline "") ["node_modules"; "# Moduly"; ".moduly"; ""]).
Proof. reflexivity. Qed.
Example gitignore_substring :
  gitignoreAfter (Some ".moduly-cache") = Some ".moduly-cache".
Proof. reflexivity. Qed.
Example gitignore_missing : gitignoreAfter None = None.
Proof. reflexivity. Qed.
End AnalyzeTests.

(* ================================================================== *)
(** * Properties of the health scorer *)
(* ================================================================== *)

Module ProjectProofs.
Import Project ProjectSpec.

Lemma Qltb_true_iff (x y : Q) : Qltb x y = true <-> (x < y)%Q.
Proof.
  unfold Qltb. rewrite negb_true_iff.
  split; intro H.
  - apply Qnot_le_lt. intro Hle. apply Qle_bool_iff in Hle. congruence.
  - destruct (Qle_bool y x) eqn:E; [|reflexivity].
    apply Qle_bool_iff in E. exfalso. exact (Qlt_not_le _ _ H E).
Qed.

Lemma orOne_max (n : nat) : orOne n = Nat.max n 1.
Proof. destruct n as [|[|n]]; simpl; try reflexivity. Qed.

Lemma orOne_pos (n : nat) : (0 < orOne n)%nat.
Proof. destruct n; simpl; lia. Qed.

Lemma Zpos_of_nat (n : nat) : (0 < n)%nat -> Z.pos (Pos.of_nat n) = Z.of_nat n.
Proof. intro H. rewrite <- (positive_nat_Z (Pos.of_nat n)), Nat2Pos.id by lia. reflexivity. Qed.

(** The coupling test in integers: more than three edges per node. *)
Lemma coupling_test_Z (g : DependencyGraph) :
  Qltb 3%Q (couplingRatio g) = true
  <-> (3 * Z.of_nat (orOne (List.length (nodes g))) < Z.of_nat (List.length (links g)))%Z.
Proof.
  rewrite Qltb_true_iff. unfold couplingRatio, Qlt. cbn [Qnum Qden].
  rewrite (Zpos_of_nat _ (orOne_pos (List.length (nodes g)))). lia.
Qed.

(** The comment test in integers. *)
Lemma comment_test_Z (st : ProjectStats) :
  (0 < totalCodeLines st)%Z ->
  (Qltb (commentRatio st) (5 # 100)%Q = true
   <-> (totalCommentLines st * 100 < 5 * totalCodeLines st)%Z).
Proof.
  intro Hpos. rewrite Qltb_true_iff. unfold commentRatio, Qlt. cbn [Qnum Qden].
  rewrite Z2Pos.id by lia. lia.
Qed.

Lemma couplingRatio_edgesPerNode (g : DependencyGraph) :
  (couplingRatio g == edgesPerNode g)%Q.
Proof.
  unfold couplingRatio, edgesPerNode. rewrite orOne_max.
  set (e := Z.of_nat (List.length (links g))).
  assert (Hn : (0 < Nat.max (List.length (nodes g)) 1)%nat) by lia.
  set (n := Nat.max (List.length (nodes g)) 1) in *.
  rewrite (Qmake_Qdiv e (Pos.of_nat n)).
  rewrite (Zpos_of_nat n Hn). reflexivity.
Qed.

Lemma severityCount_nonneg (sev : string) (l : list SecurityVulnerability) :
  (0 <= severityCount sev l)%Z.
Proof. unfold severityCount. lia. Qed.

Lemma severityCount_app (sev : string) (l1 l2 : list SecurityVulnerability) :
  severityCount sev (l1 ++ l2) = (severityCount sev l1 + severityCount sev l2)%Z.
Proof. unfold severityCount. rewrite filter_app, length_app. lia. Qed.

Lemma securityPenalty_range (l : list SecurityVulnerability) :
  (0 <= securityPenalty l <= 30)%Z.
Proof.
  unfold securityPenalty.
  pose proof (severityCount_nonneg "critical" l).
  pose proof (severityCount_nonneg "high" l).
  pose proof (severityCount_nonneg "medium" l). lia.
Qed.

(** The score is 100 minus the seven deductions. *)
Lemma rawScore_sum stats hotspots deps unused security :
  rawScore stats hotspots deps unused security
  = (100
     - (if (200 <? totalFiles stats)%Z then 10 else 0)
     - (if (10000 <? totalLOC stats)%Z then 10 else 0)
     - Z.min (activeHotspots hotspots * 3) 15
     - (if Qltb 3%Q (couplingRatio deps) then 15 else 0)
     - Z.min (unused * 2) 15
     - securityPenalty security
     - (if (0 <? totalCodeLines stats)%Z && Qltb (commentRatio stats) (5 # 100)%Q
        then 5 else 0))%Z.
Proof.
  unfold rawScore.
  destruct (200 <? totalFiles stats)%Z, (10000 <? totalLOC stats)%Z,
    (Qltb 3%Q (couplingRatio deps)), (0 <? totalCodeLines stats)%Z,
    (Qltb (commentRatio stats) (5 # 100)%Q); cbn [andb]; lia.
Qed.

Lemma rawScore_monotone (a b : Inputs) :
  worsens a b ->
  (rawScore (i_stats b) (i_hotspots b) (i_deps b) (i_unused b) (i_security b)
   <= rawScore (i_stats a) (i_hotspots a) (i_deps a) (i_unused a) (i_security a))%Z.
Proof.
  intros (Hf & Hl & Hh & He & Hn & Hu & Hc & Hhi & Hm & Hcode & Hcom).
  rewrite !rawScore_sum.
  assert (D1 : ((if (200 <? totalFiles (i_stats a))%Z then 10 else 0)
                <= (if (200 <? totalFiles (i_stats b))%Z then 10 else 0))%Z).
  { destruct (Z.ltb_spec 200 (totalFiles (i_stats a))),
      (Z.ltb_spec 200 (totalFiles (i_stats b))); lia. }
  assert (D2 : ((if (10000 <? totalLOC (i_stats a))%Z then 10 else 0)
                <= (if (10000 <? totalLOC (i_stats b))%Z then 10 else 0))%Z).
  { destruct (Z.ltb_spec 10000 (totalLOC (i_stats a))),
      (Z.ltb_spec 10000 (totalLOC (i_stats b))); lia. }
  assert (D4 : ((if Qltb 3%Q (couplingRatio (i_deps a)) then 15 else 0)
                <= (if Qltb 3%Q (couplingRatio (i_deps b)) then 15 else 0))%Z).
  { destruct (Qltb 3%Q (couplingRatio (i_deps a))) eqn:Ea; [|destruct (Qltb 3%Q (couplingRatio (i_deps b))); lia].
    assert (Qltb 3%Q (couplingRatio (i_deps b)) = true) as ->; [|lia].
    apply coupling_test_Z in Ea. apply coupling_test_Z.
    rewrite orOne_max in *. lia. }
  assert (D6 : (securityPenalty (i_security a) <= securityPenalty (i_security b))%Z).
  { unfold securityPenalty. lia. }
  assert (D7 : ((if (0 <? totalCodeLines (i_stats a))%Z
                    && Qltb (commentRatio (i_stats a)) (5 # 100)%Q then 5 else 0)
                <= (if (0 <? totalCodeLines (i_stats b))%Z
                       && Qltb (commentRatio (i_stats b)) (5 # 100)%Q then 5 else 0))%Z).
  { destruct ((0 <? totalCodeLines (i_stats a))%Z
              && Qltb (commentRatio (i_stats a)) (5 # 100)%Q) eqn:Ea;
      [|destruct ((0 <? totalCodeLines (i_stats b))%Z
                  && Qltb (commentRatio (i_stats b)) (5 # 100)%Q); lia].
    apply andb_true_iff in Ea. destruct Ea as [Ha Hr]. apply Z.ltb_lt in Ha.
    assert (Hb : (0 < totalCodeLines (i_stats b))%Z) by lia.
    apply (comment_test_Z _ Ha) in Hr.
    assert ((0 <? totalCodeLines (i_stats b))%Z
            && Qltb (commentRatio (i_stats b)) (5 # 100)%Q = true) as ->; [|lia].
    apply andb_true_iff. split; [apply Z.ltb_lt; exact Hb|].
    apply (comment_test_Z _ Hb). lia. }
  lia.
Qed.

Lemma activeHotspots_nonneg (hotspots : list Hotspot) : (0 <= activeHotspots hotspots)%Z.
Proof. unfold activeHotspots. lia. Qed.

Lemma rawScore_nonneg stats hotspots deps unused security :
  (0 <= rawScore stats hotspots deps unused security)%Z.
Proof.
  rewrite rawScore_sum.
  pose proof (securityPenalty_range security).
  pose proof (activeHotspots_nonneg hotspots).
  destruct (200 <? totalFiles stats)%Z, (10000 <? totalLOC stats)%Z,
    (Qltb 3%Q (couplingRatio deps)),
    ((0 <? totalCodeLines stats)%Z && Qltb (commentRatio stats) (5 # 100)%Q); lia.
Qed.

Lemma score_is_rawScore stats hotspots deps unused security :
  (0 <= unused)%Z ->
  calculateHealthScore stats hotspots deps unused security
  = rawScore stats hotspots deps unused security.
Proof.
  intro Hu. pose proof (rawScore_nonneg stats hotspots deps unused security) as H0.
  unfold calculateHealthScore.
  assert (rawScore stats hotspots deps unused security <= 100)%Z; [|lia].
  rewrite rawScore_sum.
  pose proof (securityPenalty_range security).
  pose proof (activeHotspots_nonneg hotspots).
  destruct (200 <? totalFiles stats)%Z, (10000 <? totalLOC stats)%Z,
    (Qltb 3%Q (couplingRatio deps)),
    ((0 <? totalCodeLines stats)%Z && Qltb (commentRatio stats) (5 # 100)%Q); lia.
Qed.

(** The findings take [securityPenalty] off the score before the clamp. *)
Lemma rawScore_security stats hotspots deps unused security :
  (rawScore stats hotspots deps unused []
   - rawScore stats hotspots deps unused security)%Z
  = securityPenalty security.
Proof.
  rewrite !rawScore_sum. change (securityPenalty []) with 0%Z. lia.
Qed.

(** C1.  For all inputs the health score lies in [0,100] (and is an integer:
    it is computed in [Z]); the security deduction lies in [0,30], and is 30
    for five critical and five high findings, whose uncapped weight is 75;
    the score of inputs that are at least as bad on every penalty input is
    no higher; in particular one more finding of any severity, critical
    included, appended to the findings never raises the score.  The
    deduction is the one the score shows: the findings lower the score of
    the same inputs without findings by at most [securityPenalty], whatever
    the inputs, and by exactly that when the unused-dependency count is not
    negative, so five critical and five high findings then lower it by 30. *)
Theorem health_score_bounded_capped_monotone :
  (forall stats hotspots deps unused security,
      (0 <= calculateHealthScore stats hotspots deps unused security <= 100)%Z) /\
  (forall security, (0 <= securityPenalty security <= 30)%Z) /\
  (forall security,
      severityCount "critical" security = 5%Z ->
      severityCount "high" security = 5%Z ->
      (severityCount "critical" security * 10 + severityCount "high" security * 5
       + severityCount "medium" security * 2 >= 75)%Z /\
      securityPenalty security = 30%Z) /\
  (forall a b, worsens a b -> (score b <= score a)%Z) /\
  (forall stats hotspots deps unused security v,
      (calculateHealthScore stats hotspots deps unused (security ++ [v])
       <= calculateHealthScore stats hotspots deps unused security)%Z) /\
  (forall stats hotspots deps unused security,
      (0 <= securityDeduction stats hotspots deps unused security
       <= securityPenalty security)%Z /\
      (securityDeduction stats hotspots deps unused security <= 30)%Z /\
      ((0 <= unused)%Z ->
       securityDeduction stats hotspots deps unused security
       = securityPenalty security)) /\
  (forall stats hotspots deps unused security,
      (0 <= unused)%Z ->
      severityCount "critical" security = 5%Z ->
      severityCount "high" security = 5%Z ->
      calculateHealthScore stats hotspots deps unused security
      = (calculateHealthScore stats hotspots deps unused [] - 30)%Z).
Proof.
  assert (Hfive : forall security,
            severityCount "critical" security = 5%Z ->
            severityCount "high" security = 5%Z ->
            (severityCount "critical" security * 10 + severityCount "high" security * 5
             + severityCount "medium" security * 2 >= 75)%Z /\
            securityPenalty security = 30%Z).
  { intros security Hc Hh. unfold securityPenalty.
    pose proof (severityCount_nonneg "medium" security). lia. }
  assert (Hexact : forall stats hotspots deps unused security,
            (0 <= unused)%Z ->
            securityDeduction stats hotspots deps unused security
            = securityPenalty security).
  { intros stats hotspots deps unused security Hu. unfold securityDeduction.
    rewrite !score_is_rawScore by exact Hu. apply rawScore_security. }
  split; [|split; [|split; [|split; [|split; [|split]]]]].
  - intros. unfold calculateHealthScore. lia.
  - exact securityPenalty_range.
  - exact Hfive.
  - intros a b H. unfold score, calculateHealthScore.
    pose proof (rawScore_monotone a b H). lia.
  - intros stats hotspots deps unused security v.
    change (score {| i_stats := stats; i_hotspots := hotspots; i_deps := deps;
                     i_unused := unused; i_security := security ++ [v] |}
            <= score {| i_stats := stats; i_hotspots := hotspots; i_deps := deps;
                        i_unused := unused; i_security := security |})%Z.
    unfold score, calculateHealthScore.
    match goal with
    | |- (Z.max 0 (Z.min 100 ?x) <= Z.max 0 (Z.min 100 ?y))%Z =>
        assert (x <= y)%Z; [|lia]
    end.
    apply (rawScore_monotone
             {| i_stats := stats; i_hotspots := hotspots; i_deps := deps;
                i_unused := unused; i_security := security |}
             {| i_stats := stats; i_hotspots := hotspots; i_deps := deps;
                i_unused := unused; i_security := security ++ [v] |}).
    unfold worsens; cbn [i_stats i_hotspots i_deps i_unused i_security].
    rewrite !severityCount_app.
    pose proof (severityCount_nonneg "critical" [v]).
    pose proof (severityCount_nonneg "high" [v]).
    pose proof (severityCount_nonneg "medium" [v]).
    repeat split; lia.
  - intros stats hotspots deps unused security.
    pose proof (securityPenalty_range security) as Hrange.
    pose proof (rawScore_security stats hotspots deps unused security) as Hdiff.
    assert (Hle : (0 <= securityDeduction stats hotspots deps unused security
                   <= securityPenalty security)%Z)
      by (unfold securityDeduction, calculateHealthScore; lia).
    split; [exact Hle|]. split; [lia|]. apply Hexact.
  - intros stats hotspots deps unused security Hu Hc Hh.
    pose proof (Hexact stats hotspots deps unused security Hu) as Hd.
    rewrite (proj2 (Hfive security Hc Hh)) in Hd.
    unfold securityDeduction in Hd. lia.
Qed.

(** The monotonicity and cap parts of C1 at concrete inputs: a second
    critical finding lowers the score from 90 to 80, and five critical with
    five high findings cost 30: they take the score of the sample project
    from 100 to 70. *)
Lemma health_score_bounded_capped_monotone_witness :
  worsens (sampleInputs [finding "critical"])
          (sampleInputs [finding "critical"; finding "critical"]) /\
  (score (sampleInputs [finding "critical"; finding "critical"])
   <= score (sampleInputs [finding "critical"]))%Z /\
  securityPenalty (repeat (finding "critical") 5 ++ repeat (finding "high") 5)%list = 30%Z /\
  calculateHealthScore cleanStats [] (sampleGraph 10 30) 0
    (repeat (finding "critical") 5 ++ repeat (finding "high") 5)%list
  = (calculateHealthScore cleanStats [] (sampleGraph 10 30) 0 [] - 30)%Z.
Proof.
  assert (W : worsens (sampleInputs [finding "critical"])
                      (sampleInputs [finding "critical"; finding "critical"])).
  { unfold worsens; cbn; repeat split; lia. }
  split; [exact W|split; [|split]].
  - exact (proj1 (proj2 (proj2 (proj2 health_score_bounded_capped_monotone))) _ _ W).
  - apply (proj1 (proj2 (proj2 health_score_bounded_capped_monotone))
             (repeat (finding "critical") 5 ++ repeat (finding "high") 5)%list);
      reflexivity.
  - apply (proj2 (proj2 (proj2 (proj2 (proj2 (proj2
             health_score_bounded_capped_monotone)))))
             cleanStats [] (sampleGraph 10 30) 0%Z
             (repeat (finding "critical") 5 ++ repeat (finding "high") 5)%list);
      [lia|reflexivity|reflexivity].
Defined.

Lemma coupling_test_edgesPerNode (g : DependencyGraph) :
  Qltb 3%Q (couplingRatio g) = true <-> (3 < edgesPerNode g)%Q.
Proof. rewrite Qltb_true_iff, couplingRatio_edgesPerNode. reflexivity. Qed.

Lemma couplingDeduction_value stats hotspots deps unused security :
  couplingDeduction stats hotspots deps unused security
  = if Qltb 3%Q (couplingRatio deps) then 15%Z else 0%Z.
Proof.
  unfold couplingDeduction, rawScore.
  change (Qltb 3%Q (couplingRatio emptyGraph)) with false.
  destruct (Qltb 3%Q (couplingRatio deps));
    repeat match goal with
           | |- context [if ?c then _ else _] => destruct c
           end; lia.
Qed.

(** C7.  The coupling test takes 15 points off the score exactly when the
    number of edges divided by [max(nodes, 1)] is strictly greater than 3,
    and nothing otherwise; with 10 nodes, 30 edges take nothing off and 31
    edges take 15 off. *)
Theorem coupling_deduction_iff :
  (forall stats hotspots deps unused security,
      (couplingDeduction stats hotspots deps unused security = 15%Z
       <-> (3 < edgesPerNode deps)%Q) /\
      (couplingDeduction stats hotspots deps unused security = 0%Z
       <-> ~ (3 < edgesPerNode deps)%Q)) /\
  (forall stats hotspots deps unused security,
      List.length (nodes deps) = 10 -> List.length (links deps) = 30 ->
      couplingDeduction stats hotspots deps unused security = 0%Z) /\
  (forall stats hotspots deps unused security,
      List.length (nodes deps) = 10 -> List.length (links deps) = 31 ->
      couplingDeduction stats hotspots deps unused security = 15%Z).
Proof.
  split; [|split].
  - intros. rewrite couplingDeduction_value, <- coupling_test_edgesPerNode.
    destruct (Qltb 3%Q (couplingRatio deps)); split; split; intro H;
      try reflexivity; try discriminate; congruence.
  - intros stats hotspots deps unused security Hn He.
    rewrite couplingDeduction_value.
    destruct (Qltb 3%Q (couplingRatio deps)) eqn:E; [|reflexivity].
    apply coupling_test_Z in E. rewrite Hn, He in E. cbn in E. lia.
  - intros stats hotspots deps unused security Hn He.
    rewrite couplingDeduction_value.
    destruct (Qltb 3%Q (couplingRatio deps)) eqn:E; [reflexivity|].
    assert (Qltb 3%Q (couplingRatio deps) = true); [|congruence].
    apply coupling_test_Z. rewrite Hn, He. cbn. lia.
Qed.

(** C7 on a sample project with 10 nodes: 30 edges leave the score at 100,
    31 edges bring it to 85. *)
Lemma coupling_deduction_iff_witness :
  couplingDeduction cleanStats [] (sampleGraph 10 30) 0 [] = 0%Z /\
  couplingDeduction cleanStats [] (sampleGraph 10 31) 0 [] = 15%Z /\
  calculateHealthScore cleanStats [] (sampleGraph 10 30) 0 [] = 100%Z /\
  calculateHealthScore cleanStats [] (sampleGraph 10 31) 0 [] = 85%Z.
Proof.
  split; [|split; [|split]].
  - apply (proj1 (proj2 coupling_deduction_iff)); reflexivity.
  - apply (proj2 (proj2 coupling_deduction_iff)); reflexivity.
  - reflexivity.
  - reflexivity.
Defined.

Example score_clean : score (sampleInputs []) = 100%Z.
Proof. reflexivity. Qed.

Example score_one_critical : score (sampleInputs [finding "critical"]) = 90%Z.
Proof. reflexivity. Qed.

Example score_five_critical_five_high :
  score (sampleInputs (repeat (finding "critical") 5 ++ repeat (finding "high") 5)%list) = 70%Z.
Proof. reflexivity. Qed.

End ProjectProofs.

(* ================================================================== *)
(** * Properties of the path resolver and the dependency graph *)
(* ================================================================== *)

Module StringFacts.
Import JsString.

Lemma length_append (a b : string) :
  String.length (a ++ b) = String.length a + String.length b.
Proof. induction a as [|c a IH]; simpl; [reflexivity | rewrite IH; reflexivity]. Qed.

Lemma length_zero_iff (s : string) : (String.length s =? 0)%nat = true <-> s = "".
Proof.
  destruct s; simpl; split; intro H; try reflexivity; discriminate.
Qed.

Lemma length_replaceBackslashes (s : string) :
  String.length (replaceBackslashes s) = String.length s.
Proof. induction s as [|c s IH]; simpl; [reflexivity | rewrite IH; reflexivity]. Qed.

Lemma replaceJsSuffix_nonempty (s : string) :
  String.length s <> 0 -> String.length (replaceJsSuffix s) <> 0.
Proof.
  intro H. unfold replaceJsSuffix. destruct (endsWith s ".js"); [|exact H].
  rewrite length_append. simpl. lia.
Qed.

Lemma normalize_nonempty (p : string) : String.length (Path.normalize p) <> 0.
Proof.
  unfold Path.normalize.
  generalize (Path.normalizeString p (negb (Path.isSlashAt p 0))).
  generalize (Path.isSlashAt p (String.length p - 1)).
  generalize (Path.isSlashAt p 0).
  intros isAbsolute trailingSeparator q.
  destruct (String.length p =? 0)%nat; [cbn; lia|].
  destruct (String.length q =? 0)%nat eqn:E.
  - destruct isAbsolute, trailingSeparator; cbn; lia.
  - apply Nat.eqb_neq in E.
    destruct isAbsolute, trailingSeparator; rewrite ?length_append; cbn; lia.
Qed.

Lemma join2_nonempty (a b : string) : String.length (Path.join2 a b) <> 0.
Proof.
  unfold Path.join2.
  match goal with |- context [if ?c then "." else _] => destruct c end;
    [simpl; lia | apply normalize_nonempty].
Qed.

End StringFacts.

Module DependenciesProofs.
Import JsString Ast World Dependencies DependenciesSpec StringFacts.

Section Find.
Context {A : Type} (p : A -> bool).

(** [find] gives the first element, in list order, that passes the test. *)
Lemma find_Some_first (l : list A) (m : A) :
  find p l = Some m
  <-> exists pre post, l = (pre ++ m :: post)%list /\ p m = true
                       /\ forall x, In x pre -> p x = false.
Proof.
  induction l as [|a l IH]; simpl.
  - split; [discriminate|]. intros (pre & post & H & _). destruct pre; discriminate.
  - destruct (p a) eqn:Ea.
    + split.
      * intros [= <-]. exists [], l. repeat split; auto. intros x [].
      * intros (pre & post & H & Hm & Hpre). destruct pre as [|x pre].
        -- simpl in H. congruence.
        -- simpl in H. injection H as <- _.
           rewrite (Hpre a (or_introl eq_refl)) in Ea. discriminate.
    + rewrite IH. split.
      * intros (pre & post & -> & Hm & Hpre). exists (a :: pre), post.
        repeat split; auto. intros x [<-|Hx]; auto.
      * intros (pre & post & H & Hm & Hpre). destruct pre as [|x pre].
        -- simpl in H. injection H as -> _. congruence.
        -- simpl in H. injection H as <- ->. exists pre, post.
           repeat split; auto. intros y Hy. apply Hpre. right. exact Hy.
Qed.

Lemma find_None_all (l : list A) :
  find p l = None <-> forall x, In x l -> p x = false.
Proof.
  split; [apply find_none|].
  induction l as [|a l IH]; simpl; [reflexivity|]. intro H.
  rewrite (H a (or_introl eq_refl)). apply IH. intros x Hx. apply H. right. exact Hx.
Qed.

End Find.

Lemma candidate_nonempty (file importSource ext : string) :
  String.length (candidate (resolvedPath file importSource) ext) <> 0.
Proof.
  unfold candidate, resolvedPath.
  rewrite length_replaceBackslashes, length_append, length_replaceBackslashes.
  pose proof (join2_nonempty (Path.dirname file) importSource). lia.
Qed.

Lemma matches_nonempty (file importSource ext m : string) :
  matches (resolvedPath file importSource) ext m = true -> (String.length m =? 0)%nat = false.
Proof.
  unfold matches. intro H. apply Nat.eqb_neq.
  apply orb_true_iff in H. destruct H as [H|H]; apply String.eqb_eq in H; subst m.
  - apply candidate_nonempty.
  - unfold candidateAlt. rewrite length_replaceBackslashes.
    apply replaceJsSuffix_nonempty, candidate_nonempty.
Qed.

(** The extension loop finds [m] exactly when [find] finds it at some
    extension and finds nothing at every earlier one. *)
Lemma probe_Some (files : list string) (file importSource : string)
    (exts : list string) (m : string) :
  probe files (resolvedPath file importSource) exts = Some m
  <-> exists pre ext post,
        exts = (pre ++ ext :: post)%list
        /\ (forall e, In e pre -> find (matches (resolvedPath file importSource) e) files = None)
        /\ find (matches (resolvedPath file importSource) ext) files = Some m.
Proof.
  set (r := resolvedPath file importSource).
  induction exts as [|e exts IH]; simpl.
  - split; [discriminate|]. intros (pre & ext & post & H & _). destruct pre; discriminate.
  - destruct (find (matches r e) files) as [m'|] eqn:Ef.
    + assert (Hne : (String.length m' =? 0)%nat = false).
      { apply find_some in Ef. destruct Ef as [_ Hm].
        exact (matches_nonempty file importSource e m' Hm). }
      rewrite Hne. split.
      * intros [= <-]. exists [], e, exts. repeat split; auto. intros x [].
      * intros (pre & ext & post & H & Hpre & Hf). destruct pre as [|x pre].
        -- simpl in H. injection H as -> _. congruence.
        -- simpl in H. injection H as <- _.
           rewrite (Hpre e (or_introl eq_refl)) in Ef. discriminate.
    + rewrite IH. split.
      * intros (pre & ext & post & -> & Hpre & Hf). exists (e :: pre), ext, post.
        repeat split; auto. intros x [<-|Hx]; auto.
      * intros (pre & ext & post & H & Hpre & Hf). destruct pre as [|x pre].
        -- simpl in H. injection H as -> _. congruence.
        -- simpl in H. injection H as <- ->. exists pre, ext, post.
           repeat split; auto. intros y Hy. apply Hpre. right. exact Hy.
Qed.

Lemma probe_None (files : list string) (file importSource : string) (exts : list string) :
  probe files (resolvedPath file importSource) exts = None
  <-> forall e, In e exts -> find (matches (resolvedPath file importSource) e) files = None.
Proof.
  set (r := resolvedPath file importSource).
  induction exts as [|e exts IH]; simpl.
  - split; [intros _ x []|reflexivity].
  - destruct (find (matches r e) files) as [m'|] eqn:Ef.
    + assert (Hne : (String.length m' =? 0)%nat = false).
      { apply find_some in Ef. destruct Ef as [_ Hm].
        exact (matches_nonempty file importSource e m' Hm). }
      rewrite Hne. split; [discriminate|].
      intro H. specialize (H e (or_introl eq_refl)). congruence.
    + rewrite IH. split.
      * intros H x [<-|Hx]; auto.
      * intros H x Hx. apply H. right. exact Hx.
Qed.

Lemma probe_In (files : list string) (resolved : string) (exts : list string) (m : string) :
  probe files resolved exts = Some m -> In m files.
Proof.
  induction exts as [|e exts IH]; simpl; [discriminate|].
  destruct (find (matches resolved e) files) as [m'|] eqn:Ef; [|exact IH].
  destruct (String.length m' =? 0)%nat; [exact IH|].
  intros [= <-]. apply find_some in Ef. tauto.
Qed.

Lemma find_of_In {A : Type} (p : A -> bool) (l : list A) (x : A) :
  In x l -> p x = true -> exists m, find p l = Some m.
Proof.
  intros Hin Hp. destruct (find p l) as [m|] eqn:E; [exists m; reflexivity|].
  rewrite (find_none _ _ E x Hin) in Hp. discriminate.
Qed.

Lemma In_firstn {A : Type} (n : nat) (l : list A) (x : A) :
  In x (firstn n l) -> In x l.
Proof. intro H. rewrite <- (firstn_skipn n l). apply in_or_app. left. exact H. Qed.

(** C2, as the code has it.  An import resolves to [m] exactly when, at
    the first of the nine extensions (in their fixed order) for which some
    project file equals the candidate or its variant with a trailing [.js]
    rewritten to [.ts], [m] is the first such file in enumeration order;
    it resolves to nothing exactly when no file equals any candidate or
    variant.  Given [a.ts] and no file [a], specifier [./a] from the sibling
    [b.ts] resolves to [a.ts] whether or not [a/index.ts] exists and
    whatever the order; specifier [./a.js] resolves to whichever of [a.js]
    and [a.ts] is enumerated first. *)
Theorem resolution_first_extension_first_file :
  (forall files file importSource m,
      resolveImport files file importSource = Some m
      <-> exists pre ext post fpre fpost,
            extensions = (pre ++ ext :: post)%list
            /\ (forall e f, In e pre -> In f files ->
                            matches (resolvedPath file importSource) e f = false)
            /\ files = (fpre ++ m :: fpost)%list
            /\ matches (resolvedPath file importSource) ext m = true
            /\ (forall f, In f fpre ->
                          matches (resolvedPath file importSource) ext f = false)) /\
  (forall files file importSource,
      resolveImport files file importSource = None
      <-> forall e f, In e extensions -> In f files ->
                      matches (resolvedPath file importSource) e f = false) /\
  (forall files,
      In "a.ts" files -> ~ In "a" files ->
      resolveImport files "b.ts" "./a" = Some "a.ts") /\
  (forall fpre m fpost,
      m = "a.js" \/ m = "a.ts" ->
      (forall f, In f fpre -> f <> "a.js" /\ f <> "a.ts") ->
      resolveImport (fpre ++ m :: fpost) "b.ts" "./a.js" = Some m).
Proof.
  split; [|split; [|split]].
  - intros files file importSource m. unfold resolveImport. rewrite probe_Some. split.
    + intros (pre & ext & post & He & Hpre & Hf).
      apply find_Some_first in Hf. destruct Hf as (fpre & fpost & Hfiles & Hm & Hfpre).
      exists pre, ext, post, fpre, fpost. repeat split; auto.
      intros e f Hin Hf. exact (proj1 (find_None_all _ _) (Hpre e Hin) f Hf).
    + intros (pre & ext & post & fpre & fpost & He & Hpre & Hfiles & Hm & Hfpre).
      exists pre, ext, post. repeat split; auto.
      * intros e Hin. apply find_None_all. intros f Hf. exact (Hpre e f Hin Hf).
      * apply find_Some_first. exists fpre, fpost. repeat split; auto.
  - intros files file importSource. unfold resolveImport. rewrite probe_None. split.
    + intros H e f He Hf. exact (proj1 (find_None_all _ _) (H e He) f Hf).
    + intros H e He. apply find_None_all. intros f Hf. exact (H e f He Hf).
  - intros files Hin Hnot. unfold resolveImport. apply probe_Some.
    change (resolvedPath "b.ts" "./a") with "a".
    destruct (find_of_In (matches "a" ".ts") files "a.ts" Hin eq_refl) as [m Hm].
    assert (m = "a.ts") as ->.
    { apply find_some in Hm. destruct Hm as [_ Hm]. unfold matches in Hm.
      change (candidate "a" ".ts") with "a.ts" in Hm.
      change (candidateAlt "a" ".ts") with "a.ts" in Hm.
      apply orb_true_iff in Hm. destruct Hm as [Hm|Hm]; apply String.eqb_eq in Hm; exact Hm. }
    exists [""], ".ts", [".tsx"; ".js"; ".jsx"; "/index.ts"; "/index.tsx"; "/index.js"; "/index.jsx"].
    repeat split; auto.
    intros e [<-|[]]. apply find_None_all. intros f Hf. unfold matches.
    change (candidate "a" "") with "a". change (candidateAlt "a" "") with "a".
    assert (f <> "a") by (intros ->; contradiction).
    apply String.eqb_neq in H. rewrite H. reflexivity.
  - intros fpre m fpost Hm Hfpre. unfold resolveImport. apply probe_Some.
    change (resolvedPath "b.ts" "./a.js") with "a.js".
    exists [], "", [".ts"; ".tsx"; ".js"; ".jsx"; "/index.ts"; "/index.tsx"; "/index.js"; "/index.jsx"].
    repeat split; auto; [intros e []|].
    apply find_Some_first. exists fpre, fpost.
    unfold matches.
    change (candidate "a.js" "") with "a.js". change (candidateAlt "a.js" "") with "a.ts".
    repeat split; auto.
    + destruct Hm as [-> | ->]; reflexivity.
    + intros f Hf. destruct (Hfpre f Hf) as [H1 H2].
      apply String.eqb_neq in H1, H2. rewrite H1, H2. reflexivity.
Qed.

(** C2 on concrete file sets: [./a] picks [a.ts] although [a/index.ts] is
    enumerated first, and [./a.js] picks [a.ts] when it is enumerated before
    [a.js]. *)
Lemma resolution_first_extension_first_file_witness :
  resolveImport ["a/index.ts"; "a.ts"; "b.ts"] "b.ts" "./a" = Some "a.ts" /\
  resolveImport (["b.ts"] ++ "a.ts" :: ["a.js"]) "b.ts" "./a.js" = Some "a.ts".
Proof.
  split.
  - apply (proj1 (proj2 (proj2 resolution_first_extension_first_file))).
    + simpl. auto.
    + simpl. intros [H|[H|[H|[]]]]; discriminate.
  - apply (proj2 (proj2 (proj2 resolution_first_extension_first_file))).
    + right. reflexivity.
    + intros f [<-|[]]. split; discriminate.
Defined.

(** C2 fails as stated: with [a.ts] enumerated before [a.js], specifier
    [./a.js] does not resolve to the exact match [a.js]. *)
Lemma exact_js_match_depends_on_enumeration_order :
  ~ (forall files,
        In "a.js" files -> In "a.ts" files ->
        resolveImport files "b.ts" "./a.js" = Some "a.js").
Proof.
  intro H. specialize (H ["a.ts"; "a.js"; "b.ts"]).
  assert (E : resolveImport ["a.ts"; "a.js"; "b.ts"] "b.ts" "./a.js" = Some "a.ts")
    by reflexivity.
  rewrite E in H. discriminate H; simpl; auto.
Qed.

Lemma linksOfFile_endpoints (E : Env) (projectPath : string) (normalizedFiles : list string)
    (file : string) (l : Link) :
  In l (linksOfFile E projectPath normalizedFiles file) ->
  source l = replaceBackslashes file /\ In (target l) normalizedFiles.
Proof.
  unfold linksOfFile. destruct (readFile E _) as [content|]; simpl; [|intros []].
  intro H. apply in_flat_map in H. destruct H as (src & _ & H).
  unfold linksOfImport in H. destruct (negb (isRelativeImport src)); [destruct H|].
  destruct (resolveImport normalizedFiles file src) as [m|] eqn:Er; [|destruct H].
  destruct H as [<-|[]]. simpl. split; [reflexivity|].
  exact (probe_In _ _ _ _ Er).
Qed.

(** How far the code keeps edges among the nodes.  Both lists are cut to
    their first entries; the source and the target of every returned edge
    are normalised input paths, which is what the node ids are; and while
    the node cap cuts nothing (at most 1000 input files) they are returned
    nodes. *)
Lemma graph_edges_connect_input_files :
  forall (E : Env) (projectPath : string) (files : list string),
    let g := analyzeFileDependencies E projectPath files in
    nodes g = firstn 1000 (map replaceBackslashes files) /\
    links g = firstn 2000 (discoveredLinks E projectPath files) /\
    (exists rest, discoveredLinks E projectPath files = (links g ++ rest)%list) /\
    (forall l, In l (links g) ->
               In (source l) (map replaceBackslashes files)
               /\ In (target l) (map replaceBackslashes files)) /\
    (List.length files <= 1000 ->
     forall l, In l (links g) -> In (source l) (nodes g) /\ In (target l) (nodes g)).
Proof.
  intros E projectPath files g.
  assert (Hall : forall l, In l (links g) ->
                   In (source l) (map replaceBackslashes files)
                   /\ In (target l) (map replaceBackslashes files)).
  { intros l Hl. apply In_firstn in Hl. unfold discoveredLinks in Hl.
    apply in_flat_map in Hl. destruct Hl as (file & Hfile & Hl).
    apply linksOfFile_endpoints in Hl. destruct Hl as [-> Ht].
    split; [apply in_map; exact Hfile | exact Ht]. }
  split; [reflexivity|]. split; [reflexivity|]. split; [|split].
  - exists (skipn 2000 (discoveredLinks E projectPath files)).
    symmetry. apply firstn_skipn.
  - exact Hall.
  - intros Hlen l Hl. subst g. cbn [nodes analyzeFileDependencies].
    rewrite firstn_all2 by (rewrite length_map; exact Hlen).
    exact (Hall l Hl).
Qed.

(** On a two-file project the one edge runs between returned nodes. *)
Lemma small_graph_edges_connected :
  let g := analyzeFileDependencies (envOf "proj" smallProject) "proj" ["src/a.ts"; "src/b.ts"] in
  links g = [ {| source := "src/a.ts"; target := "src/b.ts" |} ] /\
  (forall l, In l (links g) -> In (source l) (nodes g) /\ In (target l) (nodes g)).
Proof.
  split; [reflexivity|].
  apply (proj2 (proj2 (proj2 (proj2
    (graph_edges_connect_input_files (envOf "proj" smallProject) "proj"
       ["src/a.ts"; "src/b.ts"]))))).
  simpl. lia.
Qed.

(** The graph of the 1001-file project: one edge, from the last file to
    the first, and the last file is not a returned node. *)
Lemma large_graph_value :
  (links (analyzeFileDependencies (envOf "proj" largeProject) "proj" manyFiles),
   existsb (String.eqb "f1000.ts")
     (nodes (analyzeFileDependencies (envOf "proj" largeProject) "proj" manyFiles)))
  = ([ {| source := "f1000.ts"; target := "f0.ts" |} ], false).
Proof. vm_compute. reflexivity. Qed.

Lemma edge_outside_of_value (g : DependencyGraph) (l : Link) :
  (links g, existsb (String.eqb (source l)) (nodes g)) = ([l], false) ->
  exists l, In l (links g) /\ ~ In (source l) (nodes g).
Proof.
  intro Hg.
  pose proof (f_equal fst Hg) as Hl. pose proof (f_equal snd Hg) as Hn.
  cbn [fst snd] in Hl, Hn. clear Hg.
  exists l. split.
  - rewrite Hl. left. reflexivity.
  - intro Hin.
    assert (existsb (String.eqb (source l)) (nodes g) = true); [|congruence].
    apply existsb_exists. exists (source l). split; [exact Hin|apply String.eqb_refl].
Qed.

(** C3.  Every edge should run between returned nodes, also when the caps
    cut; the code cuts nodes and edges independently and misses the case
    where the node cap removes an endpoint: with 1001 files, the last one
    importing the first, the returned graph has an edge whose source is not
    among the returned nodes. *)
Theorem edge_source_outside_truncated_nodes :
  exists l,
    In l (links (analyzeFileDependencies (envOf "proj" largeProject) "proj" manyFiles))
    /\ ~ In (source l)
           (nodes (analyzeFileDependencies (envOf "proj" largeProject) "proj" manyFiles)).
Proof.
  exact (edge_outside_of_value _ {| source := "f1000.ts"; target := "f0.ts" |}
           large_graph_value).
Qed.

Lemma includes_In (l : list string) (x : string) : includes l x = true <-> In x l.
Proof.
  unfold includes. rewrite existsb_exists. split.
  - intros (y & Hy & E). apply String.eqb_eq in E. subst y. exact Hy.
  - intro H. exists x. split; [exact H | apply String.eqb_refl].
Qed.

Lemma objSet_keys (k v : string) (o : list (string * string)) (x : string) :
  In x (map fst (objSet k v o)) <-> x = k \/ In x (map fst o).
Proof.
  induction o as [|[k' v'] o IH]; simpl.
  - intuition.
  - destruct (String.eqb_spec k k') as [->|Hne]; simpl; [intuition|].
    rewrite IH. intuition.
Qed.

Lemma fold_objSet_keys (l acc : list (string * string)) (x : string) :
  In x (map fst (fold_left (fun acc kv => objSet (fst kv) (snd kv) acc) l acc))
  <-> In x (map fst l) \/ In x (map fst acc).
Proof.
  revert acc. induction l as [|[k v] l IH]; intro acc; simpl.
  - intuition.
  - rewrite IH, objSet_keys. intuition.
Qed.

(** The keys of [{ ...a, ...b }] are the keys of [a] and of [b]. *)
Lemma objSpread_keys (a b : list (string * string)) (x : string) :
  In x (map fst (objSpread a b)) <-> In x (map fst a) \/ In x (map fst b).
Proof.
  unfold objSpread. rewrite fold_objSet_keys, map_app, in_app_iff. simpl. intuition.
Qed.

Lemma setAdd_In (y : string) (s : list string) (x : string) :
  In x (setAdd y s) <-> x = y \/ In x s.
Proof.
  unfold setAdd. destruct (includes s y) eqn:E.
  - apply includes_In in E. split; [auto|]. intros [->|H]; auto.
  - rewrite in_app_iff. simpl. intuition.
Qed.

Lemma fold_setAdd_In (l s : list string) (x : string) :
  In x (fold_left (fun s y => setAdd y s) l s) <-> In x l \/ In x s.
Proof.
  revert s. induction l as [|y l IH]; intro s; simpl.
  - intuition.
  - rewrite IH, setAdd_In. intuition.
Qed.

(** A name enters [usedPackages] only through an external import of a
    readable file. *)
Lemma usedPackages_In (E : Env) (projectPath : string) (allDepNames files : list string)
    (dep : string) :
  In dep (usedPackages E projectPath allDepNames files) ->
  exists file content source,
    In file files /\ readFile E (Path.join2 projectPath file) = Ok content
    /\ In source (extractImports E content file)
    /\ isRelativeImport source = false /\ getPackageName source = dep.
Proof.
  unfold usedPackages. rewrite fold_setAdd_In. intros [H|[]].
  apply in_flat_map in H. destruct H as (file & Hfile & H).
  unfold usedInFile in H.
  destruct (readFile E (Path.join2 projectPath file)) as [content|] eqn:Er; simpl in H;
    [|destruct H].
  apply filter_In in H. destruct H as [H _].
  apply in_map_iff in H. destruct H as (source & Hname & H).
  apply filter_In in H. destruct H as [Hsrc Hrel].
  exists file, content, source. rewrite negb_true_iff in Hrel. auto.
Qed.

Lemma isBuildTimeDep_exempt (dep : string) :
  isBuildTimeDep dep = true <-> In dep exemptionSet \/ startsWith dep "@types/" = true.
Proof.
  unfold isBuildTimeDep. rewrite orb_true_iff, includes_In. split.
  - intros [H|H]; [|auto]. simpl in H.
    destruct H as [<-|[<-|H]]; [left; simpl; auto | right; reflexivity |].
    left. simpl. simpl in H. tauto.
  - intros [H|H]; [|auto]. left. simpl in H |- *. tauto.
Qed.

(** C6.  With a readable manifest, a declared package that no readable file
    imports is not in [used]; it is not in [unused] either when its name is
    in the exemption set or starts with [@types/], and it is in [unused]
    otherwise.  [eslint] is exempt and [left-pad] is not.  For every project
    [used] and [unused] are disjoint. *)
Theorem unused_classification :
  (forall (E : Env) (projectPath : string) (files : list string) (pkg : Pkg) (dep : string),
      pkgJsonExists E = true ->
      readJson E = Ok pkg ->
      declared pkg dep ->
      importedNowhere E projectPath files dep ->
      let r := analyzePackageDeps E projectPath files in
      ~ In dep (used r) /\
      (In dep exemptionSet \/ startsWith dep "@types/" = true -> ~ In dep (unused r)) /\
      (~ In dep exemptionSet -> startsWith dep "@types/" = false -> In dep (unused r))) /\
  (In "eslint" exemptionSet /\ ~ In "left-pad" exemptionSet
   /\ startsWith "left-pad" "@types/" = false) /\
  (forall (E : Env) (projectPath : string) (files : list string) (dep : string),
      In dep (used (analyzePackageDeps E projectPath files)) ->
      ~ In dep (unused (analyzePackageDeps E projectPath files))).
Proof.
  split; [|split].
  - intros E projectPath files pkg dep Hex Hread Hdecl Hnow r. subst r.
    unfold analyzePackageDeps, analyzePackageDepsBody. rewrite Hex, Hread. cbn.
    set (deps := match pkgDependencies pkg with Some d => d | None => [] end) in *.
    set (devDeps := match pkgDevDependencies pkg with Some d => d | None => [] end) in *.
    set (names := map fst (objSpread deps devDeps)).
    assert (Hnames : In dep names) by (apply objSpread_keys; exact Hdecl).
    assert (Hunused : includes (usedPackages E projectPath names files) dep = false).
    { destruct (includes _ dep) eqn:Ei; [|reflexivity].
      apply includes_In, usedPackages_In in Ei.
      destruct Ei as (file & content & source & Hf & Hr & Hs & Hrel & Hn).
      exfalso. exact (Hnow file content source Hf Hr Hs Hrel Hn). }
    split; [|split].
    + intro H. apply filter_In in H. destruct H as [_ H]. congruence.
    + intros Hexempt H. apply filter_In in H. destruct H as [_ H].
      apply isBuildTimeDep_exempt in Hexempt. rewrite Hexempt, andb_false_r in H.
      discriminate.
    + intros Hn1 Hn2. apply filter_In. split; [exact Hnames|].
      rewrite Hunused. simpl.
      destruct (isBuildTimeDep dep) eqn:Eb; [|reflexivity].
      apply isBuildTimeDep_exempt in Eb. destruct Eb; [contradiction|congruence].
  - split; [simpl; tauto|]. split; [|reflexivity].
    simpl. intros H. repeat (destruct H as [H|H]; [discriminate|]). exact H.
  - intros E projectPath files dep.
    unfold analyzePackageDeps, analyzePackageDepsBody.
    destruct (pkgJsonExists E); cbn; [|tauto].
    destruct (readJson E) as [pkg|]; cbn; [|tauto].
    intros Hu Hn. apply filter_In in Hu, Hn.
    destruct Hu as [_ Hu]. destruct Hn as [_ Hn]. rewrite Hu in Hn. discriminate.
Qed.

Lemma lintedProject_imports (dep : string) :
  dep <> "lodash" -> importedNowhere (envOf "proj" lintedProject) "proj" ["index.ts"] dep.
Proof.
  intros Hdep file content source [<-|[]] Hread Hsrc Hrel.
  assert (content = "import merge from 'lodash/merge'; import './util';") as ->
    by (cbn in Hread; congruence).
  cbn in Hsrc. destruct Hsrc as [<-|[<-|[]]]; [|discriminate Hrel].
  cbn. congruence.
Defined.

(** C6 on a manifest that declares [eslint] and [left-pad] in both sections
    while the sources import only [lodash]. *)
Lemma unused_classification_witness :
  let r := analyzePackageDeps (envOf "proj" lintedProject) "proj" ["index.ts"] in
  (~ In "eslint" (used r) /\ ~ In "eslint" (unused r)) /\
  (~ In "left-pad" (used r) /\ In "left-pad" (unused r)) /\
  used r = ["lodash"] /\ unused r = ["left-pad"] /\
  ~ In "lodash" (unused r).
Proof.
  intro r.
  pose proof (proj1 unused_classification (envOf "proj" lintedProject) "proj" ["index.ts"]
                _ "eslint" eq_refl eq_refl
                (or_introl (or_intror (or_introl eq_refl)))
                (lintedProject_imports "eslint" ltac:(discriminate))) as He.
  pose proof (proj1 unused_classification (envOf "proj" lintedProject) "proj" ["index.ts"]
                _ "left-pad" eq_refl eq_refl
                (or_introl (or_introl eq_refl))
                (lintedProject_imports "left-pad" ltac:(discriminate))) as Hl.
  cbv zeta in He, Hl. fold r in He, Hl.
  destruct He as (He1 & He2 & _). destruct Hl as (Hl1 & _ & Hl3).
  split; [split; [exact He1|apply He2; left; simpl; auto]|].
  split; [split; [exact Hl1|]|split; [reflexivity|split; [reflexivity|]]].
  - apply Hl3; [|reflexivity].
    simpl. intros H. repeat (destruct H as [H|H]; [discriminate|]). exact H.
  - apply (proj2 (proj2 unused_classification) (envOf "proj" lintedProject) "proj"
             ["index.ts"] "lodash").
    left. reflexivity.
Defined.

End DependenciesProofs.

(* ================================================================== *)
(** * Properties of the security pattern engine *)
(* ================================================================== *)

Module SecurityProofs.
Import JsString Ast World Regex Security DependenciesSpec SecuritySpec.

Section Filter.
Context {A : Type} (p : A -> bool).



End Filter.

(** ** The line loop *)

Lemma scanSecrets_line (patterns : list SecretPattern) (rel : string) (i : nat)
    (l : string) (v : SecurityVulnerability) :
  In v (scanSecrets patterns rel i l) -> line v = Some (i + 1).
Proof.
  induction patterns as [|s rest IH]; simpl; [intros []|].
  destruct (test (pattern s) l); [|exact IH]. intros [<-|[]]. reflexivity.
Qed.

Lemma scanSecrets_length (patterns : list SecretPattern) (rel : string) (i : nat) (l : string) :
  List.length (scanSecrets patterns rel i l) <= 1.
Proof.
  induction patterns as [|s rest IH]; simpl; [lia|].
  destruct (test (pattern s) l); [simpl; lia | exact IH].
Qed.



Lemma scanLine_line (rel : string) (i : nat) (l : string) (v : SecurityVulnerability) :
  In v (scanLine rel i l) -> line v = Some (i + 1).
Proof.
  unfold scanLine. destruct (isCommentLine l); [intros []|apply scanSecrets_line].
Qed.

Lemma scanLines_line (rel : string) (lines : list string) (k : nat)
    (v : SecurityVulnerability) :
  In v (scanLines rel k lines) -> exists j, k <= j /\ line v = Some (j + 1).
Proof.
  revert k. induction lines as [|l rest IH]; intros k; simpl; [intros []|].
  rewrite in_app_iff. intros [H|H].
  - exists k. split; [lia | exact (scanLine_line _ _ _ _ H)].
  - destruct (IH _ H) as (j & Hj & Hl). exists j. split; [lia | exact Hl].
Qed.





(** ** Which files are scanned *)

Lemma insertSorted_In (x : SecurityVulnerability) (l : list SecurityVulnerability)
    (v : SecurityVulnerability) :
  In v (insertSorted x l) <-> v = x \/ In v l.
Proof.
  induction l as [|y l IH]; simpl.
  - intuition.
  - destruct (0 <? compareSeverity x y)%Z; simpl; [rewrite IH|]; intuition.
Qed.

(** Sorting keeps the findings. *)
Lemma sortBySeverity_In (l : list SecurityVulnerability) (v : SecurityVulnerability) :
  In v (sortBySeverity l) <-> In v l.
Proof.
  unfold sortBySeverity. induction l as [|x l IH]; simpl; [tauto|].
  rewrite insertSorted_In, IH. intuition.
Qed.

Lemma vulnsOfFile_skips (E : Env) (projectPath file : string) :
  includes jsExtensions (Path.extname file) = false -> vulnsOfFile E projectPath file = [].
Proof. intro H. unfold vulnsOfFile. rewrite H. reflexivity. Qed.

(** C4, as the code has it.  A project file whose extension is not [.js],
    [.jsx], [.ts] or [.tsx] is skipped by [analyzeSecurity], and
    [scanFileForVulnerabilities] returns nothing for it: when no file has
    one of these extensions the result holds audit findings only ([.json]
    and [.yaml] are not among them).  For a readable file with one of these
    extensions, every finding of the line-by-line secret scan of its content
    is in the result, whether the file parses or not. *)
Theorem secret_scan_covers_script_files_only :
  (forall (E : Env) (projectPath file : string),
      includes jsExtensions (Path.extname file) = false ->
      vulnsOfFile E projectPath file = []) /\
  (forall (E : Env) (filePath content relativePath : string),
      includes jsExtensions (Path.extname filePath) = false ->
      scanFileForVulnerabilities E filePath content relativePath = []) /\
  (forall (E : Env) (projectPath : string) (files : list string),
      (forall file, In file files -> includes jsExtensions (Path.extname file) = false) ->
      analyzeSecurity E projectPath files = sortBySeverity (runNpmAudit E projectPath)) /\
  (includes jsExtensions (Path.extname "config.json") = false
   /\ includes jsExtensions (Path.extname "deploy.yaml") = false) /\
  (forall (E : Env) (projectPath : string) (files : list string) (file content : string)
          (v : SecurityVulnerability),
      In file files ->
      includes jsExtensions (Path.extname file) = true ->
      includes jsExtensions (Path.extname (Path.join2 projectPath file)) = true ->
      readFile E (Path.join2 projectPath file) = Ok content ->
      In v (secretScan content (replaceBackslashes file)) ->
      In v (analyzeSecurity E projectPath files)).
Proof.
  split; [|split; [|split; [|split]]].
  - exact vulnsOfFile_skips.
  - intros E filePath content rel H. unfold scanFileForVulnerabilities.
    rewrite H. reflexivity.
  - intros E projectPath files H. unfold analyzeSecurity, collectedVulns.
    replace (flat_map (vulnsOfFile E projectPath) files) with (@nil SecurityVulnerability);
      [rewrite app_nil_r; reflexivity|].
    symmetry. induction files as [|f files IH]; simpl; [reflexivity|].
    rewrite (vulnsOfFile_skips E projectPath f (H f (or_introl eq_refl))).
    apply IH. intros file Hf. apply H. right. exact Hf.
  - split; reflexivity.
  - intros E projectPath files file content v Hin Hext Hfull Hread Hv.
    unfold analyzeSecurity, collectedVulns.
    apply sortBySeverity_In, in_or_app. right.
    apply in_flat_map. exists file. split; [exact Hin|].
    unfold vulnsOfFile. rewrite Hext, Hread. cbn.
    unfold scanFileForVulnerabilities. rewrite Hfull. cbn.
    apply in_or_app. right. exact Hv.
Qed.

(** C4 on a TypeScript file that does not parse, whose secret line is
    reported, and on a JSON file, which is skipped. *)
Lemma secret_scan_covers_script_files_only_witness :
  In (secretFinding (nth 1 SECRET_PATTERNS (nth 0 SECRET_PATTERNS
        {| pattern := Never; sec_name := ""; sec_severity := "" |})) "src/keys.ts" 0)
     (analyzeSecurity (envOf "proj" brokenTsProject) "proj" ["src/keys.ts"]) /\
  structuralScan (envOf "proj" brokenTsProject) secretLine "src/keys.ts" = [] /\
  vulnsOfFile (envOf "proj" jsonProject) "proj" "config.json" = [] /\
  scanFileForVulnerabilities (envOf "proj" jsonProject) "proj/config.json" secretLine
    "config.json" = [] /\
  analyzeSecurity (envOf "proj" jsonProject) "proj" ["config.json"]
  = sortBySeverity (runNpmAudit (envOf "proj" jsonProject) "proj").
Proof.
  pose proof secret_scan_covers_script_files_only as (H1 & H2 & H3 & _ & H5).
  split; [|split; [reflexivity|split; [|split]]].
  - apply (H5 (envOf "proj" brokenTsProject) "proj" ["src/keys.ts"] "src/keys.ts" secretLine).
    + left. reflexivity.
    + reflexivity.
    + reflexivity.
    + reflexivity.
    + vm_compute. left. reflexivity.
  - apply H1. reflexivity.
  - apply H2. reflexivity.
  - apply H3. intros file [<-|[]]. reflexivity.
Defined.

(** C4 fails as stated: a [.json] project file whose only line matches a
    secret pattern produces no finding. *)
Lemma json_secret_not_reported :
  secretScan secretLine "config.json"
  = [secretFinding (nth 1 SECRET_PATTERNS (nth 0 SECRET_PATTERNS
        {| pattern := Never; sec_name := ""; sec_severity := "" |})) "config.json" 0] /\
  readFile (envOf "proj" jsonProject) (Path.join2 "proj" "config.json") = Ok secretLine /\
  analyzeSecurity (envOf "proj" jsonProject) "proj" ["config.json"] = [].
Proof.
  split; [vm_compute; reflexivity|]. split; reflexivity.
Qed.

(** ** Severities *)

Lemma dangerous_severities (p : CodePattern) :
  In p DANGEROUS_PATTERNS -> In (pat_severity p) severities.
Proof.
  intro H. simpl in H.
  repeat (destruct H as [<-|H]; [simpl; tauto|]). destruct H.
Qed.

Lemma secret_severities (s : SecretPattern) :
  In s SECRET_PATTERNS -> In (sec_severity s) severities.
Proof.
  intro H. simpl in H.
  repeat (destruct H as [<-|H]; [simpl; tauto|]). destruct H.
Qed.

Lemma securityVisitor_pattern (rel : string) (n : Node) (v : SecurityVulnerability) :
  In v (securityVisitor rel n) ->
  exists p, In p DANGEROUS_PATTERNS /\ check p n = true /\ v = codeFinding p rel n.
Proof.
  assert (Hnamed : forall nm, In v (namedPatternVisitor nm rel n) ->
            exists p, In p DANGEROUS_PATTERNS /\ check p n = true /\ v = codeFinding p rel n).
  { intros nm H. unfold namedPatternVisitor in H.
    destruct (find _ DANGEROUS_PATTERNS) as [p|] eqn:Ef; [|destruct H].
    apply find_some in Ef. destruct Ef as [Hp _].
    destruct (check p n) eqn:Ec; [|destruct H]. destruct H as [<-|[]].
    exists p. auto. }
  destruct n; try (intros []); try (apply Hnamed).
  unfold securityVisitor. intro H. apply in_flat_map in H.
  destruct H as (p & Hp & H). apply filter_In in Hp. destruct Hp as [Hp _].
  destruct (check p _) eqn:Ec; [|destruct H]. destruct H as [<-|[]].
  exists p. auto.
Qed.

(** Every structural finding carries the severity of a catalogued pattern. *)
Lemma structuralScan_severity (E : Env) (content rel : string) (v : SecurityVulnerability) :
  In v (structuralScan E content rel) -> In (severity v) severities.
Proof.
  unfold structuralScan. destruct (parse E securityPlugins content) as [ast|]; simpl;
    [|intros []].
  unfold traverse. intro H. apply in_flat_map in H. destruct H as (n & _ & H).
  apply securityVisitor_pattern in H. destruct H as (p & Hp & _ & ->).
  exact (dangerous_severities p Hp).
Qed.

Lemma scanSecrets_severity (patterns : list SecretPattern) (rel : string) (i : nat)
    (l : string) (v : SecurityVulnerability) :
  In v (scanSecrets patterns rel i l) -> exists s, In s patterns /\ v = secretFinding s rel i.
Proof.
  induction patterns as [|s rest IH]; simpl; [intros []|].
  destruct (test (pattern s) l).
  - intros [<-|[]]. exists s. auto.
  - intro H. destruct (IH H) as (s' & Hs' & ->). exists s'. auto.
Qed.

(** Every secret finding carries the severity of a secret pattern. *)
Lemma secretScan_severity (content rel : string) (v : SecurityVulnerability) :
  In v (secretScan content rel) -> In (severity v) severities.
Proof.
  unfold secretScan. generalize 0 as k. generalize (split newline content) as lines.
  induction lines as [|l rest IH]; intros k; simpl; [intros []|].
  rewrite in_app_iff. intros [H|H]; [|exact (IH _ H)].
  unfold scanLine in H. destruct (isCommentLine l); [destruct H|].
  apply scanSecrets_severity in H. destruct H as (s & Hs & ->).
  exact (secret_severities s Hs).
Qed.

(** The npm 7 path falls back to [low]. *)
Lemma auditFinding_severity (entry : string * AuditVuln) :
  In (severity (auditFinding entry)) severities.
Proof.
  destruct entry as [nm vuln]. unfold auditFinding. cbn [severity].
  destruct (vseverity vuln) as [s|]; [|simpl; tauto].
  destruct (includes validSeverities s) eqn:E; [|simpl; tauto].
  apply DependenciesProofs.includes_In in E. exact E.
Qed.

(** C8 at its failing input.  An audit report in the npm 6 format with an
    advisory of severity [moderate] becomes a finding of severity
    [moderate], which is none of [low], [medium], [high], [critical]; the
    npm 7 path turns the same severity into [low]. *)
Theorem legacy_advisory_severity_unchecked :
  analyzeSecurity (envOf "proj" legacyAuditProject) "proj" []
  = [advisoryFinding moderateAdvisory] /\
  severity (advisoryFinding moderateAdvisory) = "moderate" /\
  includes severities (severity (advisoryFinding moderateAdvisory)) = false /\
  analyzeSecurity (envOf "proj" modernAuditProject) "proj" []
  = [auditFinding ("lodash", moderateVuln)] /\
  severity (auditFinding ("lodash", moderateVuln)) = "low".
Proof.
  repeat split.
Qed.

(** ** The [Function] constructor *)

(** C10 at its failing input.  A plain call [Function(...)] gives the
    high-severity Code Injection finding named [Function() Constructor];
    a [new] expression is not visited by any of the three visitors, so
    [new Function('return 1')] gives no finding. *)
Theorem new_function_not_flagged :
  (pat_name functionPattern = "Function() Constructor"
   /\ pat_severity functionPattern = "high"
   /\ pat_category functionPattern = "Code Injection") /\
  (forall relativePath loc args,
      securityVisitor relativePath (CallExpression loc (Identifier "Function") args)
      = [codeFinding functionPattern relativePath
           (CallExpression loc (Identifier "Function") args)]) /\
  (forall relativePath loc callee args,
      securityVisitor relativePath (NewExpression loc callee args) = []) /\
  analyzeSecurity (envOf "proj" callFunctionProject) "proj" ["a.js"]
  = [codeFinding functionPattern "a.js"
       (CallExpression (Some 1) (Identifier "Function") [StringLiteral "return 1"])] /\
  analyzeSecurity (envOf "proj" newFunctionProject) "proj" ["a.js"] = [].
Proof.
  split; [repeat split|]. split; [reflexivity|]. split; [reflexivity|].
  split; vm_compute; reflexivity.
Qed.

End SecurityProofs.

(* ================================================================== *)
(** * Missing collaborators *)
(* ================================================================== *)

Module FailureProofs.
Import JsString Ast World Dependencies Security DependenciesSpec SecuritySpec.

(** C9.  [analyzePackageDeps] and [runNpmAudit] return a value in every
    environment: their bodies run inside [try] blocks.  Without a manifest,
    or when reading it throws, the classifier returns its default result,
    all of whose parts are empty.  The audit returns no finding when the
    manifest or the lock file is missing, when the audit command is
    rejected without output, with output that does not parse, or with
    output that carries no [vulnerabilities], and when its output on a
    normal exit does not parse. *)
Theorem missing_collaborators_give_defaults :
  (forall (E : Env) (projectPath : string) (files : list string),
      pkgJsonExists E = false -> analyzePackageDeps E projectPath files = defaultResult) /\
  (forall (E : Env) (projectPath : string) (files : list string),
      readJson E = Throw -> analyzePackageDeps E projectPath files = defaultResult) /\
  (dependencies defaultResult = [] /\ devDependencies defaultResult = []
   /\ used defaultResult = [] /\ unused defaultResult = []
   /\ outdated defaultResult = [] /\ suggestions defaultResult = []) /\
  (forall (E : Env) (projectPath : string),
      pkgJsonExists E = false \/ lockExists E = false -> runNpmAudit E projectPath = []) /\
  (forall (E : Env) (projectPath : string),
      execAudit E = Rejected None \/ execAudit E = Rejected (Some "") ->
      runNpmAudit E projectPath = []) /\
  (forall (E : Env) (projectPath out : string),
      execAudit E = Rejected (Some out) -> jsonParse E out = Throw ->
      runNpmAudit E projectPath = []) /\
  (forall (E : Env) (projectPath out : string) (r : AuditResult),
      execAudit E = Rejected (Some out) -> jsonParse E out = Ok r ->
      vulnerabilities r = None ->
      runNpmAudit E projectPath = []) /\
  (forall (E : Env) (projectPath out : string),
      execAudit E = Resolved out -> jsonParse E out = Throw ->
      runNpmAudit E projectPath = []).
Proof.
  repeat match goal with |- _ /\ _ => split end; try reflexivity.
  - intros E projectPath files H.
    unfold analyzePackageDeps, analyzePackageDepsBody. rewrite H. reflexivity.
  - intros E projectPath files H.
    unfold analyzePackageDeps, analyzePackageDepsBody. rewrite H.
    destruct (pkgJsonExists E); reflexivity.
  - intros E projectPath [H|H]; unfold runNpmAudit; rewrite H;
      rewrite ?orb_true_r; reflexivity.
  - intros E projectPath [H|H]; unfold runNpmAudit; rewrite H;
      destruct (negb (pkgJsonExists E) || negb (lockExists E)); reflexivity.
  - intros E projectPath out He Hj. unfold runNpmAudit, auditFromError.
    rewrite He, Hj.
    destruct (negb (pkgJsonExists E) || negb (lockExists E)); [reflexivity|].
    destruct (String.length out =? 0)%nat; reflexivity.
  - intros E projectPath out r He Hj Hv. unfold runNpmAudit, auditFromError.
    rewrite He, Hj. cbn. rewrite Hv.
    destruct (negb (pkgJsonExists E) || negb (lockExists E)); [reflexivity|].
    destruct (String.length out =? 0)%nat; reflexivity.
  - intros E projectPath out He Hj. unfold runNpmAudit, auditFromError.
    rewrite He, Hj.
    destruct (negb (pkgJsonExists E) || negb (lockExists E)); reflexivity.
Qed.

(** C9 on sample projects: no manifest, a manifest that is not JSON, a
    machine without npm, an audit that times out without output, an audit
    that reports a registry error, and an audit whose output is not JSON. *)
Lemma missing_collaborators_give_defaults_witness :
  analyzePackageDeps (envOf "proj" smallProject) "proj" ["src/a.ts"; "src/b.ts"]
  = defaultResult /\
  analyzePackageDeps (envOf "proj" brokenManifestProject) "proj" [] = defaultResult /\
  runNpmAudit (envOf "proj" smallProject) "proj" = [] /\
  runNpmAudit (envOf "proj" noNpmProject) "proj" = [] /\
  runNpmAudit (envOf "proj" (auditedProject (Rejected None) [])) "proj" = [] /\
  runNpmAudit (envOf "proj" (auditedProject (Rejected (Some "registry error"))
                               [("registry error", errorReport)])) "proj" = [] /\
  runNpmAudit (envOf "proj" (auditedProject (Resolved "npm WARN") [])) "proj" = [].
Proof.
  pose proof missing_collaborators_give_defaults
    as (H1 & H2 & _ & H4 & H5 & H6 & H7 & H8).
  repeat match goal with |- _ /\ _ => split end.
  - apply H1. reflexivity.
  - apply H2. reflexivity.
  - apply H4. left. reflexivity.
  - apply (H6 (envOf "proj" noNpmProject) "proj" "/bin/sh: 1: npm: not found"); reflexivity.
  - apply H5. left. reflexivity.
  - apply (H7 _ "proj" "registry error" errorReport); reflexivity.
  - apply (H8 _ "proj" "npm WARN"); reflexivity.
Defined.

End FailureProofs.

(* ================================================================== *)
(** * Stable sorting by a key *)
(* ================================================================== *)

Module SortFacts.
Import JsArray.

Section KeyedSort.
Context {A : Type} (cmp : A -> A -> Z) (key : A -> Z) (P : A -> Prop).
Hypothesis cmp_key : forall a b, P a -> P b -> cmp a b = (key a - key b)%Z.

Lemma insert_perm (x : A) (l : list A) : Permutation (insert cmp x l) (x :: l).
Proof.
  induction l as [|y l IH]; simpl; [apply Permutation_refl|].
  destruct (0 <? cmp x y)%Z; [|apply Permutation_refl].
  apply perm_trans with (y :: x :: l); [apply perm_skip; exact IH | apply perm_swap].
Qed.

Lemma sort_perm (l : list A) : Permutation (sort cmp l) l.
Proof.
  induction l as [|x l IH]; simpl; [apply perm_nil|].
  apply perm_trans with (x :: sort cmp l); [apply insert_perm | apply perm_skip; exact IH].
Qed.

Lemma sort_Forall (Q : A -> Prop) (l : list A) : Forall Q l -> Forall Q (sort cmp l).
Proof.
  intro H. apply Forall_forall. intros x Hx. rewrite Forall_forall in H. apply H.
  exact (Permutation_in x (sort_perm l) Hx).
Qed.

Lemma insert_sorted (x : A) (l : list A) :
  P x -> Forall P l -> StronglySorted (keyLe key) l -> StronglySorted (keyLe key) (insert cmp x l).
Proof.
  intros Px. induction l as [|y l IH]; intros HP Hs; simpl.
  - constructor; constructor.
  - inversion HP as [|? ? Py HPl]; subst. inversion Hs as [|? ? Hsl Hy]; subst.
    destruct (Z.ltb_spec 0 (cmp x y)) as [Hlt|Hge]; rewrite (cmp_key x y Px Py) in *.
    + constructor; [exact (IH HPl Hsl)|].
      apply Forall_forall. intros z Hz.
      apply (Permutation_in z (insert_perm x l)) in Hz. destruct Hz as [<-|Hz].
      * unfold keyLe. lia.
      * rewrite Forall_forall in Hy. exact (Hy z Hz).
    + constructor; [exact Hs|]. constructor; [unfold keyLe; lia|].
      apply Forall_forall. intros z Hz. rewrite Forall_forall in Hy.
      specialize (Hy z Hz). unfold keyLe in *. lia.
Qed.

(** The sorted array is ordered by the key. *)
Lemma sort_sorted (l : list A) : Forall P l -> StronglySorted (keyLe key) (sort cmp l).
Proof.
  induction l as [|x l IH]; intro HP; simpl; [constructor|].
  inversion HP; subst. apply insert_sorted; auto. apply sort_Forall. assumption.
Qed.

Lemma insert_filter (k : Z) (x : A) (l : list A) :
  P x -> Forall P l ->
  filter (fun a => (key a =? k)%Z) (insert cmp x l)
  = filter (fun a => (key a =? k)%Z) (x :: l).
Proof.
  intros Px. induction l as [|y l IH]; intro HP; [reflexivity|].
  inversion HP as [|? ? Py HPl]; subst. simpl.
  destruct (Z.ltb_spec 0 (cmp x y)) as [Hlt|Hge]; [|reflexivity].
  rewrite (cmp_key x y Px Py) in Hlt. simpl. rewrite (IH HPl). simpl.
  destruct (Z.eqb_spec (key x) k), (Z.eqb_spec (key y) k); try reflexivity. lia.
Qed.

(** Elements of equal key keep their relative order. *)
Lemma sort_filter (k : Z) (l : list A) :
  Forall P l ->
  filter (fun a => (key a =? k)%Z) (sort cmp l) = filter (fun a => (key a =? k)%Z) l.
Proof.
  induction l as [|x l IH]; intro HP; [reflexivity|].
  inversion HP; subst. simpl sort.
  rewrite insert_filter by (auto using sort_Forall). simpl. rewrite IH by assumption.
  reflexivity.
Qed.

End KeyedSort.

End SortFacts.

(* ================================================================== *)
(** * Properties of the line counter *)
(* ================================================================== *)

Module LocProofs.
Import JsString Loc ScanSpec.

Lemma split_length (sep : ascii) (s : string) :
  List.length (split sep s) = S (countChar sep s).
Proof.
  induction s as [|c s IH]; simpl; [reflexivity|].
  destruct (Ascii.eqb c sep); simpl; [rewrite IH; reflexivity|].
  destruct (split sep s) as [|p ps]; simpl in *; [discriminate|]. exact IH.
Qed.

(** Each turn of the loop adds one to exactly one counter; a blank line
    goes to [blankLines] whatever the comment state. *)
Lemma locStep_counts (pattern : CommentPattern) (st : LocState) (line : string) :
  (st_blank (locStep pattern st line) + st_comment (locStep pattern st line)
   + st_code (locStep pattern st line)
   = st_blank st + st_comment st + st_code st + 1)%Z
  /\ (st_blank (locStep pattern st line)
      = st_blank st + (if isBlank line then 1 else 0))%Z
  /\ (st_comment st <= st_comment (locStep pattern st line))%Z
  /\ (st_code st <= st_code (locStep pattern st line))%Z.
Proof.
  unfold locStep, isBlank.
  destruct (String.eqb (trim line) ""); [simpl; lia|].
  destruct (inBlockComment st); [simpl; lia|].
  destruct (nonEmpty (blockStart pattern) && _); [simpl; lia|].
  destruct (nonEmpty (single pattern) && _); simpl; lia.
Qed.

Lemma fold_locStep_counts (pattern : CommentPattern) (lines : list string) (st : LocState) :
  let r := fold_left (locStep pattern) lines st in
  (st_blank r + st_comment r + st_code r
   = st_blank st + st_comment st + st_code st + Z.of_nat (List.length lines))%Z
  /\ (st_blank r = st_blank st + Z.of_nat (List.length (filter isBlank lines)))%Z
  /\ (st_comment st <= st_comment r)%Z
  /\ (st_code st <= st_code r)%Z.
Proof.
  revert st. induction lines as [|l lines IH]; intro st; simpl.
  - lia.
  - specialize (IH (locStep pattern st l)). simpl in IH.
    pose proof (locStep_counts pattern st l) as H.
    destruct (isBlank l); simpl List.length; lia.
Qed.

(** The counters of [analyzeLOC] in terms of the lines of the content. *)
Lemma analyzeLOC_counts (content extension : string) :
  let r := analyzeLOC content extension in
  let lines := split newline content in
  (codeLines r + commentLines r + blankLines r = totalLines r)%Z /\
  totalLines r = Z.of_nat (List.length lines) /\
  blankLines r = Z.of_nat (List.length (filter isBlank lines)) /\
  (0 <= codeLines r)%Z /\ (0 <= commentLines r)%Z.
Proof.
  unfold analyzeLOC. cbn [codeLines commentLines blankLines totalLines].
  pose proof (fold_locStep_counts (patternFor extension) (split newline content) locStart)
    as (Hsum & Hblank & Hcom & Hcode).
  cbv zeta in *. cbn [st_blank st_comment st_code locStart] in *.
  repeat split; lia.
Qed.

(** X1.  [analyzeLOC] partitions the lines: the code, comment and blank
    counts are non-negative and add up to [totalLines], which is one more
    than the number of newline characters of the content (so at least 1,
    even for empty content). *)
Theorem analyzeLOC_partition :
  forall (content extension : string),
    let r := analyzeLOC content extension in
    (codeLines r + commentLines r + blankLines r = totalLines r)%Z /\
    totalLines r = Z.of_nat (S (countChar newline content)) /\
    (0 <= codeLines r)%Z /\ (0 <= commentLines r)%Z /\ (0 <= blankLines r)%Z.
Proof.
  intros content extension.
  pose proof (analyzeLOC_counts content extension) as (Hsum & Htot & Hblank & Hcode & Hcom).
  cbv zeta in *. rewrite <- split_length. repeat split; lia.
Qed.

(** X2.  A line that is empty once trimmed always counts as blank, also
    inside a block comment: for every extension [blankLines] is the number
    of such lines. *)
Theorem analyzeLOC_blank_lines :
  forall (content extension : string),
    blankLines (analyzeLOC content extension)
    = Z.of_nat (List.length (filter isBlank (split newline content))).
Proof.
  intros content extension.
  exact (proj1 (proj2 (proj2 (analyzeLOC_counts content extension)))).
Qed.

Lemma fold_locStep_plain (pattern : CommentPattern) (lines : list string) (st : LocState) :
  single pattern = "" -> blockStart pattern = "" -> inBlockComment st = false ->
  st_comment (fold_left (locStep pattern) lines st) = st_comment st.
Proof.
  intros Hs Hb. revert st. induction lines as [|l lines IH]; intros st Hin; simpl;
    [reflexivity|].
  assert (H : st_comment (locStep pattern st l) = st_comment st
              /\ inBlockComment (locStep pattern st l) = false).
  { unfold locStep. rewrite Hin, Hs, Hb. cbn.
    destruct (String.eqb (trim l) ""); cbn; auto. }
  destruct H as [Hc Hi]. rewrite (IH _ Hi). exact Hc.
Qed.

(** X3.  In a [.json] or [.md] file, which have no comment syntax, no line
    counts as a comment: every line that is not blank is a code line, even
    one that starts with [//] or [/*]. *)
Theorem analyzeLOC_no_comment_syntax :
  forall (content extension : string),
    extension = ".json" \/ extension = ".md" ->
    commentLines (analyzeLOC content extension) = 0%Z /\
    codeLines (analyzeLOC content extension)
    = Z.of_nat (List.length (filter (fun l => negb (isBlank l)) (split newline content))).
Proof.
  intros content extension Hext.
  assert (Hc : commentLines (analyzeLOC content extension) = 0%Z).
  { unfold analyzeLOC. cbn [commentLines].
    rewrite fold_locStep_plain; [reflexivity| | |reflexivity];
      destruct Hext as [-> | ->]; reflexivity. }
  split; [exact Hc|].
  pose proof (analyzeLOC_counts content extension) as (Hsum & Htot & Hblank & _).
  cbv zeta in Hsum, Htot, Hblank. rewrite Hc, Hblank, Htot in Hsum.
  pose proof (filter_length isBlank (split newline content)) as Hlen.
  lia.
Qed.

(** X3 on a JSON text whose second line looks like a comment. *)
Lemma analyzeLOC_no_comment_syntax_witness :
  commentLines (analyzeLOC ("{" ++ String newline "// not a comment" ++ String newline "}")
                           ".json") = 0%Z /\
  codeLines (analyzeLOC ("{" ++ String newline "// not a comment" ++ String newline "}")
                        ".json") = 3%Z.
Proof.
  exact (analyzeLOC_no_comment_syntax
           ("{" ++ String newline "// not a comment" ++ String newline "}")
           ".json" (or_introl eq_refl)).
Defined.

End LocProofs.

(* ================================================================== *)
(** * Properties of the scan of the project files *)
(* ================================================================== *)

Module ScanProofs.
Import JsString World Loc Scan ScanSpec DependenciesSpec JsArray.

Lemma sumZ_app (l1 l2 : list Z) : sumZ (l1 ++ l2) = (sumZ l1 + sumZ l2)%Z.
Proof. induction l1 as [|x l1 IH]; simpl; [reflexivity | rewrite IH; lia]. Qed.

Lemma sumZ_perm (l1 l2 : list Z) : Permutation l1 l2 -> sumZ l1 = sumZ l2.
Proof. induction 1; simpl; lia. Qed.

Lemma StronglySorted_impl {A : Type} (R S : A -> A -> Prop) (l : list A) :
  (forall a b, R a b -> S a b) -> StronglySorted R l -> StronglySorted S l.
Proof.
  intros HRS. induction 1 as [|a l Hs IH Hf]; constructor; [exact IH|].
  apply (Forall_impl _ (HRS a) Hf).
Qed.

Section Fold.
Context (E : Env) (statSize : string -> Exc Z) (projectPath : string).

Lemma fold_scanStep_fileList (files : list string) (st : ScanStats) :
  fileList (fold_left (scanStep E statSize projectPath) files st)
  = (fileList st ++ readableInfos E statSize projectPath files)%list.
Proof.
  revert st. induction files as [|f files IH]; intro st; simpl.
  - symmetry. apply app_nil_r.
  - rewrite IH. unfold scanStep.
    destruct (fileInfoOf E statSize projectPath f) as [info|]; cbn [fileList].
    + rewrite <- app_assoc. reflexivity.
    + reflexivity.
Qed.

Lemma fold_scanStep_counts (files : list string) (st : ScanStats) :
  let r := counts (fold_left (scanStep E statSize projectPath) files st) in
  let infos := readableInfos E statSize projectPath files in
  totalFiles r = totalFiles (counts st) /\
  (totalLOC r = totalLOC (counts st) + sumZ (map (fun i => totalLines (loc i)) infos))%Z /\
  (totalCodeLines r
   = totalCodeLines (counts st) + sumZ (map (fun i => codeLines (loc i)) infos))%Z /\
  (totalCommentLines r
   = totalCommentLines (counts st) + sumZ (map (fun i => commentLines (loc i)) infos))%Z /\
  (totalBlankLines r
   = totalBlankLines (counts st) + sumZ (map (fun i => blankLines (loc i)) infos))%Z.
Proof.
  revert st. induction files as [|f files IH]; intro st; simpl.
  - repeat split; lia.
  - specialize (IH (scanStep E statSize projectPath st f)). cbv zeta in IH.
    destruct IH as (H0 & H1 & H2 & H3 & H4).
    rewrite H0, H1, H2, H3, H4. unfold scanStep.
    destruct (fileInfoOf E statSize projectPath f) as [info|];
      cbn [counts totalFiles totalLOC totalCodeLines totalCommentLines totalBlankLines];
      rewrite ?map_app, ?sumZ_app; simpl; repeat split; lia.
Qed.

Lemma fold_scanStep_languages (files : list string) (st : ScanStats) :
  languages (fold_left (scanStep E statSize projectPath) files st)
  = fold_left (fun l f => countExtension (Path.extname f) l) files (languages st).
Proof.
  revert st. induction files as [|f files IH]; intro st; simpl; [reflexivity|].
  rewrite IH. unfold scanStep.
  destruct (fileInfoOf E statSize projectPath f); reflexivity.
Qed.

Lemma readableInfos_length (files : list string) :
  List.length (readableInfos E statSize projectPath files) <= List.length files.
Proof.
  induction files as [|f files IH]; simpl; [lia|].
  rewrite length_app.
  destruct (fileInfoOf E statSize projectPath f); simpl; lia.
Qed.

(** What [fileInfoOf] puts in a [FileInfo]. *)
Lemma readableInfos_loc (files : list string) (info : FileInfo) :
  In info (readableInfos E statSize projectPath files) ->
  exists file content,
    In file files /\ readFile E (Path.join2 projectPath file) = Ok content
    /\ statSize (Path.join2 projectPath file) = Ok (size info)
    /\ path info = replaceBackslashes file
    /\ loc info = analyzeLOC content (Path.extname file)
    /\ linesOfCode info = codeLines (loc info).
Proof.
  unfold readableInfos. intro H. apply in_flat_map in H. destruct H as (file & Hf & H).
  unfold fileInfoOf in H.
  destruct (statSize (Path.join2 projectPath file)) as [sz|] eqn:Es; [|destruct H].
  destruct (readFile E (Path.join2 projectPath file)) as [content|] eqn:Er; [|destruct H].
  cbn in H. destruct H as [<-|[]]. exists file, content. cbn. repeat split; auto.
Qed.

End Fold.

Lemma sum_partition (infos : list FileInfo) :
  (forall i, In i infos ->
             (codeLines (loc i) + commentLines (loc i) + blankLines (loc i)
              = totalLines (loc i))%Z) ->
  (sumZ (map (fun i => codeLines (loc i)) infos)
   + sumZ (map (fun i => commentLines (loc i)) infos)
   + sumZ (map (fun i => blankLines (loc i)) infos)
   = sumZ (map (fun i => totalLines (loc i)) infos))%Z.
Proof.
  induction infos as [|i infos IH]; intro H; simpl; [reflexivity|].
  pose proof (H i (or_introl eq_refl)).
  assert (forall j, In j infos ->
                    (codeLines (loc j) + commentLines (loc j) + blankLines (loc j)
                     = totalLines (loc j))%Z) by (intros j Hj; apply H; right; exact Hj).
  specialize (IH H1). lia.
Qed.

(** X4.  After the scan, [totalFiles] is the number of enumerated files,
    readable or not, while [fileList] can be shorter; each of the four line
    totals is the sum over [fileList], and [totalLOC] is the sum of the
    code, comment and blank totals. *)
Theorem scanStats_totals :
  forall (E : Env) (statSize : string -> Exc Z) (projectPath : string) (files : list string),
    let r := scanStats E statSize projectPath files in
    totalFiles (counts r) = Z.of_nat (List.length files) /\
    List.length (fileList r) <= List.length files /\
    totalLOC (counts r) = sumZ (map (fun i => totalLines (loc i)) (fileList r)) /\
    totalCodeLines (counts r) = sumZ (map linesOfCode (fileList r)) /\
    totalCommentLines (counts r)
    = sumZ (map (fun i => commentLines (loc i)) (fileList r)) /\
    totalBlankLines (counts r)
    = sumZ (map (fun i => blankLines (loc i)) (fileList r)) /\
    (totalLOC (counts r)
     = totalCodeLines (counts r) + totalCommentLines (counts r)
       + totalBlankLines (counts r))%Z.
Proof.
  intros E statSize projectPath files r. subst r. unfold scanStats.
  cbn [counts fileList].
  match goal with
  | |- context [fold_left ?f files ?s] => set (start := s)
  end.
  pose proof (fold_scanStep_counts E statSize projectPath files start)
    as (H0 & H1 & H2 & H3 & H4).
  pose proof (fold_scanStep_fileList E statSize projectPath files start) as Hl.
  cbv zeta in *. cbn [start counts fileList totalFiles totalLOC totalCodeLines
                        totalCommentLines totalBlankLines app] in *.
  set (infos := readableInfos E statSize projectPath files) in *.
  pose proof (sort_perm_fileList := SortFacts.sort_perm byLinesDescending infos).
  rewrite Hl.
  assert (Hpart : forall i, In i infos ->
            (codeLines (loc i) + commentLines (loc i) + blankLines (loc i)
             = totalLines (loc i))%Z /\ linesOfCode i = codeLines (loc i)).
  { intros i Hi. apply readableInfos_loc in Hi.
    destruct Hi as (file & content & _ & _ & _ & _ & Hloc & Hcode).
    split; [|exact Hcode]. rewrite Hloc.
    exact (proj1 (LocProofs.analyzeLOC_counts content (Path.extname file))). }
  split; [exact H0|]. split.
  - rewrite (Permutation_length sort_perm_fileList).
    apply readableInfos_length.
  - split; [|split; [|split; [|split]]].
    + rewrite H1. rewrite (sumZ_perm _ _ (Permutation_map _ sort_perm_fileList)). lia.
    + rewrite H2. rewrite (sumZ_perm _ _ (Permutation_map _ sort_perm_fileList)).
      rewrite Z.add_0_l. f_equal. apply map_ext_in. intros i Hi.
      symmetry. exact (proj2 (Hpart i Hi)).
    + rewrite H3. rewrite (sumZ_perm _ _ (Permutation_map _ sort_perm_fileList)). lia.
    + rewrite H4. rewrite (sumZ_perm _ _ (Permutation_map _ sort_perm_fileList)). lia.
    + rewrite H1, H2, H3, H4.
      rewrite <- (sum_partition infos (fun i Hi => proj1 (Hpart i Hi))). lia.
Qed.

(** X5.  [fileList] is sorted by lines of code, largest first; it holds
    exactly the [FileInfo] objects of the readable files, and files with the
    same number of code lines stay in enumeration order. *)
Theorem scanStats_fileList_sorted :
  forall (E : Env) (statSize : string -> Exc Z) (projectPath : string) (files : list string),
    let r := scanStats E statSize projectPath files in
    StronglySorted moreLines (fileList r) /\
    Permutation (fileList r) (readableInfos E statSize projectPath files) /\
    forall k, filter (fun i => (linesOfCode i =? k)%Z) (fileList r)
              = filter (fun i => (linesOfCode i =? k)%Z)
                       (readableInfos E statSize projectPath files).
Proof.
  intros E statSize projectPath files r. subst r. unfold scanStats. cbn [fileList].
  rewrite fold_scanStep_fileList. cbn [fileList app].
  set (infos := readableInfos E statSize projectPath files).
  assert (Hkey : forall a b : FileInfo, True -> True ->
            byLinesDescending a b = (- linesOfCode a - - linesOfCode b)%Z)
    by (intros; unfold byLinesDescending; lia).
  assert (HT : Forall (fun _ : FileInfo => True) infos) by (apply Forall_forall; auto).
  split; [|split].
  - apply (StronglySorted_impl (keyLe (fun i => (- linesOfCode i)%Z))).
    + intros a b. unfold keyLe, moreLines. lia.
    + exact (SortFacts.sort_sorted byLinesDescending _ _ Hkey infos HT).
  - apply SortFacts.sort_perm.
  - intro k.
    pose proof (SortFacts.sort_filter byLinesDescending _ _ Hkey (- k) infos HT) as H.
    assert (Heq : forall l : list FileInfo,
              filter (fun i => (- linesOfCode i =? - k)%Z) l
              = filter (fun i => (linesOfCode i =? k)%Z) l).
    { intro l. apply filter_ext. intro i.
      destruct (Z.eqb_spec (- linesOfCode i) (- k)), (Z.eqb_spec (linesOfCode i) k);
        try reflexivity; lia. }
    rewrite !Heq in H. exact H.
Qed.

Lemma countExtension_spec (ext : string) (languages : list (string * Z)) :
  (forall e, countOf e (countExtension ext languages)
             = (countOf e languages + (if String.eqb e ext then 1 else 0))%Z) /\
  (NoDup (map fst languages) -> NoDup (map fst (countExtension ext languages))) /\
  (forall e, In e (map fst (countExtension ext languages))
             <-> e = ext \/ In e (map fst languages)) /\
  sumZ (map snd (countExtension ext languages)) = (sumZ (map snd languages) + 1)%Z.
Proof.
  induction languages as [|[k n] rest IH]; simpl.
  - split; [|split; [|split]].
    + intro e. destruct (String.eqb e ext); lia.
    + intros _. constructor; [intros []|constructor].
    + intro e. split; [intros [<-|[]]; auto | intros [->|[]]; auto].
    + lia.
  - destruct IH as (IHc & IHn & IHi & IHs).
    destruct (String.eqb_spec ext k) as [->|Hne]; simpl.
    + split; [|split; [|split]].
      * intro e. destruct (String.eqb e k); lia.
      * tauto.
      * intro e. intuition (subst; auto).
      * lia.
    + split; [|split; [|split]].
      * intro e. destruct (String.eqb_spec e k) as [->|He].
        -- destruct (String.eqb_spec k ext); [congruence|lia].
        -- apply IHc.
      * intro Hnd. inversion Hnd as [|? ? Hk Hrest]; subst. constructor.
        -- rewrite IHi. intros [->|H]; [congruence|contradiction].
        -- exact (IHn Hrest).
      * intro e. rewrite IHi. tauto.
      * lia.
Qed.

(** X6.  [languages] has one entry per distinct extension of the
    enumerated files, readable or not; the entry of an extension is the
    number of files that have it, and the entries add up to the number of
    files. *)
Theorem scanStats_languages :
  forall (E : Env) (statSize : string -> Exc Z) (projectPath : string) (files : list string),
    let r := scanStats E statSize projectPath files in
    NoDup (map fst (languages r)) /\
    (forall ext, countOf ext (languages r)
                 = Z.of_nat (List.length
                     (filter (fun f => String.eqb ext (Path.extname f)) files))) /\
    (forall ext, In ext (map fst (languages r))
                 <-> exists f, In f files /\ Path.extname f = ext) /\
    sumZ (map snd (languages r)) = Z.of_nat (List.length files).
Proof.
  intros E statSize projectPath files r. subst r. unfold scanStats. cbn [languages].
  rewrite fold_scanStep_languages. cbn [languages].
  assert (G : forall (fs : list string) (acc : list (string * Z)),
            NoDup (map fst acc) ->
            let r := fold_left (fun l f => countExtension (Path.extname f) l) fs acc in
            NoDup (map fst r) /\
            (forall ext, countOf ext r
               = (countOf ext acc
                  + Z.of_nat (List.length
                      (filter (fun f => String.eqb ext (Path.extname f)) fs)))%Z) /\
            (forall ext, In ext (map fst r)
               <-> In ext (map fst acc) \/ exists f, In f fs /\ Path.extname f = ext) /\
            sumZ (map snd r) = (sumZ (map snd acc) + Z.of_nat (List.length fs))%Z).
  { induction fs as [|f fs IH]; intros acc Hnd; simpl.
    - split; [exact Hnd|]. split; [intro ext; lia|]. split; [|lia].
      intro ext. split; [auto|]. intros [H|(f & [] & _)]. exact H.
    - destruct (countExtension_spec (Path.extname f) acc) as (Hc & Hn & Hi & Hs).
      specialize (IH _ (Hn Hnd)). cbv zeta in IH. destruct IH as (I1 & I2 & I3 & I4).
      split; [exact I1|]. split; [|split].
      + intro ext. rewrite I2, Hc.
        destruct (String.eqb ext (Path.extname f)); simpl List.length; lia.
      + intro ext. rewrite I3, Hi. split.
        * intros [[->|H]|(g & Hg & He)].
          -- right. exists f. auto.
          -- auto.
          -- right. exists g. auto.
        * intros [H|(g & [<-|Hg] & He)].
          -- auto.
          -- left. left. symmetry. exact He.
          -- right. exists g. auto.
      + rewrite I4, Hs. lia. }
  specialize (G files [] (NoDup_nil _)). cbv zeta in G. destruct G as (G1 & G2 & G3 & G4).
  split; [exact G1|]. split; [|split].
  - intro ext. rewrite G2. simpl. lia.
  - intro ext. rewrite G3. split; [intros [[]|H]; exact H | auto].
  - rewrite G4. simpl. lia.
Qed.

End ScanProofs.

(* ================================================================== *)
(** * Further properties of the health scorer *)
(* ================================================================== *)

Module ScoreProofs.
Import Project ProjectSpec ProjectProofs ScoreSpec.

(** X7.  The seven deductions add up to at most 100, so the score before
    the clamp is never negative; when the unused-dependency count is not
    negative it is at most 100 as well and the clamp returns it unchanged. *)
Theorem clamp_is_inert :
  forall stats hotspots deps unused security,
    (0 <= rawScore stats hotspots deps unused security)%Z /\
    ((0 <= unused)%Z ->
     calculateHealthScore stats hotspots deps unused security
     = rawScore stats hotspots deps unused security).
Proof.
  intros stats hotspots deps unused security. split.
  - apply rawScore_nonneg.
  - apply score_is_rawScore.
Qed.

(** X7 on the sample project with three unused dependencies. *)
Lemma clamp_is_inert_witness :
  calculateHealthScore cleanStats [] (sampleGraph 10 31) 3 [finding "high"]
  = rawScore cleanStats [] (sampleGraph 10 31) 3 [finding "high"].
Proof.
  apply (proj2 (clamp_is_inert cleanStats [] (sampleGraph 10 31) 3 [finding "high"])). lia.
Defined.

(** X8.  With a non-negative unused-dependency count the score is 100
    exactly when no deduction applies: at most 200 files and 10000 lines,
    no hotspot with more than 10 commits, at most three edges per node, no
    unused dependency, no critical, high or medium finding, and either no
    code line or comment lines worth at least 5% of the code lines. *)
Theorem perfect_score_iff :
  forall stats hotspots deps unused security,
    (0 <= unused)%Z ->
    (calculateHealthScore stats hotspots deps unused security = 100%Z
     <-> (totalFiles stats <= 200)%Z
         /\ (totalLOC stats <= 10000)%Z
         /\ activeHotspots hotspots = 0%Z
         /\ (Z.of_nat (List.length (links deps))
             <= 3 * Z.of_nat (Nat.max (List.length (nodes deps)) 1))%Z
         /\ unused = 0%Z
         /\ severityCount "critical" security = 0%Z
         /\ severityCount "high" security = 0%Z
         /\ severityCount "medium" security = 0%Z
         /\ ((totalCodeLines stats <= 0)%Z
             \/ (5 * totalCodeLines stats <= totalCommentLines stats * 100)%Z)).
Proof.
  intros stats hotspots deps unused security Hu.
  rewrite (score_is_rawScore stats hotspots deps unused security Hu).
  rewrite rawScore_sum. unfold securityPenalty.
  pose proof (activeHotspots_nonneg hotspots).
  pose proof (severityCount_nonneg "critical" security).
  pose proof (severityCount_nonneg "high" security).
  pose proof (severityCount_nonneg "medium" security).
  pose proof (coupling_test_Z deps) as Hc. rewrite orOne_max in Hc.
  assert (Hm : (0 <? totalCodeLines stats)%Z && Qltb (commentRatio stats) (5 # 100)%Q = true
               <-> (0 < totalCodeLines stats
                    /\ totalCommentLines stats * 100 < 5 * totalCodeLines stats)%Z).
  { rewrite andb_true_iff, Z.ltb_lt. split.
    - intros [Hp Hr]. split; [exact Hp|]. apply (comment_test_Z stats Hp). exact Hr.
    - intros [Hp Hr]. split; [exact Hp|]. apply (comment_test_Z stats Hp). exact Hr. }
  destruct (Z.ltb_spec 200 (totalFiles stats)), (Z.ltb_spec 10000 (totalLOC stats)).
  all: destruct (Qltb 3%Q (couplingRatio deps));
    [assert (3 * Z.of_nat (Nat.max (List.length (nodes deps)) 1)
             < Z.of_nat (List.length (links deps)))%Z by (apply Hc; reflexivity)
    |assert (~ (3 * Z.of_nat (Nat.max (List.length (nodes deps)) 1)
                < Z.of_nat (List.length (links deps)))%Z)
       by (intro Hx; apply Hc in Hx; discriminate)].
  all: clear Hc.
  all: destruct ((0 <? totalCodeLines stats)%Z && Qltb (commentRatio stats) (5 # 100)%Q);
    [assert (0 < totalCodeLines stats
             /\ totalCommentLines stats * 100 < 5 * totalCodeLines stats)%Z
       by (apply Hm; reflexivity)
    |assert (~ (0 < totalCodeLines stats
                /\ totalCommentLines stats * 100 < 5 * totalCodeLines stats)%Z)
       by (intro Hx; apply Hm in Hx; discriminate)].
  all: clear Hm; lia.
Qed.

(** X8 on the sample project. *)
Lemma perfect_score_iff_witness :
  calculateHealthScore cleanStats [] (sampleGraph 10 30) 0 [finding "low"] = 100%Z.
Proof.
  apply (proj2 (perfect_score_iff cleanStats [] (sampleGraph 10 30) 0 [finding "low"]
                  ltac:(lia))).
  cbn. repeat split; lia.
Defined.

Lemma severityCount_perm (sev : string) (l1 l2 : list SecurityVulnerability) :
  Permutation l1 l2 -> severityCount sev l1 = severityCount sev l2.
Proof.
  intro H. unfold severityCount. f_equal. induction H; simpl.
  - reflexivity.
  - destruct (String.eqb (severity x) sev); simpl; congruence.
  - destruct (String.eqb (severity x) sev), (String.eqb (severity y) sev); reflexivity.
  - congruence.
Qed.

Lemma severityCount_penalised (sev : string) (l : list SecurityVulnerability) :
  sev = "critical" \/ sev = "high" \/ sev = "medium" ->
  severityCount sev (filter penalised l) = severityCount sev l.
Proof.
  intro Hsev. unfold severityCount. f_equal. induction l as [|v l IH]; simpl; [reflexivity|].
  destruct (penalised v) eqn:Ep; simpl.
  - destruct (String.eqb (severity v) sev); simpl; congruence.
  - rewrite IH. unfold penalised in Ep.
    apply orb_false_iff in Ep. destruct Ep as [Ep Em].
    apply orb_false_iff in Ep. destruct Ep as [Ec Eh].
    destruct Hsev as [->|[->| ->]]; rewrite ?Ec, ?Eh, ?Em; reflexivity.
Qed.

Lemma score_counts stats hotspots deps unused (s1 s2 : list SecurityVulnerability) :
  severityCount "critical" s1 = severityCount "critical" s2 ->
  severityCount "high" s1 = severityCount "high" s2 ->
  severityCount "medium" s1 = severityCount "medium" s2 ->
  calculateHealthScore stats hotspots deps unused s1
  = calculateHealthScore stats hotspots deps unused s2.
Proof.
  intros Hc Hh Hm. unfold calculateHealthScore. rewrite !rawScore_sum.
  unfold securityPenalty. rewrite Hc, Hh, Hm. reflexivity.
Qed.

(** X9.  The score depends on the findings only through the numbers of
    critical, high and medium ones: reordering the findings does not change
    it, and neither does removing every finding of another severity ([low],
    or a value outside the four such as [moderate]). *)
Theorem score_ignores_order_and_other_severities :
  forall stats hotspots deps unused (security security' : list SecurityVulnerability),
    (Permutation security security' ->
     calculateHealthScore stats hotspots deps unused security
     = calculateHealthScore stats hotspots deps unused security') /\
    calculateHealthScore stats hotspots deps unused (filter penalised security)
    = calculateHealthScore stats hotspots deps unused security.
Proof.
  intros stats hotspots deps unused security security'. split.
  - intro H. apply score_counts; apply severityCount_perm; exact H.
  - apply score_counts; apply severityCount_penalised; auto.
Qed.

(** X9 on two findings in either order. *)
Lemma score_ignores_order_and_other_severities_witness :
  calculateHealthScore cleanStats [] (sampleGraph 10 30) 0 [finding "high"; finding "low"]
  = calculateHealthScore cleanStats [] (sampleGraph 10 30) 0 [finding "low"; finding "high"].
Proof.
  apply (proj1 (score_ignores_order_and_other_severities cleanStats [] (sampleGraph 10 30) 0
                  [finding "high"; finding "low"] [finding "low"; finding "high"])).
  apply perm_swap.
Defined.

End ScoreProofs.

(* ================================================================== *)
(** * Further properties of the dependency analysers *)
(* ================================================================== *)

Module GraphProofs.
Import JsString Ast World Dependencies DependenciesSpec DependenciesProofs
       Project ProjectSpec ProjectProofs ScanSpec.

Lemma coupling_false_from_667 (E : Env) (projectPath : string) (files : list string) :
  667 <= List.length files ->
  Qltb 3%Q (couplingRatio (analyzeFileDependencies E projectPath files)) = false.
Proof.
  intro Hlen.
  destruct (Qltb 3%Q _) eqn:Eq; [|reflexivity]. exfalso.
  apply coupling_test_Z in Eq. rewrite orOne_max in Eq.
  cbn [analyzeFileDependencies nodes links] in Eq.
  pose proof (firstn_le_length 2000 (discoveredLinks E projectPath files)).
  rewrite length_firstn, length_map in Eq. lia.
Qed.



Lemma replaceBackslashes_clean (s : string) : noBackslash (replaceBackslashes s).
Proof.
  unfold noBackslash. induction s as [|c s IH]; simpl; [tauto|].
  intros [H|H]; [|exact (IH H)].
  destruct (Ascii.eqb_spec c backslash) as [->|Hne]; [discriminate H|congruence].
Qed.

(** X11.  Every returned edge comes from a relative import of a readable
    file: its source is the normalised path of that file and its target is
    what the resolver gives for the import.  No node id and no edge endpoint
    contains a backslash. *)
Theorem edges_come_from_relative_imports :
  forall (E : Env) (projectPath : string) (files : list string),
    let g := analyzeFileDependencies E projectPath files in
    (forall l, In l (links g) ->
       exists file content importSource,
         In file files /\
         readFile E (Path.join2 projectPath file) = Ok content /\
         In importSource (extractImports E content file) /\
         isRelativeImport importSource = true /\
         source l = replaceBackslashes file /\
         resolveImport (map replaceBackslashes files) file importSource = Some (target l)) /\
    (forall id, In id (nodes g) -> noBackslash id) /\
    (forall l, In l (links g) -> noBackslash (source l) /\ noBackslash (target l)).
Proof.
  intros E projectPath files g.
  assert (Hprov : forall l, In l (links g) ->
       exists file content importSource,
         In file files /\
         readFile E (Path.join2 projectPath file) = Ok content /\
         In importSource (extractImports E content file) /\
         isRelativeImport importSource = true /\
         source l = replaceBackslashes file /\
         resolveImport (map replaceBackslashes files) file importSource = Some (target l)).
  { intros l Hl. apply In_firstn in Hl. unfold discoveredLinks in Hl.
    apply in_flat_map in Hl. destruct Hl as (file & Hfile & Hl).
    unfold linksOfFile in Hl.
    destruct (readFile E (Path.join2 projectPath file)) as [content|] eqn:Er;
      simpl in Hl; [|destruct Hl].
    apply in_flat_map in Hl. destruct Hl as (src & Hsrc & Hl).
    unfold linksOfImport in Hl.
    destruct (isRelativeImport src) eqn:Erel; simpl in Hl; [|destruct Hl].
    destruct (resolveImport (map replaceBackslashes files) file src) as [m|] eqn:Em;
      [|destruct Hl].
    destruct Hl as [<-|[]]. exists file, content, src. cbn. repeat split; auto. }
  split; [exact Hprov|]. split.
  - intros id Hid. apply In_firstn in Hid. apply in_map_iff in Hid.
    destruct Hid as (f & <- & _). apply replaceBackslashes_clean.
  - intros l Hl. destruct (Hprov l Hl) as (file & content & src & _ & _ & _ & _ & Hs & Ht).
    split.
    + rewrite Hs. apply replaceBackslashes_clean.
    + apply probe_In in Ht. apply in_map_iff in Ht. destruct Ht as (f & <- & _).
      apply replaceBackslashes_clean.
Qed.

(** X11 on the two-file project. *)
Lemma edges_come_from_relative_imports_witness :
  exists file content importSource,
    In file ["src/a.ts"; "src/b.ts"] /\
    readFile (envOf "proj" smallProject) (Path.join2 "proj" file) = Ok content /\
    In importSource (extractImports (envOf "proj" smallProject) content file) /\
    isRelativeImport importSource = true /\
    "src/a.ts" = replaceBackslashes file /\
    resolveImport (map replaceBackslashes ["src/a.ts"; "src/b.ts"]) file importSource
    = Some "src/b.ts".
Proof.
  apply (proj1 (edges_come_from_relative_imports (envOf "proj" smallProject) "proj"
                  ["src/a.ts"; "src/b.ts"])
           {| source := "src/a.ts"; target := "src/b.ts" |}).
  left. reflexivity.
Defined.

End GraphProofs.

Module ClassifierProofs.
Import JsString Ast World Dependencies DependenciesSpec DependenciesProofs ClassifierSpec.

Lemma usedPackages_of_import (E : Env) (projectPath : string)
    (allDepNames files : list string) (dep : string) :
  In dep allDepNames -> imported E projectPath files dep ->
  In dep (usedPackages E projectPath allDepNames files).
Proof.
  intros Hdep (file & content & source & Hf & Hr & Hs & Hrel & Hn).
  unfold usedPackages. apply fold_setAdd_In. left.
  apply in_flat_map. exists file. split; [exact Hf|].
  unfold usedInFile. rewrite Hr. simpl.
  apply filter_In. split; [|apply includes_In; exact Hdep].
  apply in_map_iff. exists source. split; [exact Hn|].
  apply filter_In. split; [exact Hs | rewrite Hrel; reflexivity].
Qed.

Lemma usedPackages_iff (E : Env) (projectPath : string)
    (allDepNames files : list string) (dep : string) :
  In dep allDepNames ->
  (includes (usedPackages E projectPath allDepNames files) dep = true
   <-> imported E projectPath files dep).
Proof.
  intro Hdep. rewrite includes_In. split.
  - intro H. apply usedPackages_In in H. exact H.
  - apply usedPackages_of_import. exact Hdep.
Qed.

(** X12.  With a readable manifest, a name is in [used] exactly when it
    is declared and some readable file has an external import whose bare
    package name is that name, and in [unused] exactly when it is declared,
    no readable file imports it and it is not a build-time package: every
    declared name is in [used], in [unused] or is an unimported build-time
    package. *)
Theorem used_and_unused_iff :
  forall (E : Env) (projectPath : string) (files : list string) (pkg : Pkg) (dep : string),
    pkgJsonExists E = true ->
    readJson E = Ok pkg ->
    let r := analyzePackageDeps E projectPath files in
    (In dep (used r) <-> declared pkg dep /\ imported E projectPath files dep) /\
    (In dep (unused r)
     <-> declared pkg dep /\ ~ imported E projectPath files dep
         /\ isBuildTimeDep dep = false) /\
    (declared pkg dep ->
     In dep (used r) \/ In dep (unused r)
     \/ (isBuildTimeDep dep = true /\ ~ imported E projectPath files dep)).
Proof.
  intros E projectPath files pkg dep Hex Hread r. subst r.
  unfold analyzePackageDeps, analyzePackageDepsBody. rewrite Hex, Hread. cbn.
  set (deps := match pkgDependencies pkg with Some d => d | None => [] end).
  set (devDeps := match pkgDevDependencies pkg with Some d => d | None => [] end).
  set (names := map fst (objSpread deps devDeps)).
  assert (Hdecl : In dep names <-> declared pkg dep)
    by (apply objSpread_keys).
  split; [|split].
  - rewrite filter_In, Hdecl. split.
    + intros [Hd Hu]. split; [exact Hd|].
      apply (usedPackages_iff E projectPath names files dep); [apply Hdecl; exact Hd|exact Hu].
    + intros [Hd Hi]. split; [exact Hd|].
      apply (usedPackages_iff E projectPath names files dep); [apply Hdecl; exact Hd|exact Hi].
  - rewrite filter_In, Hdecl, andb_true_iff, !negb_true_iff. split.
    + intros [Hd [Hu Hb]]. split; [exact Hd|]. split; [|exact Hb].
      intro Hi.
      apply (usedPackages_iff E projectPath names files dep) in Hi; [|apply Hdecl; exact Hd].
      congruence.
    + intros [Hd [Hi Hb]]. split; [exact Hd|]. split; [|exact Hb].
      destruct (includes (usedPackages E projectPath names files) dep) eqn:Eu;
        [|reflexivity].
      exfalso. apply Hi.
      apply (usedPackages_iff E projectPath names files dep); [apply Hdecl; exact Hd|exact Eu].
  - intro Hd. rewrite !filter_In, Hdecl.
    destruct (includes (usedPackages E projectPath names files) dep) eqn:Eu.
    + left. split; [exact Hd|reflexivity].
    + right. destruct (isBuildTimeDep dep) eqn:Eb.
      * right. split; [reflexivity|]. intro Hi.
        apply (usedPackages_iff E projectPath names files dep) in Hi;
          [|apply Hdecl; exact Hd].
        congruence.
      * left. split; [exact Hd|reflexivity].
Qed.

(** X12 on the manifest that declares [lodash], which [index.ts] imports
    as [lodash/merge]. *)
Lemma used_and_unused_iff_witness :
  In "lodash" (used (analyzePackageDeps (envOf "proj" lintedProject) "proj" ["index.ts"])).
Proof.
  apply (proj1 (used_and_unused_iff (envOf "proj" lintedProject) "proj" ["index.ts"]
                  _ "lodash" eq_refl eq_refl)).
  split.
  - left. right. right. left. reflexivity.
  - exists "index.ts", "import merge from 'lodash/merge'; import './util';", "lodash/merge".
    repeat split. left. reflexivity. left. reflexivity.
Defined.

End ClassifierProofs.

Module ManifestProofs.
Import JsString Ast World Dependencies DependenciesSpec DependenciesProofs ClassifierSpec.

Lemma objSet_NoDup (k v : string) (o : list (string * string)) :
  NoDup (map fst o) -> NoDup (map fst (objSet k v o)).
Proof.
  induction o as [|[k' v'] o IH]; simpl; intro H.
  - constructor; [intros []|constructor].
  - inversion H as [|? ? Hk Ho]; subst.
    destruct (String.eqb_spec k k') as [->|Hne]; simpl.
    + constructor; assumption.
    + constructor; [|exact (IH Ho)].
      rewrite objSet_keys. intros [->|Hin]; [congruence|contradiction].
Qed.

(** The keys of [{ ...a, ...b }] are distinct. *)
Lemma objSpread_NoDup (a b : list (string * string)) : NoDup (map fst (objSpread a b)).
Proof.
  unfold objSpread.
  assert (G : forall l acc, NoDup (map fst acc) ->
            NoDup (map fst (fold_left (fun acc kv => objSet (fst kv) (snd kv) acc) l acc))).
  { induction l as [|[k v] l IH]; intros acc H; simpl; [exact H|].
    apply IH. apply objSet_NoDup. exact H. }
  apply G. constructor.
Qed.

Lemma objSet_get (k v : string) (o : list (string * string)) (q : string) :
  objGet q (objSet k v o) = if String.eqb q k then Some v else objGet q o.
Proof.
  induction o as [|[k' v'] o IH]; simpl; [reflexivity|].
  destruct (String.eqb_spec k k') as [->|Hne]; simpl.
  - destruct (String.eqb q k'); reflexivity.
  - rewrite IH. destruct (String.eqb_spec q k') as [->|Hq]; [|reflexivity].
    destruct (String.eqb_spec k' k); [congruence|reflexivity].
Qed.

Lemma fold_objSet_get (l acc : list (string * string)) (q : string) :
  objGet q (fold_left (fun acc kv => objSet (fst kv) (snd kv) acc) l acc)
  = match lastGet q l with
    | Some w => Some w
    | None => objGet q acc
    end.
Proof.
  revert acc. induction l as [|[k v] l IH]; intro acc; simpl; [reflexivity|].
  rewrite IH. destruct (lastGet q l); [reflexivity|]. rewrite objSet_get.
  destruct (String.eqb q k); reflexivity.
Qed.

Lemma lastGet_app (a b : list (string * string)) (q : string) :
  lastGet q (a ++ b) = match lastGet q b with
                       | Some w => Some w
                       | None => lastGet q a
                       end.
Proof.
  induction a as [|[k v] a IH]; simpl.
  - destruct (lastGet q b); reflexivity.
  - rewrite IH. destruct (lastGet q b); reflexivity.
Qed.

Lemma objGet_None (o : list (string * string)) (q : string) :
  ~ In q (map fst o) -> objGet q o = None.
Proof.
  induction o as [|[k v] o IH]; simpl; [reflexivity|]. intro H.
  destruct (String.eqb_spec q k) as [->|Hne]; [tauto|]. apply IH. tauto.
Qed.

Lemma lastGet_NoDup (o : list (string * string)) (q : string) :
  NoDup (map fst o) -> lastGet q o = objGet q o.
Proof.
  induction o as [|[k v] o IH]; simpl; intro H; [reflexivity|].
  inversion H as [|? ? Hk Ho]; subst. rewrite (IH Ho).
  destruct (String.eqb_spec q k) as [->|Hne].
  - rewrite (objGet_None o k Hk). reflexivity.
  - destruct (objGet q o); reflexivity.
Qed.

(** In [{ ...dependencies, ...devDependencies }] the version of a name
    declared in both sections is that of [devDependencies]. *)
Lemma objSpread_get (pkg : Pkg) (dep : string) :
  distinctKeys pkg ->
  objGet dep (objSpread (match pkgDependencies pkg with Some d => d | None => [] end)
                        (match pkgDevDependencies pkg with Some d => d | None => [] end))
  = effectiveVersion pkg dep.
Proof.
  intros [Ha Hb]. unfold objSpread, effectiveVersion.
  rewrite fold_objSet_get, lastGet_app, (lastGet_NoDup _ _ Ha), (lastGet_NoDup _ _ Hb).
  simpl. destruct (objGet dep _); [reflexivity|]. destruct (objGet dep _); reflexivity.
Qed.

Lemma In_map_fst_objGet (o : list (string * string)) (q : string) :
  In q (map fst o) -> exists v, objGet q o = Some v.
Proof.
  induction o as [|[k v] o IH]; simpl; [intros []|].
  intros [->|H].
  - rewrite String.eqb_refl. eauto.
  - destruct (String.eqb q k); eauto.
Qed.

(** X13.  Whatever the manifest and the imports, no name is listed twice
    in [used], in [unused] or in [outdated], even when it is declared in
    both sections; with a readable manifest every listed name is
    declared. *)
Theorem classification_lists_have_no_duplicates :
  forall (E : Env) (projectPath : string) (files : list string),
    let r := analyzePackageDeps E projectPath files in
    NoDup (used r) /\ NoDup (unused r) /\ NoDup (map oname (outdated r)) /\
    forall pkg, readJson E = Ok pkg ->
      forall dep, In dep (used r) \/ In dep (unused r) \/ In dep (map oname (outdated r)) ->
                  declared pkg dep.
Proof.
  intros E projectPath files r. subst r.
  unfold analyzePackageDeps, analyzePackageDepsBody.
  destruct (pkgJsonExists E); cbn;
    [|split; [apply NoDup_nil|split; [apply NoDup_nil|split; [apply NoDup_nil|]]];
      intros pkg _ dep [[]|[[]|[]]]].
  destruct (readJson E) as [pkg|]; cbn;
    [|split; [apply NoDup_nil|split; [apply NoDup_nil|split; [apply NoDup_nil|]]];
      intros pkg; discriminate].
  set (deps := match pkgDependencies pkg with Some d => d | None => [] end).
  set (devDeps := match pkgDevDependencies pkg with Some d => d | None => [] end).
  pose proof (objSpread_NoDup deps devDeps) as Hnd.
  assert (Hout : forall (f : string -> bool) l,
            map oname (map (outdatedOf (objSpread deps devDeps)) (filter f l)) = filter f l).
  { intros f l. rewrite map_map. simpl. apply map_id. }
  rewrite Hout.
  split; [apply NoDup_filter; exact Hnd|].
  split; [apply NoDup_filter; exact Hnd|].
  split; [apply NoDup_filter; exact Hnd|].
  intros pkg' [= <-] dep H.
  apply (objSpread_keys deps devDeps dep).
  destruct H as [H|[H|H]]; apply filter_In in H; tauto.
Qed.

(** X13 on the manifest that declares [left-pad] in both sections: it
    is listed once in [unused] and once in [outdated]. *)
Lemma classification_lists_have_no_duplicates_witness :
  declared {| pkgDependencies := Some [("left-pad", "1.3.0"); ("eslint", "^8.0.0");
                                       ("lodash", "^4.17.21")];
              pkgDevDependencies := Some [("eslint", "^8.0.0"); ("left-pad", "1.3.0");
                                          ("@types/node", "^20.0.0")] |} "left-pad" /\
  unused (analyzePackageDeps (envOf "proj" lintedProject) "proj" ["index.ts"])
  = ["left-pad"] /\
  map oname (outdated (analyzePackageDeps (envOf "proj" lintedProject) "proj" ["index.ts"]))
  = ["left-pad"].
Proof.
  split; [|split; reflexivity].
  apply (proj2 (proj2 (proj2 (classification_lists_have_no_duplicates
                                (envOf "proj" lintedProject) "proj" ["index.ts"])))
           _ eq_refl "left-pad").
  right. left. left. reflexivity.
Defined.

(** X14.  With a readable manifest whose sections have distinct member
    names, [outdated] lists exactly the declared names whose version range,
    taken from [devDependencies] when the name is declared there and from
    [dependencies] otherwise, is not empty and does not start with [^], [~]
    or [*]; the entry carries that range and the fixed text
    [check npm registry]. *)
Theorem outdated_iff :
  forall (E : Env) (projectPath : string) (files : list string) (pkg : Pkg) (o : Outdated),
    pkgJsonExists E = true ->
    readJson E = Ok pkg ->
    distinctKeys pkg ->
    (In o (outdated (analyzePackageDeps E projectPath files))
     <-> effectiveVersion pkg (oname o) = Some (current o)
         /\ looksPinned (Some (current o)) = true
         /\ latest o = "check npm registry").
Proof.
  intros E projectPath files pkg o Hex Hread Hkeys.
  unfold analyzePackageDeps, analyzePackageDepsBody. rewrite Hex, Hread. cbn.
  set (deps := match pkgDependencies pkg with Some d => d | None => [] end).
  set (devDeps := match pkgDevDependencies pkg with Some d => d | None => [] end).
  pose proof (fun dep => objSpread_get pkg dep Hkeys) as Hget. fold deps devDeps in Hget.
  rewrite in_map_iff. split.
  - intros (dep & <- & Hin). apply filter_In in Hin. destruct Hin as [Hin Hp].
    unfold outdatedOf. cbn. rewrite <- Hget.
    destruct (objGet dep (objSpread deps devDeps)) as [v|]; [|discriminate Hp]. auto.
  - intros (Hv & Hp & Hl). exists (oname o). split.
    + unfold outdatedOf. rewrite Hget, Hv. destruct o as [n c l]. cbn in *. congruence.
    + apply filter_In. split.
      * apply objSpread_keys. fold deps devDeps. unfold effectiveVersion in Hv.
        fold deps devDeps in Hv.
        destruct (objGet (oname o) devDeps) eqn:Ed.
        -- right. destruct (in_dec string_dec (oname o) (map fst devDeps)); [assumption|].
           rewrite objGet_None in Ed by assumption. discriminate.
        -- left. destruct (in_dec string_dec (oname o) (map fst deps)); [assumption|].
           rewrite objGet_None in Hv by assumption. discriminate.
      * rewrite Hget, Hv. exact Hp.
Qed.

(** X14 on the manifest that pins [left-pad] to [1.3.0] in both
    sections. *)
Lemma outdated_iff_witness :
  In {| oname := "left-pad"; current := "1.3.0"; latest := "check npm registry" |}
     (outdated (analyzePackageDeps (envOf "proj" lintedProject) "proj" ["index.ts"])).
Proof.
  apply (proj2 (outdated_iff (envOf "proj" lintedProject) "proj" ["index.ts"] _
                  {| oname := "left-pad"; current := "1.3.0";
                     latest := "check npm registry" |} eq_refl eq_refl
                  ltac:(split; cbn;
                        repeat (constructor; [cbn; intuition discriminate|]); constructor))).
  repeat split.
Defined.

End ManifestProofs.

Module PackageNameProofs.
Import JsString Dependencies ScanSpec.

Lemma split_cons (sep : ascii) (s : string) :
  exists p ps, split sep s = p :: ps.
Proof.
  destruct s as [|c s]; simpl; [eauto|].
  destruct (Ascii.eqb c sep); [eauto|].
  destruct (split sep s); eauto.
Qed.

(** No piece of [split] contains the separator. *)
Lemma split_pieces (sep : ascii) (s : string) (p : string) :
  In p (split sep s) -> countChar sep p = 0.
Proof.
  revert p. induction s as [|c s IH]; simpl; intro p.
  - intros [<-|[]]. reflexivity.
  - destruct (Ascii.eqb c sep) eqn:E.
    + intros [<-|H]; [reflexivity | exact (IH p H)].
    + destruct (split sep s) as [|q qs] eqn:Es.
      * intros [<-|[]]. simpl. rewrite E. reflexivity.
      * intros [<-|H].
        -- simpl. rewrite E. exact (IH q (or_introl eq_refl)).
        -- exact (IH p (or_intror H)).
Qed.

(** A string without the separator is its own single piece. *)
Lemma split_single (sep : ascii) (p : string) :
  countChar sep p = 0 -> split sep p = [p].
Proof.
  induction p as [|c p IH]; simpl; [reflexivity|].
  destruct (Ascii.eqb c sep); [discriminate|]. intro H. rewrite (IH H). reflexivity.
Qed.

Lemma split_two (sep : ascii) (p q : string) :
  countChar sep p = 0 -> countChar sep q = 0 ->
  split sep (p ++ String sep q) = [p; q].
Proof.
  intros Hp Hq. induction p as [|c p IH]; simpl.
  - rewrite Ascii.eqb_refl, (split_single sep q Hq). reflexivity.
  - simpl in Hp. destruct (Ascii.eqb c sep); [discriminate|].
    rewrite (IH Hp). reflexivity.
Qed.

Lemma countChar_app (c : ascii) (a b : string) :
  countChar c (a ++ b) = countChar c a + countChar c b.
Proof. induction a as [|d a IH]; simpl; [reflexivity | rewrite IH; lia]. Qed.

Lemma startsWith_at (c : ascii) (s : string) :
  startsWith (String c s) "@" = if ascii_dec "@" c then true else false.
Proof.
  unfold startsWith. cbn [String.prefix]. destruct (ascii_dec "@" c); [|reflexivity].
  destruct s; reflexivity.
Qed.

(** The first piece starts with [@] exactly when the string does. *)
Lemma scoped_first_piece (s p : string) (ps : list string) :
  split slash s = p :: ps -> startsWith p "@" = startsWith s "@".
Proof.
  destruct s as [|c s]; cbn [split].
  - intros [= <- _]. reflexivity.
  - destruct (Ascii.eqb_spec c slash) as [->|Hne].
    + intros [= <- _]. reflexivity.
    + destruct (split slash s) as [|q qs]; intros [= <- _]; rewrite !startsWith_at;
        reflexivity.
Qed.

Lemma scoped_app (p q : string) :
  startsWith p "@" = true -> startsWith (p ++ q) "@" = true.
Proof.
  destruct p as [|c p]; [discriminate|]. cbn [append]. rewrite !startsWith_at.
  auto.
Qed.

(** X15.  [getPackageName] returns a name with no slash for an unscoped
    specifier and at most one slash for a scoped one, keeps the leading
    [@], and is idempotent: the bare name of a bare name is itself. *)
Theorem getPackageName_shape :
  forall source : string,
    getPackageName (getPackageName source) = getPackageName source /\
    countChar slash (getPackageName source) <= 1 /\
    (startsWith source "@" = false -> countChar slash (getPackageName source) = 0) /\
    startsWith (getPackageName source) "@" = startsWith source "@".
Proof.
  intro source. unfold getPackageName.
  destruct (split_cons slash source) as (p & ps & Hs). rewrite Hs.
  pose proof (split_pieces slash source p) as Hp. rewrite Hs in Hp.
  specialize (Hp (or_introl eq_refl)).
  pose proof (scoped_first_piece source p ps Hs) as Hat.
  destruct (startsWith source "@") eqn:Escoped.
  - destruct ps as [|q qs].
    + cbn [firstn join String.concat].
      rewrite Hat, (split_single slash p Hp). cbn [firstn join String.concat].
      repeat split; auto; try lia; try discriminate.
    + pose proof (split_pieces slash source q) as Hq. rewrite Hs in Hq.
      specialize (Hq (or_intror (or_introl eq_refl))).
      cbn [firstn join String.concat].
      change (p ++ "/" ++ q) with (p ++ String slash q).
      rewrite (scoped_app p (String slash q) Hat), (split_two slash p q Hp Hq).
      cbn [firstn join String.concat].
      assert (countChar slash (p ++ String slash q) = 1)
        by (rewrite countChar_app; cbn [countChar]; rewrite Ascii.eqb_refl, Hp, Hq; lia).
      repeat split; auto; try discriminate; lia.
  - cbn [hd]. rewrite Hat, (split_single slash p Hp). cbn [hd].
    repeat split; auto; try lia.
Qed.

(** X15 on an unscoped specifier with a subpath. *)
Lemma getPackageName_shape_witness :
  countChar slash (getPackageName "lodash/fp/merge") = 0.
Proof.
  apply (proj1 (proj2 (proj2 (getPackageName_shape "lodash/fp/merge")))). reflexivity.
Defined.

End PackageNameProofs.

(* ================================================================== *)
(** * Further properties of the security pattern engine *)
(* ================================================================== *)

Module FindingProofs.
Import JsString Ast World Regex Security DependenciesSpec SecuritySpec SecurityProofs
       FindingSpec JsArray.

Lemma sortBySeverity_sort (l : list SecurityVulnerability) :
  sortBySeverity l = sort compareSeverity l.
Proof.
  unfold sortBySeverity, sort. induction l as [|x l IH]; simpl; [reflexivity|].
  rewrite IH. generalize (fold_right (insert compareSeverity) [] l). intro m.
  induction m as [|y m IHm]; simpl; [reflexivity|]. rewrite IHm. reflexivity.
Qed.

Lemma ranked_compare (a b : SecurityVulnerability) :
  ranked a -> ranked b -> compareSeverity a b = (rank a - rank b)%Z.
Proof.
  unfold ranked, compareSeverity, rank, severities. simpl.
  intros [Ha|[Ha|[Ha|[Ha|[]]]]] [Hb|[Hb|[Hb|[Hb|[]]]]];
    rewrite <- Ha, <- Hb; reflexivity.
Qed.

Lemma ranked_rank (v : SecurityVulnerability) (sev : string) :
  ranked v -> In sev severities ->
  (rank v =? match severityOrder sev with Some r => r | None => 0 end)%Z
  = String.eqb (severity v) sev.
Proof.
  unfold ranked, rank, severities. simpl.
  intros [Ha|[Ha|[Ha|[Ha|[]]]]] [Hb|[Hb|[Hb|[Hb|[]]]]];
    rewrite <- Ha, <- Hb; reflexivity.
Qed.

(** Every finding of the code scan of a file is ranked. *)
Lemma vulnsOfFile_ranked (E : Env) (projectPath file : string) :
  Forall ranked (vulnsOfFile E projectPath file).
Proof.
  apply Forall_forall. intros v Hv. unfold vulnsOfFile in Hv.
  destruct (negb (includes jsExtensions (Path.extname file))); [destruct Hv|].
  destruct (readFile E (Path.join2 projectPath file)) as [content|]; simpl in Hv;
    [|destruct Hv].
  unfold scanFileForVulnerabilities in Hv.
  destruct (negb (includes jsExtensions _)); [destruct Hv|].
  apply in_app_or in Hv. destruct Hv as [Hv|Hv].
  - exact (structuralScan_severity _ _ _ _ Hv).
  - exact (secretScan_severity _ _ _ Hv).
Qed.

(** X16.  [analyzeSecurity] returns the collected findings, audit findings
    first, rearranged.  When every audit finding has one of the four
    severities, the result is ordered critical, high, medium, low, and the
    findings of one severity keep the order in which they were collected
    (audit findings before code findings, files in enumeration order). *)
Theorem analyzeSecurity_sorted_stable :
  forall (E : Env) (projectPath : string) (files : list string),
    Permutation (analyzeSecurity E projectPath files)
                (collectedVulns E projectPath files) /\
    (Forall ranked (runNpmAudit E projectPath) ->
     StronglySorted (keyLe rank) (analyzeSecurity E projectPath files) /\
     forall sev, In sev severities ->
       filter (fun v => String.eqb (severity v) sev) (analyzeSecurity E projectPath files)
       = filter (fun v => String.eqb (severity v) sev)
                (collectedVulns E projectPath files)).
Proof.
  intros E projectPath files. unfold analyzeSecurity. rewrite sortBySeverity_sort.
  split; [apply SortFacts.sort_perm|]. intro Haudit.
  assert (Hall : Forall ranked (collectedVulns E projectPath files)).
  { unfold collectedVulns. apply Forall_app. split; [exact Haudit|].
    apply Forall_forall. intros v Hv. apply in_flat_map in Hv.
    destruct Hv as (f & _ & Hv).
    pose proof (vulnsOfFile_ranked E projectPath f) as Hf.
    rewrite Forall_forall in Hf. exact (Hf v Hv). }
  split.
  - exact (SortFacts.sort_sorted compareSeverity rank ranked ranked_compare _ Hall).
  - intros sev Hsev.
    pose proof (SortFacts.sort_filter compareSeverity rank ranked ranked_compare
                  (match severityOrder sev with Some r => r | None => 0%Z end) _ Hall) as H.
    assert (Hext : forall l, Forall ranked l ->
              filter (fun v => (rank v
                                =? match severityOrder sev with Some r => r | None => 0 end)%Z) l
              = filter (fun v => String.eqb (severity v) sev) l).
    { intros l Hl. induction Hl as [|v l Hv Hl IH]; simpl; [reflexivity|].
      rewrite (ranked_rank v sev Hv Hsev), IH. reflexivity. }
    rewrite <- (Hext _ Hall), <- H. symmetry. apply Hext.
    apply SortFacts.sort_Forall. exact Hall.
Qed.

(** X16 on the project whose audit answers in the npm 7 format. *)
Lemma analyzeSecurity_sorted_stable_witness :
  StronglySorted (keyLe rank) (analyzeSecurity (envOf "proj" modernAuditProject) "proj" []).
Proof.
  apply (proj2 (analyzeSecurity_sorted_stable (envOf "proj" modernAuditProject) "proj" [])).
  repeat constructor.
Defined.

(** Splits on the shape of the callee and on the name tests until the
    number of findings is a numeral; the combinations in which two patterns
    would match are contradictory. *)
Ltac one_finding :=
  cbn; try lia;
  match goal with
  | |- context [String.eqb ?a ?b] =>
      let E := fresh "E" in destruct (String.eqb a b) eqn:E; one_finding
  | |- context [match ?o with _ => _ end] => is_var o; destruct o; one_finding
  | _ =>
      repeat match goal with
             | H : String.eqb _ _ = true |- _ => apply String.eqb_eq in H; try subst
             end;
      discriminate
  end.

(** X17.  A node of the tree gives at most one structural finding: the
    four call patterns exclude each other, so a file never has more
    structural findings than nodes. *)
Theorem one_structural_finding_per_node :
  (forall (relativePath : string) (n : Node),
      List.length (securityVisitor relativePath n) <= 1) /\
  (forall (E : Env) (content relativePath : string) (ast : Node),
      parse E securityPlugins content = Ok ast ->
      List.length (structuralScan E content relativePath) <= List.length (preorder ast)).
Proof.
  assert (H1 : forall (relativePath : string) (n : Node),
             List.length (securityVisitor relativePath n) <= 1).
  { intros rel n. destruct n; try (simpl; lia).
    - (* CallExpression *)
      unfold securityVisitor.
      cbn [DANGEROUS_PATTERNS filter pat_name String.eqb Ascii.eqb Bool.eqb negb andb
           flat_map check callee].
      one_finding.
    - (* AssignmentExpression *)
      unfold securityVisitor, namedPatternVisitor. cbn [find DANGEROUS_PATTERNS].
      one_finding.
    - (* JSXAttribute *)
      unfold securityVisitor, namedPatternVisitor. one_finding. }
  split; [exact H1|].
  intros E content rel ast Hparse. unfold structuralScan. rewrite Hparse. cbn.
  unfold traverse. induction (preorder ast) as [|n ns IH]; simpl; [lia|].
  rewrite length_app. specialize (H1 rel n). lia.
Qed.

(** X17 on the tree of [Function('return 1')]. *)
Lemma one_structural_finding_per_node_witness :
  List.length (structuralScan (envOf "proj" callFunctionProject) "Function('return 1')" "a.js")
  <= List.length (preorder (program [OtherNode
       [CallExpression (Some 1) (Identifier "Function") [StringLiteral "return 1"]]])).
Proof.
  exact (proj2 one_structural_finding_per_node (envOf "proj" callFunctionProject)
           "Function('return 1')" "a.js" _ eq_refl).
Defined.

Lemma scanSecrets_sound (patterns : list SecretPattern) (rel : string) (i : nat)
    (l : string) (v : SecurityVulnerability) :
  In v (scanSecrets patterns rel i l) ->
  exists s, In s patterns /\ test (pattern s) l = true /\ v = secretFinding s rel i.
Proof.
  induction patterns as [|s rest IH]; simpl; [intros []|].
  destruct (test (pattern s) l) eqn:Et.
  - intros [<-|[]]. exists s. auto.
  - intro H. destruct (IH H) as (s' & Hs' & Ht & ->). exists s'. auto.
Qed.

Lemma scanLine_length (rel : string) (i : nat) (l : string) :
  List.length (scanLine rel i l) <= 1.
Proof.
  unfold scanLine. destruct (isCommentLine l); [simpl; lia | apply scanSecrets_length].
Qed.

Lemma scanLines_sorted (rel : string) (lines : list string) (k : nat) :
  StronglySorted earlier (scanLines rel k lines) /\
  List.length (scanLines rel k lines) <= List.length lines.
Proof.
  revert k. induction lines as [|l rest IH]; intro k; simpl.
  - split; [constructor | lia].
  - destruct (IH (S k)) as [Hs Hl].
    pose proof (scanLine_length rel k l) as H1.
    pose proof (scanLine_line rel k l) as Hline.
    destruct (scanLine rel k l) as [|v [|w tl]]; simpl in *; [split; [exact Hs|lia]| |lia].
    split; [|lia]. constructor; [exact Hs|].
    apply Forall_forall. intros w Hw. apply scanLines_line in Hw.
    destruct Hw as (j & Hj & Hw). unfold earlier, lineNo.
    rewrite (Hline v (or_introl eq_refl)), Hw. lia.
Qed.

Lemma scanLines_sound (rel : string) (lines : list string) (k : nat)
    (v : SecurityVulnerability) :
  In v (scanLines rel k lines) ->
  exists i l s,
    nth_error lines i = Some l /\ isCommentLine l = false /\
    In s SECRET_PATTERNS /\ test (pattern s) l = true /\ v = secretFinding s rel (k + i).
Proof.
  revert k. induction lines as [|l rest IH]; intro k; simpl; [intros []|].
  rewrite in_app_iff. intros [H|H].
  - unfold scanLine in H. destruct (isCommentLine l) eqn:Ec; [destruct H|].
    apply scanSecrets_sound in H. destruct H as (s & Hs & Ht & ->).
    exists 0, l, s. rewrite Nat.add_0_r. auto.
  - destruct (IH _ H) as (i & l' & s & Hn & Hc & Hs & Ht & ->).
    exists (S i), l', s. replace (k + S i) with (S k + i) by lia. auto.
Qed.

(** X18.  The secret findings of a file are in strictly increasing line
    order and are no more than its lines; each one reports the 1-based
    number of a line that is not a comment line and that the pattern it
    names matches. *)
Theorem secret_findings_point_at_matching_lines :
  forall (content relativePath : string),
    StronglySorted earlier (secretScan content relativePath) /\
    List.length (secretScan content relativePath)
    <= List.length (split newline content) /\
    forall v, In v (secretScan content relativePath) ->
      exists i l s,
        nth_error (split newline content) i = Some l /\
        isCommentLine l = false /\
        In s SECRET_PATTERNS /\
        test (pattern s) l = true /\
        v = secretFinding s relativePath i /\
        line v = Some (i + 1).
Proof.
  intros content rel. unfold secretScan.
  destruct (scanLines_sorted rel (split newline content) 0) as [Hs Hl].
  split; [exact Hs|]. split; [exact Hl|].
  intros v Hv. apply scanLines_sound in Hv.
  destruct Hv as (i & l & s & Hn & Hc & Hin & Ht & ->).
  exists i, l, s. simpl. auto 10.
Qed.

(** X18 on the three-line text: its one finding reports line 2. *)
Lemma secret_findings_point_at_matching_lines_witness :
  exists i l s,
    nth_error (split newline threeLines) i = Some l /\
    isCommentLine l = false /\
    In s SECRET_PATTERNS /\
    test (pattern s) l = true /\
    secretFinding (nth 1 SECRET_PATTERNS (nth 0 SECRET_PATTERNS
      {| pattern := Never; sec_name := ""; sec_severity := "" |})) "f.ts" 1
    = secretFinding s "f.ts" i /\
    line (secretFinding (nth 1 SECRET_PATTERNS (nth 0 SECRET_PATTERNS
      {| pattern := Never; sec_name := ""; sec_severity := "" |})) "f.ts" 1) = Some (i + 1).
Proof.
  apply (proj2 (proj2 (secret_findings_point_at_matching_lines threeLines "f.ts"))).
  vm_compute. left. reflexivity.
Defined.

Lemma runNpmAudit_shape (E : Env) (projectPath : string) (v : SecurityVulnerability) :
  In v (runNpmAudit E projectPath) ->
  vsource v = NpmAudit /\ vfile v = None /\ line v = None
  /\ category v = Some "Dependency Vulnerability".
Proof.
  assert (Hmodern : forall vs, In v (map auditFinding vs) ->
            vsource v = NpmAudit /\ vfile v = None /\ line v = None
            /\ category v = Some "Dependency Vulnerability").
  { intros vs H. apply in_map_iff in H. destruct H as ([nm vuln] & <- & _).
    cbn. auto. }
  assert (Herr : forall out, In v (auditFromError E out) ->
            vsource v = NpmAudit /\ vfile v = None /\ line v = None
            /\ category v = Some "Dependency Vulnerability").
  { intros out H. unfold auditFromError in H.
    destruct (String.length _ =? 0)%nat; [destruct H|].
    destruct (jsonParse E _) as [r|]; cbn in H; [|destruct H].
    destruct (vulnerabilities r) as [vs|]; [exact (Hmodern vs H)|destruct H]. }
  unfold runNpmAudit.
  destruct (negb (pkgJsonExists E) || negb (lockExists E)); [intros []|].
  destruct (execAudit E) as [stdout|out]; [|apply Herr].
  destruct (jsonParse E stdout) as [r|]; [|apply Herr].
  destruct (vulnerabilities r) as [vs|]; [apply Hmodern|].
  destruct (advisories r) as [ads|]; [|intros []].
  intro H. apply in_map_iff in H. destruct H as (a & <- & _). cbn. auto.
Qed.

Lemma vulnsOfFile_shape (E : Env) (projectPath file : string) (v : SecurityVulnerability) :
  In v (vulnsOfFile E projectPath file) ->
  vsource v = CodeScan /\ vfile v = Some (replaceBackslashes file)
  /\ includes jsExtensions (Path.extname file) = true
  /\ exists content, readFile E (Path.join2 projectPath file) = Ok content.
Proof.
  unfold vulnsOfFile.
  destruct (includes jsExtensions (Path.extname file)) eqn:Eext; cbn; [|intros []].
  destruct (readFile E (Path.join2 projectPath file)) as [content|] eqn:Er; cbn;
    [|intros []].
  unfold scanFileForVulnerabilities.
  destruct (negb (includes jsExtensions _)); [intros []|].
  intro H. apply in_app_or in H.
  assert (vsource v = CodeScan /\ vfile v = Some (replaceBackslashes file)) as [Hs Hf].
  { destruct H as [H|H].
    - unfold structuralScan in H.
      destruct (parse E securityPlugins content) as [ast|]; cbn in H; [|destruct H].
      unfold traverse in H. apply in_flat_map in H. destruct H as (n & _ & H).
      apply securityVisitor_pattern in H. destruct H as (p & _ & _ & ->). cbn. auto.
    - unfold secretScan in H. apply scanLines_sound in H.
      destruct H as (i & l & s & _ & _ & _ & _ & ->). cbn. auto. }
  repeat split; auto. exists content. reflexivity.
Qed.

(** X19.  Every finding of [analyzeSecurity] is of one of two kinds.  An
    audit finding has source [npm-audit], category
    [Dependency Vulnerability] and neither file nor line.  A code finding
    has source [code-scan] and names as its file the normalised path of an
    enumerated file that could be read and whose extension is [.js],
    [.jsx], [.ts] or [.tsx]. *)
Theorem findings_are_audit_or_code :
  forall (E : Env) (projectPath : string) (files : list string) (v : SecurityVulnerability),
    In v (analyzeSecurity E projectPath files) ->
    (In v (runNpmAudit E projectPath) /\
     vsource v = NpmAudit /\ vfile v = None /\ line v = None /\
     category v = Some "Dependency Vulnerability") \/
    (vsource v = CodeScan /\
     exists file content,
       In file files /\
       vfile v = Some (replaceBackslashes file) /\
       includes jsExtensions (Path.extname file) = true /\
       readFile E (Path.join2 projectPath file) = Ok content).
Proof.
  intros E projectPath files v H. unfold analyzeSecurity in H.
  apply (proj1 (sortBySeverity_In _ _)) in H. unfold collectedVulns in H.
  apply in_app_or in H. destruct H as [H|H].
  - left. split; [exact H|]. exact (runNpmAudit_shape E projectPath v H).
  - right. apply in_flat_map in H. destruct H as (file & Hfile & H).
    apply vulnsOfFile_shape in H. destruct H as (Hs & Hf & Hext & content & Hr).
    split; [exact Hs|]. exists file, content. auto.
Qed.

(** X19 on the file that calls [Function]. *)
Lemma findings_are_audit_or_code_witness :
  vsource (codeFinding functionPattern "a.js"
             (CallExpression (Some 1) (Identifier "Function") [StringLiteral "return 1"]))
  = CodeScan.
Proof.
  destruct (findings_are_audit_or_code (envOf "proj" callFunctionProject) "proj" ["a.js"]
              (codeFinding functionPattern "a.js"
                 (CallExpression (Some 1) (Identifier "Function")
                                 [StringLiteral "return 1"])))
    as [(_ & H & _)|(H & _)].
  - vm_compute. left. reflexivity.
  - discriminate H.
  - exact H.
Defined.

End FindingProofs.

(* ================================================================== *)
(** * Properties of the commit hotspots *)
(* ================================================================== *)

Module HotspotProofs.
Import JsString World Git HotspotSpec Scan ScanSpec JsArray.

Lemma filter_partition_perm {A : Type} (p : A -> bool) (l : list A) :
  Permutation (filter p l ++ filter (fun x => negb (p x)) l) l.
Proof.
  induction l as [|a l IH]; simpl; [apply perm_nil|].
  destruct (p a); simpl.
  - apply perm_skip. exact IH.
  - apply Permutation_sym. apply Permutation_cons_app. apply Permutation_sym. exact IH.
Qed.

(** [Object.entries] lists every member once. *)
Lemma entries_perm (fileCounts : list (string * Z)) :
  Permutation (entries fileCounts) fileCounts.
Proof.
  unfold entries.
  apply perm_trans with
    (filter (fun e => isArrayIndex (fst e)) fileCounts
     ++ filter (fun e => negb (isArrayIndex (fst e))) fileCounts)%list.
  - apply Permutation_app_tail. apply SortFacts.sort_perm.
  - apply filter_partition_perm.
Qed.

Lemma occurrences_cons (f x : string) (files : list string) :
  occurrences f (x :: files)
  = (occurrences f files + (if String.eqb f x then 1 else 0))%Z.
Proof.
  unfold occurrences. simpl.
  destruct (string_dec x f) as [->|Hne].
  - rewrite String.eqb_refl. lia.
  - destruct (String.eqb_spec f x); [congruence|lia].
Qed.

Lemma fold_countFile (files : list string) (acc : list (string * Z)) :
  NoDup (map fst acc) ->
  let r := fold_left (fun counts file => countFile file counts) files acc in
  NoDup (map fst r) /\
  (forall f, countOf f r = (countOf f acc + occurrences f files)%Z) /\
  (forall f, In f (map fst r) <-> In f (map fst acc) \/ In f files).
Proof.
  revert acc. induction files as [|x files IH]; intros acc Hnd; simpl.
  - split; [exact Hnd|]. split; [intro f; unfold occurrences; simpl; lia|].
    intro f. tauto.
  - destruct (ScanProofs.countExtension_spec x acc) as (Hc & Hn & Hi & _).
    specialize (IH (countFile x acc) (Hn Hnd)). cbv zeta in IH.
    destruct IH as (I1 & I2 & I3). unfold countFile in *.
    split; [exact I1|]. split.
    + intro f. rewrite I2, Hc, occurrences_cons. lia.
    + intro f. rewrite I3, Hi. intuition (subst; auto).
Qed.

Lemma countOf_In (l : list (string * Z)) (k : string) (n : Z) :
  NoDup (map fst l) -> In (k, n) l -> countOf k l = n.
Proof.
  induction l as [|[k' n'] l IH]; simpl; [intros _ []|].
  intros Hnd [H|H].
  - injection H as -> ->. rewrite String.eqb_refl. reflexivity.
  - inversion Hnd as [|? ? Hk Hl]; subst.
    destruct (String.eqb_spec k k') as [->|Hne]; [|exact (IH Hl H)].
    exfalso. apply Hk. apply in_map_iff. exists (k', n). auto.
Qed.

Lemma StronglySorted_app_inv {A : Type} (R : A -> A -> Prop) (l1 l2 : list A) :
  StronglySorted R (l1 ++ l2) ->
  StronglySorted R l1 /\ forall a b, In a l1 -> In b l2 -> R a b.
Proof.
  induction l1 as [|x l1 IH]; simpl; intro H.
  - split; [constructor | intros a b []].
  - inversion H as [|? ? Hs Hf]; subst. destruct (IH Hs) as [Hs1 Hab].
    split.
    + constructor; [exact Hs1|]. apply Forall_forall. intros y Hy.
      rewrite Forall_forall in Hf. apply Hf. apply in_or_app. left. exact Hy.
    + intros a b [<-|Ha] Hb.
      * rewrite Forall_forall in Hf. apply Hf. apply in_or_app. right. exact Hb.
      * exact (Hab a b Ha Hb).
Qed.

(** The hotspots computed from a log text. *)
Lemma hotspotsOfLog_spec (raw : string) :
  let l := hotspotsOfLog raw in
  let files := changedFiles raw in
  List.length l <= 10 /\
  NoDup (map file l) /\
  StronglySorted moreCommits l /\
  (forall h, In h l ->
     commits h = occurrences (file h) files /\ (1 <= commits h)%Z) /\
  (forall f h, In f files -> ~ In f (map file l) -> In h l ->
     (occurrences f files <= commits h)%Z).
Proof.
  intros l files. subst l. unfold hotspotsOfLog. fold files.
  set (counts := fold_left (fun counts file => countFile file counts) files []).
  destruct (fold_countFile files [] (NoDup_nil _)) as (Hnd & Hcount & Hkeys).
  fold counts in Hnd, Hcount, Hkeys.
  set (mk := fun e : string * Z => {| file := fst e; commits := snd e |}).
  set (all := sort byCommitsDescending (map mk (entries counts))).
  assert (Hperm : Permutation all (map mk counts)).
  { apply perm_trans with (map mk (entries counts)); [apply SortFacts.sort_perm|].
    apply Permutation_map. apply entries_perm. }
  assert (Hfiles : map file (map mk counts) = map fst counts).
  { rewrite map_map. reflexivity. }
  assert (Hall : forall h, In h all ->
            commits h = occurrences (file h) files /\ (1 <= commits h)%Z).
  { intros h Hh. apply (Permutation_in h Hperm) in Hh. apply in_map_iff in Hh.
    destruct Hh as ([k n] & <- & Hkn). cbn.
    pose proof (countOf_In counts k n Hnd Hkn) as Hn. rewrite Hcount in Hn. simpl in Hn.
    assert (Hin : In k files).
    { assert (In k (map fst counts)) by (apply in_map_iff; exists (k, n); auto).
      apply Hkeys in H. destruct H as [[]|H]. exact H. }
    split; [lia|]. unfold occurrences in *.
    apply (count_occ_In string_dec) in Hin. lia. }
  assert (Hsorted : StronglySorted moreCommits all).
  { apply (ScanProofs.StronglySorted_impl (keyLe (fun h => (- commits h)%Z))).
    - intros a b. unfold keyLe, moreCommits. lia.
    - apply (SortFacts.sort_sorted byCommitsDescending (fun h => (- commits h)%Z)
               (fun _ => True)).
      + intros a b _ _. unfold byCommitsDescending. lia.
      + apply Forall_forall. auto. }
  assert (Hnodup : NoDup (map file all)).
  { apply (Permutation_NoDup (l := map file (map mk counts))).
    - apply Permutation_sym. apply Permutation_map. exact Hperm.
    - rewrite Hfiles. exact Hnd. }
  rewrite <- (firstn_skipn 10 all) in Hsorted, Hnodup.
  apply StronglySorted_app_inv in Hsorted. destruct Hsorted as [Hs1 Hs2].
  rewrite map_app in Hnodup.
  split; [apply firstn_le_length|].
  split; [exact (NoDup_app_remove_r _ _ Hnodup)|].
  split; [exact Hs1|].
  split.
  - intros h Hh. apply Hall. rewrite <- (firstn_skipn 10 all).
    apply in_or_app. left. exact Hh.
  - intros f h Hf Hnot Hh.
    assert (Hkey : In f (map fst counts)) by (apply Hkeys; right; exact Hf).
    rewrite <- Hfiles in Hkey.
    apply (Permutation_in f (Permutation_map file (Permutation_sym Hperm))) in Hkey.
    apply in_map_iff in Hkey. destruct Hkey as (h' & <- & Hh').
    rewrite <- (firstn_skipn 10 all) in Hh'. apply in_app_or in Hh'.
    destruct Hh' as [Hh'|Hh'].
    + exfalso. apply Hnot. apply in_map. exact Hh'.
    + specialize (Hs2 h h' Hh Hh'). unfold moreCommits in Hs2.
      assert (In h' all) by (rewrite <- (firstn_skipn 10 all); apply in_or_app; auto).
      destruct (Hall h' H) as [He _]. lia.
Qed.

(** X20.  When [getGitHotspots] has an answer it lists at most ten files,
    each once, most commits first; the commits of a listed file are the
    number of log lines that name it, at least one; and no file of the log
    that is left out was changed more often than a listed one.  Outside a
    repository, or when a git call fails, the answer is the empty list. *)
Theorem hotspots_are_the_most_changed_files :
  (forall (G : GitEnv) (l : list Hotspot),
      getGitHotspots G = Hotspots l ->
      List.length l <= 10 /\
      NoDup (map file l) /\
      StronglySorted moreCommits l /\
      (forall h, In h l ->
         exists raw, rawLog G = Ok raw
                     /\ commits h = occurrences (file h) (changedFiles raw)
                     /\ (1 <= commits h)%Z) /\
      (forall raw f h,
         rawLog G = Ok raw -> In f (changedFiles raw) -> ~ In f (map file l) -> In h l ->
         (occurrences f (changedFiles raw) <= commits h)%Z)) /\
  (forall G : GitEnv,
      checkIsRepo G = Ok false \/ checkIsRepo G = Throw
      \/ logNameOnly G = Throw \/ rawLog G = Throw ->
      getGitHotspots G = Hotspots []).
Proof.
  split.
  - intros G l H.
    assert (Hnil : l = [] ->
              List.length l <= 10 /\ NoDup (map file l) /\ StronglySorted moreCommits l /\
              (forall h, In h l ->
                 exists raw, rawLog G = Ok raw
                             /\ commits h = occurrences (file h) (changedFiles raw)
                             /\ (1 <= commits h)%Z) /\
              (forall raw f h,
                 rawLog G = Ok raw -> In f (changedFiles raw) -> ~ In f (map file l) ->
                 In h l -> (occurrences f (changedFiles raw) <= commits h)%Z)).
    { intros ->. simpl. split; [lia|]. split; [constructor|]. split; [constructor|].
      split; [intros h []|intros raw f h _ _ _ []]. }
    unfold getGitHotspots in H.
    destruct (checkIsRepo G) as [[|]|]; try (injection H as <-; apply Hnil; reflexivity).
    destruct (logNameOnly G); try (injection H as <-; apply Hnil; reflexivity).
    destruct (rawLog G) as [raw|] eqn:Er; try (injection H as <-; apply Hnil; reflexivity).
    destruct (existsb _ _); [discriminate|]. injection H as <-.
    destruct (hotspotsOfLog_spec raw) as (H1 & H2 & H3 & H4 & H5).
    split; [exact H1|]. split; [exact H2|]. split; [exact H3|]. split.
    + intros h Hh. exists raw. split; [reflexivity|]. exact (H4 h Hh).
    + intros raw' f h [= <-]. apply H5.
  - intros G H. unfold getGitHotspots.
    destruct H as [->|[->|[H|H]]]; try reflexivity.
    + destruct (checkIsRepo G) as [[|]|]; try reflexivity. rewrite H. reflexivity.
    + destruct (checkIsRepo G) as [[|]|]; try reflexivity.
      destruct (logNameOnly G); try reflexivity. rewrite H. reflexivity.
Qed.

(** X20 on a log of three commits. *)
Lemma hotspots_are_the_most_changed_files_witness :
  getGitHotspots sampleGit
  = Hotspots [ {| file := "a.ts"; commits := 3 |}; {| file := "b.ts"; commits := 2 |};
               {| file := "1"; commits := 1 |} ] /\
  NoDup (map file [ {| file := "a.ts"; commits := 3 |}; {| file := "b.ts"; commits := 2 |};
                    {| file := "1"; commits := 1 |} ]) /\
  getGitHotspots {| checkIsRepo := Ok false; logNameOnly := Throw; rawLog := Throw |}
  = Hotspots [].
Proof.
  split; [reflexivity|]. split.
  - exact (proj1 (proj2 (proj1 hotspots_are_the_most_changed_files sampleGit _ eq_refl))).
  - apply (proj2 hotspots_are_the_most_changed_files). left. reflexivity.
Defined.

End HotspotProofs.

(* ================================================================== *)
(** * Properties of the bundle size estimate *)
(* ================================================================== *)

Module BundleProofs.
Import JsString World Performance BundleSpec DependenciesSpec.

(** Induction on a tree with the hypothesis for every entry of a listed
    directory. *)
Lemma Entry_tree_ind (P : Entry -> Prop) :
  (forall name sz, P (FileEntry name sz)) ->
  (forall name, P (DirEntry name Throw)) ->
  (forall name entries, Forall P entries -> P (DirEntry name (Ok entries))) ->
  (forall name, P (OtherEntry name)) ->
  forall entry, P entry.
Proof.
  intros Hf Ht Hd Ho.
  fix IH 1. intros [name sz|name [entries|]|name].
  - apply Hf.
  - apply Hd. induction entries as [|e es IHes]; constructor; [apply IH | exact IHes].
  - apply Ht.
  - apply Ho.
Qed.

Lemma sumEntries_bounds (entries : list Entry) :
  Forall (fun e =>
            (nonNegative e = true ->
             (0 <= fullSize e)%Z /\
             match sizeOfEntry e with
             | Ok n => (0 <= n <= fullSize e)%Z
             | Throw => True
             end) /\
            (statsSucceed e = true -> sizeOfEntry e = Ok (fullSize e))) entries ->
  (forallb nonNegative entries = true ->
   (0 <= fullSizeOf (Ok entries))%Z /\
   forall size, (size <= sumEntries sizeOfEntry entries size <= size + fullSizeOf (Ok entries))%Z) /\
  (forallb statsSucceed entries = true ->
   forall size, sumEntries sizeOfEntry entries size = (size + fullSizeOf (Ok entries))%Z).
Proof.
  unfold fullSizeOf.
  induction 1 as [|e es [Hn Hs] _ [IHn IHs]]; cbn [forallb sumEntries fold_right].
  - split; intros _; [split; [lia|]|]; intro size; lia.
  - split.
    + intro H. apply andb_true_iff in H. destruct H as [He Hes].
      destruct (Hn He) as [Hfull Hsz]. destruct (IHn Hes) as [Hrest Hloop].
      split; [lia|]. intro size.
      destruct (sizeOfEntry e) as [n|]; [|lia].
      specialize (Hloop (size + n)%Z). lia.
    + intro H. apply andb_true_iff in H. destruct H as [He Hes].
      rewrite (Hs He). intro size. rewrite (IHs Hes). lia.
Qed.

Lemma sizeOfEntry_bounds (entry : Entry) :
  (nonNegative entry = true ->
   (0 <= fullSize entry)%Z /\
   match sizeOfEntry entry with
   | Ok n => (0 <= n <= fullSize entry)%Z
   | Throw => True
   end) /\
  (statsSucceed entry = true -> sizeOfEntry entry = Ok (fullSize entry)).
Proof.
  induction entry as [name sz|name|name entries IH|name] using Entry_tree_ind.
  - destruct sz as [sz|]; simpl; split; try discriminate; intros; auto.
    + apply Z.leb_le in H. lia.
    + split; [lia|exact I].
  - simpl. destruct (String.eqb name "node_modules"); simpl; split; intros; auto; lia.
  - destruct (sumEntries_bounds entries IH) as [Hn Hs].
    change (fullSize (DirEntry name (Ok entries)))
      with (if String.eqb name "node_modules" then 0%Z else fullSizeOf (Ok entries)).
    change (sizeOfEntry (DirEntry name (Ok entries)))
      with (if negb (String.eqb name "node_modules")
            then Ok (sumEntries sizeOfEntry entries 0%Z) else Ok 0%Z).
    change (nonNegative (DirEntry name (Ok entries))) with (forallb nonNegative entries).
    change (statsSucceed (DirEntry name (Ok entries)))
      with (String.eqb name "node_modules" || forallb statsSucceed entries).
    destruct (String.eqb name "node_modules"); cbn [negb orb].
    + split; intros; [lia|reflexivity].
    + split.
      * intro H. destruct (Hn H) as [H0 Hl]. specialize (Hl 0%Z). lia.
      * intro H. rewrite (Hs H). reflexivity.
  - simpl. split; intros; [lia|reflexivity].
Qed.

Lemma getDirSize_entries (entries : list Entry) :
  (forallb nonNegative entries = true ->
   (0 <= getDirSize (Ok entries) <= fullSizeOf (Ok entries))%Z) /\
  (forallb statsSucceed entries = true ->
   getDirSize (Ok entries) = fullSizeOf (Ok entries)).
Proof.
  unfold getDirSize.
  assert (HF : Forall (fun e =>
            (nonNegative e = true ->
             (0 <= fullSize e)%Z /\
             match sizeOfEntry e with
             | Ok n => (0 <= n <= fullSize e)%Z
             | Throw => True
             end) /\
            (statsSucceed e = true -> sizeOfEntry e = Ok (fullSize e))) entries)
    by (apply Forall_forall; intros e _; apply sizeOfEntry_bounds).
  destruct (sumEntries_bounds entries HF) as [Hn Hs].
  split.
  - intro H. destruct (Hn H) as [_ Hl]. specialize (Hl 0%Z). lia.
  - intro H. rewrite (Hs H). reflexivity.
Qed.

(** X21.  [getDirSize] never counts more than the files of the tree that
    lie outside nested [node_modules] directories: when no file size is
    negative the result is between 0 and the sum of those files, and it is
    that sum when every [fs.stat] on them succeeds.  Links and other
    entries count for nothing, and a directory that cannot be listed counts
    for 0. *)
Theorem getDirSize_bounds :
  forall listing : Exc (list Entry),
    (match listing with Ok entries => forallb nonNegative entries | Throw => true end = true ->
     (0 <= getDirSize listing <= fullSizeOf listing)%Z) /\
    (match listing with Ok entries => forallb statsSucceed entries | Throw => true end = true ->
     getDirSize listing = fullSizeOf listing) /\
    getDirSize Throw = 0%Z.
Proof.
  intros [entries|]; [|cbn; repeat split; intros; lia].
  destruct (getDirSize_entries entries) as [Hn Hs].
  split; [exact Hn|]. split; [exact Hs|reflexivity].
Qed.

(** X21 on a package directory in which one [fs.stat] fails: the file
    after it is not counted. *)
Lemma getDirSize_bounds_witness :
  (0 <= getDirSize (Ok samplePackage) <= fullSizeOf (Ok samplePackage))%Z /\
  getDirSize (Ok samplePackage) = 1500%Z /\ fullSizeOf (Ok samplePackage) = 1550%Z /\
  getDirSize (Ok [DirEntry "lib" (Ok [FileEntry "index.js" (Ok 1200%Z)])])
  = fullSizeOf (Ok [DirEntry "lib" (Ok [FileEntry "index.js" (Ok 1200%Z)])]).
Proof.
  split; [|split; [reflexivity|split; [reflexivity|]]].
  - apply (proj1 (getDirSize_bounds (Ok samplePackage))). reflexivity.
  - apply (proj1 (proj2 (getDirSize_bounds
             (Ok [DirEntry "lib" (Ok [FileEntry "index.js" (Ok 1200%Z)])])))).
    reflexivity.
Defined.

Lemma sumDepSizes_bounds (nm : NodeModules) (deps : list string) :
  sizesNonNegative nm ->
  forall totalSize,
    (totalSize <= sumDepSizes nm deps totalSize <= totalSize + installedSize nm deps)%Z.
Proof.
  intro Hnm. induction deps as [|dep rest IH]; intro totalSize; simpl; [lia|].
  destruct (nm dep) as [listing|] eqn:Ed.
  - specialize (IH (totalSize + getDirSize listing)%Z).
    assert (0 <= getDirSize listing <= fullSizeOf listing)%Z; [|lia].
    destruct listing as [entries|].
    + exact (proj1 (getDirSize_entries entries) (Hnm dep entries Ed)).
    + cbn. lia.
  - specialize (IH totalSize). lia.
Qed.

(** X23.  The bundle estimate is 0 without a manifest, with a manifest
    that cannot be read and without a [node_modules] directory.  Otherwise
    it counts the installed packages named in [dependencies] only (not
    those of [devDependencies]), and when no file size is negative it lies
    between 0 and the full size of their directories. *)
Theorem estimateBundleSize_bounds :
  (forall (E : Env) (nodeModules : option NodeModules),
      pkgJsonExists E = false \/ readJson E = Throw \/ nodeModules = None ->
      estimateBundleSize E nodeModules = 0%Z) /\
  (forall (E : Env) (nm : NodeModules) (pkg : Pkg),
      pkgJsonExists E = true ->
      readJson E = Ok pkg ->
      sizesNonNegative nm ->
      (0 <= estimateBundleSize E (Some nm)
       <= installedSize nm
            (map fst (match pkgDependencies pkg with Some d => d | None => [] end)))%Z).
Proof.
  split.
  - intros E nodeModules H. unfold estimateBundleSize.
    destruct (pkgJsonExists E); cbn [negb]; [|reflexivity].
    destruct (readJson E) as [pkg|]; [|reflexivity].
    destruct H as [H|[H|H]]; try discriminate. rewrite H. reflexivity.
  - intros E nm pkg Hex Hread Hnm. unfold estimateBundleSize. rewrite Hex, Hread.
    cbn [negb].
    pose proof (sumDepSizes_bounds nm
                  (map fst (match pkgDependencies pkg with Some d => d | None => [] end))
                  Hnm 0%Z). lia.
Qed.

(** X23 on the manifest that has [left-pad] in [dependencies]. *)
Lemma estimateBundleSize_bounds_witness :
  estimateBundleSize (envOf "proj" smallProject) (Some sampleModules) = 0%Z /\
  (0 <= estimateBundleSize (envOf "proj" lintedProject) (Some sampleModules) <= 1550)%Z.
Proof.
  split.
  - apply (proj1 estimateBundleSize_bounds). left. reflexivity.
  - apply (proj2 estimateBundleSize_bounds (envOf "proj" lintedProject) sampleModules
             _ eq_refl eq_refl).
    intros dep entries H. unfold sampleModules in H.
    destruct (String.eqb dep "left-pad"); [|discriminate].
    injection H as <-. reflexivity.
Defined.

End BundleProofs.

(* ================================================================== *)
(** * Properties of the [.gitignore] entry *)
(* ================================================================== *)

Module AnalyzeProofs.
Import JsString Loc Analyze.

Lemma isInfix_app_r (p a b : string) : isInfix p b = true -> isInfix p (a ++ b) = true.
Proof.
  intro H. induction a as [|c a IH]; [exact H|].
  cbn [append isInfix]. rewrite IH. apply orb_true_r.
Qed.

(** X22.  Handling [.gitignore] is idempotent: a second run leaves the
    file as the first run left it.  A missing file is not created; an
    existing file keeps its content as a prefix and mentions [.moduly]
    afterwards. *)
Theorem gitignore_update_idempotent :
  forall gitignore : option string,
    gitignoreAfter (gitignoreAfter gitignore) = gitignoreAfter gitignore /\
    (gitignore = None -> gitignoreAfter gitignore = None) /\
    (forall content, gitignore = Some content ->
       exists added,
         gitignoreAfter gitignore = Some (content ++ added) /\
         includesFrom (content ++ added) ".moduly" 0 = true).
Proof.
  assert (Happ : forall c, (c ++ "")%string = c)
    by (induction c as [|x c IH]; simpl; [reflexivity | rewrite IH; reflexivity]).
  intros [content|]; unfold gitignoreAfter.
  - destruct (includesFrom content ".moduly" 0) eqn:E; cbn [negb].
    + rewrite E. cbn [negb]. split; [reflexivity|]. split; [discriminate|].
      intros c [= <-]. exists "". rewrite Happ. auto.
    + set (added := String newline ("# Moduly" ++ String newline (".moduly" ++ String newline ""))).
      assert (Hin : includesFrom (content ++ added) ".moduly" 0 = true)
        by (unfold includesFrom; cbn [dropChars]; apply isInfix_app_r; reflexivity).
      rewrite Hin. cbn [negb]. split; [reflexivity|]. split; [discriminate|].
      intros c [= <-]. exists added. auto.
  - split; [reflexivity|]. split; [reflexivity|]. intros c H. discriminate H.
Qed.

(** X22 on a file that lists [node_modules] only. *)
Lemma gitignore_update_idempotent_witness :
  exists added,
    gitignoreAfter (Some "node_modules") = Some ("node_modules" ++ added) /\
    includesFrom ("node_modules" ++ added) ".moduly" 0 = true.
Proof.
  exact (proj2 (proj2 (gitignore_update_idempotent (Some "node_modules")))
           "node_modules" eq_refl).
Defined.

End AnalyzeProofs.

(* ================================================================== *)
(** * The score of a report *)
(* ================================================================== *)

Module ReportProofs.
Import Types Project JsString World Dependencies Security Scan.
Import ProjectProofs DependenciesSpec ScanSpec.

Lemma scanStats_totalFiles (E : Env) (statSize : string -> Exc Z) (projectPath : string)
    (files : list string) :
  totalFiles (counts (scanStats E statSize projectPath files))
  = Z.of_nat (List.length files).
Proof.
  unfold scanStats. cbn [counts].
  match goal with
  | |- context [fold_left ?f files ?s] => set (start := s)
  end.
  rewrite (proj1 (ScanProofs.fold_scanStep_counts E statSize projectPath files start)).
  reflexivity.
Qed.

(** X24.  In the report of [scanProject] the unused-dependency count is a
    length, so the clamp never acts: the score is 100 minus the seven
    deductions.  The file deduction is decided by the number of enumerated
    files, which also bounds the graph: a project of more than 200 files
    scores at most 90, and one of 667 or more files scores at least 15,
    whatever its content, its history and its findings. *)
Theorem scanProject_score :
  forall (E : Env) (statSize : string -> Exc Z) (hotspots : list Hotspot)
         (projectPath : string) (files : list string),
    let score := scanProjectScore E statSize hotspots projectPath files in
    score
    = rawScore (counts (scanStats E statSize projectPath files)) hotspots
        (analyzeFileDependencies E projectPath files)
        (Z.of_nat (List.length (unused (analyzePackageDeps E projectPath files))))
        (analyzeSecurity E projectPath files) /\
    (200 < List.length files -> (score <= 90)%Z) /\
    (667 <= List.length files -> (15 <= score)%Z).
Proof.
  intros E statSize hotspots projectPath files score. subst score.
  unfold scanProjectScore.
  rewrite score_is_rawScore by lia.
  split; [reflexivity|].
  rewrite rawScore_sum, scanStats_totalFiles.
  pose proof (securityPenalty_range (analyzeSecurity E projectPath files)).
  pose proof (activeHotspots_nonneg hotspots).
  split; intro Hlen.
  - destruct (200 <? Z.of_nat (List.length files))%Z eqn:Ef;
      [|apply Z.ltb_ge in Ef; lia].
    destruct (10000 <? _)%Z, (Qltb 3%Q _), (_ && _); lia.
  - rewrite (GraphProofs.coupling_false_from_667 E projectPath files Hlen).
    destruct (200 <? _)%Z, (10000 <? _)%Z, (_ && _); lia.
Qed.

(** X24 on the project of 1001 files. *)
Lemma scanProject_score_witness :
  (15 <= scanProjectScore (envOf "proj" largeProject) (fun _ => Ok 0%Z) [] "proj" manyFiles
   <= 90)%Z.
Proof.
  destruct (scanProject_score (envOf "proj" largeProject) (fun _ => Ok 0%Z) [] "proj"
              manyFiles) as (_ & Hhi & Hlo).
  split.
  - apply Hlo. apply Nat.leb_le. vm_compute. reflexivity.
  - apply Hhi. apply Nat.ltb_lt. vm_compute. reflexivity.
Defined.

End ReportProofs.
